(** * NetVision backend: quality scoring, best-zone resolver and the
      WebSocket measurement session

    A shallow embedding of
      - [src/Utils/qualityScore.js]            (calculateQualityScore),
      - [src/config/constants.js]              (CONSTANTS),
      - [src/controllers/ConnecitivityController.js] (findBestZoneHelper),
      - [src/websocket/measurementHandler.js]  (the per-connection handler),
    then of the other exports of [qualityScore.js], of
    [compareWithTowerMetrics] of [src/Utils/towerComparison.js] and of
    [recordMeasurement] of the controller, followed by the properties
    proved about them.

    Conventions of the embedding.
      - In the first part a JavaScript number is an exact rational ([Q])
        and arithmetic is exact; [NaN] only arises from a coercion or
        from arithmetic, and is the [None] of [option Q].  What is proved
        there rests on no rounding.
      - [JSValue] is what a decoded JSON body or message can hold in a
        field, plus [undefined] for an absent field.
      - A function that may throw returns a [Completion].
      - In the first part, code awaiting a collaborator (record store,
        token verification) is run to its end before the next message is
        looked at.
      - Where the rounding of IEEE 754 doubles, NaN as an argument, the
        infinities, or a second message during an await decide, the
        code is embedded again: [Double] has the doubles and their
        operations, [Precise] the functions over them and the stop case
        of the listener split at its await. *)

From Stdlib Require Import QArith Qround Qabs Qminmax Qpower Lqa Lia ZArith.
From Stdlib Require Import String List Bool DecimalString.
Import ListNotations.

Open Scope Q_scope.
Open Scope string_scope.

(** ** Completions: a normal return or a thrown [Error] with its message *)

Inductive Completion (A : Type) : Type :=
| Return (a : A)
| Throw (message : string).

Arguments Return {A} a.
Arguments Throw {A} message.

(** ** JavaScript values and operators used by the sources *)

Module JS.

Inductive JSValue : Type :=
| JUndefined
| JNull
| JBoolean (b : bool)
| JNumber (q : Q)
| JString (s : string).

(** [typeof v] *)
Definition typeof (v : JSValue) : string :=
  match v with
  | JUndefined => "undefined"
  | JNull => "object"
  | JBoolean _ => "boolean"
  | JNumber _ => "number"
  | JString _ => "string"
  end.

(** A number as an expression yields it: a rational, or [None] for NaN. *)
Definition number : Type := option Q.

Definition NaN : number := None.

(** [x < y] and [x > y] on rationals, as booleans. *)
Definition Qltb (x y : Q) : bool := negb (Qle_bool y x).
Definition Qgtb (x y : Q) : bool := Qltb y x.

Definition Qgeb (x y : Q) : bool := Qle_bool y x.

(** Comparisons of a number with a literal; false on NaN. *)
Definition num_lt (x : number) (k : Q) : bool :=
  match x with Some x => Qltb x k | None => false end.
Definition num_gt (x : number) (k : Q) : bool :=
  match x with Some x => Qgtb x k | None => false end.
Definition num_ge (x : number) (k : Q) : bool :=
  match x with Some x => Qgeb x k | None => false end.

(** The part of the language that the sources leave to the engine:
    the conversions between strings and numbers. *)
Class Conversions : Type := {
  StringToNumber : string -> number;
  NumberToString : number -> string
}.

Section Operators.
Context {conv : Conversions}.

(** ToBoolean, as in [if (v)], [!v] and [v || d]. *)
Definition ToBoolean (v : JSValue) : bool :=
  match v with
  | JUndefined | JNull => false
  | JBoolean b => b
  | JNumber q => negb (Qeq_bool q 0)
  | JString s => negb (String.eqb s "")
  end.

(** ToNumber *)
Definition ToNumber (v : JSValue) : number :=
  match v with
  | JUndefined => NaN
  | JNull => Some 0
  | JBoolean b => Some (if b then 1 else 0)
  | JNumber q => Some q
  | JString s => StringToNumber s
  end.

(** ToString *)
Definition ToString (v : JSValue) : string :=
  match v with
  | JUndefined => "undefined"
  | JNull => "null"
  | JBoolean b => if b then "true" else "false"
  | JNumber q => NumberToString (Some q)
  | JString s => s
  end.

(** [v < k], [v > k] and [v >= k] against a numeric literal [k]: the
    value is coerced with ToNumber, and a comparison with NaN is
    false. *)
Definition lt (v : JSValue) (k : Q) : bool := num_lt (ToNumber v) k.
Definition gt (v : JSValue) (k : Q) : bool := num_gt (ToNumber v) k.
Definition ge (v : JSValue) (k : Q) : bool := num_ge (ToNumber v) k.

(** [a || b] *)
Definition or (a b : JSValue) : JSValue :=
  if ToBoolean a then a else b.

(** [a === 'literal'] *)
Definition strict_eq_string (a : JSValue) (literal : string) : bool :=
  match a with
  | JString s => String.eqb s literal
  | _ => false
  end.

(** The running value of [list.reduce((sum, m) => sum + m.field, 0)]:
    [+] adds numbers, and concatenates as soon as one side is a
    string. *)
Inductive Sum : Type :=
| SumNumber (n : number)
| SumString (s : string).

Definition plus (sum : Sum) (v : JSValue) : Sum :=
  match sum, v with
  | SumString a, _ => SumString (a ++ ToString v)
  | SumNumber n, JString s => SumString (NumberToString n ++ s)
  | SumNumber n, _ =>
      SumNumber (match n, ToNumber v with
                 | Some x, Some y => Some (x + y)
                 | _, _ => NaN
                 end)
  end.

(** [sum / n] for a positive count [n]. *)
Definition divide (sum : Sum) (n : nat) : number :=
  let numerator :=
    match sum with
    | SumNumber x => x
    | SumString s => StringToNumber s
    end in
  option_map (fun x => x / inject_Z (Z.of_nat n)) numerator.

End Operators.

(** [Math.round]: the nearest integer, a tie going up. *)
Definition Math_round (x : Q) : Q := inject_Z (Qfloor (x + (1 # 2))).

Definition Math_abs (x : Q) : Q := Qabs x.
Definition Math_max (x y : Q) : Q := Qmax x y.
Definition Math_min (x y : Q) : Q := Qmin x y.

(** [parseFloat(x.toFixed(2))]: [toFixed] works on the magnitude,
    takes the integer [n] with [n / 100] nearest to it (the larger one
    on a tie) and puts the sign back; from 1e21 on it prints the number
    itself.  [parseFloat] reads the digits back. *)
Definition parseFloat_toFixed2 (x : Q) : Q :=
  if Qle_bool (inject_Z (10 ^ 21)) (Qabs x) then x
  else
    let n := inject_Z (Qfloor (Qabs x * 100 + (1 # 2))) in
    if Qltb x 0 then - (n / 100) else n / 100.

End JS.

Import JS.

(** ** config/constants.js *)

Module CONSTANTS.

Module QUALITY_SCORE.
Definition SINR_WEIGHT : Q := 0.5.
Definition CQI_WEIGHT : Q := 0.3.
Definition RSRQ_WEIGHT : Q := 0.2.
Definition MIN_SCORE : Q := 0.
Definition MAX_SCORE : Q := 100.
End QUALITY_SCORE.

Module GEO.
Definition DEFAULT_RADIUS_M : Q := 5000.
Definition MAX_RADIUS_M : Q := 50000.
End GEO.

End CONSTANTS.

(** ** Utils/qualityScore.js *)

(** [calculateQualityScore(rsrq, sinr, cqi)].  The [typeof] test is the
    match on the three constructors; every other shape of arguments
    takes the last branch. *)
Definition calculateQualityScore (rsrq sinr cqi : JSValue) : Completion Q :=
  match rsrq, sinr, cqi with
  | JNumber rsrq, JNumber sinr, JNumber cqi =>
      if Qltb rsrq (-20) || Qgtb rsrq (-3) then
        Throw "RSRQ out of range: -20 to -3"
      else if Qltb sinr (-10) || Qgtb sinr 30 then
        Throw "SINR out of range: -10 to 30"
      else if Qltb cqi 0 || Qgtb cqi 15 then
        Throw "CQI out of range: 0 to 15"
      else
        let sinrScore := sinr * CONSTANTS.QUALITY_SCORE.SINR_WEIGHT in
        let cqiScore := (cqi / 15) * 100 * CONSTANTS.QUALITY_SCORE.CQI_WEIGHT in
        let rsrqScore := Math_abs rsrq * CONSTANTS.QUALITY_SCORE.RSRQ_WEIGHT in
        let score := sinrScore + cqiScore - rsrqScore in
        let score :=
          Math_max CONSTANTS.QUALITY_SCORE.MIN_SCORE
                   (Math_min CONSTANTS.QUALITY_SCORE.MAX_SCORE score) in
        Return (Math_round score)
  | _, _, _ => Throw "Invalid radio metrics - must be numbers"
  end.


(** [getSignalQuality(score)], with the thresholds of
    [CONSTANTS.SIGNAL_QUALITY]. *)
Definition getSignalQuality (score : Q) : string :=
  if Qgeb score 80 then "Excellent"
  else if Qgeb score 60 then "Good"
  else if Qgeb score 40 then "Fair"
  else if Qgeb score 20 then "Poor"
  else "Very Poor".

(** ** Utils/messageGenerator.js *)

Section MessageGenerator.
Context {conv : Conversions}.

(** [messages.join('. ')] *)
Fixpoint join (separator : string) (messages : list string) : string :=
  match messages with
  | [] => ""
  | [m] => m
  | m :: rest => m ++ separator ++ join separator rest
  end.

(** [generateHumanMessage(qualityScore, rsrq, sinr, cqi)]; [messages] is
    built in the order of the pushes. *)
Definition generateHumanMessage (qualityScore : Q) (rsrq sinr cqi : JSValue)
  : string :=
  let quality := getSignalQuality qualityScore in
  let absRsrq := option_map Math_abs (ToNumber rsrq) in
  let assessment :=
    if Qgeb qualityScore 80 then "Your connection is excellent"
    else if Qgeb qualityScore 60 then "Your connection is good"
    else if Qgeb qualityScore 40 then "Your connection is fair"
    else if Qgeb qualityScore 20 then "Your connection is poor"
    else "Your connection is very poor" in
  let strength :=
    if num_lt absRsrq 10 then "Signal strength is strong"
    else if num_lt absRsrq 15 then "Signal strength is moderate"
    else "Signal strength is weak" in
  let noise :=
    if JS.gt sinr 10 then "Noise levels are low"
    else if JS.gt sinr 0 then "Noise levels are moderate"
    else "Noise levels are high" in
  let channel :=
    if JS.ge cqi 12 then "Channel quality is excellent"
    else if JS.ge cqi 8 then "Channel quality is good"
    else if JS.ge cqi 4 then "Channel quality is fair"
    else "Channel quality is poor" in
  let advice :=
    if Qltb qualityScore 40 then
      ((if JS.lt sinr 0 then ["Consider moving to reduce interference"]
        else [])
       ++ (if num_gt absRsrq 12 then ["Try getting closer to a cell tower"]
           else []))%list
    else if Qgeb qualityScore 80 then
      ["This is a great location for connectivity"]
    else [] in
  join ". " ([assessment; strength; noise; channel] ++ advice)%list ++ ".".

End MessageGenerator.

(** ** Collaborators *)

(** The source of [utils/geoUtils.js] is not available (only its unit
    tests are): its five exports are parameters of everything below. *)
Class GeoUtils : Type := {
  calculateDistance : JSValue -> JSValue -> JSValue -> JSValue -> number;
  calculateBearing : JSValue -> JSValue -> JSValue -> JSValue -> number;
  getCompassDirection : number -> string;
  formatDistance : number -> string;
  isValidCoordinate : JSValue -> JSValue -> bool
}.

(** A [ConnectivityData] document, with the fields the session writes.
    [location] is the GeoJSON pair [[longitude, latitude]]. *)
Inductive Timestamp : Type :=
| ClientTimestamp (v : JSValue)
| ServerDate (ms : Z).

Record Document : Type := {
  doc_userId : string;
  doc_location : JSValue * JSValue;
  doc_qualityScore : Q;
  doc_rsrq : JSValue;
  doc_sinr : JSValue;
  doc_cqi : JSValue;
  doc_downloadSpeed : JSValue;
  doc_uploadSpeed : JSValue;
  doc_timestamp : Timestamp
}.

(** The filter of
    [findOne({ userId, location: { $near: { $geometry, $maxDistance } } })
       .sort({ qualityScore: -1 })]. *)
Record NearQuery : Type := {
  near_userId : string;
  near_coordinates : JSValue * JSValue;
  near_maxDistance : number
}.

(** The record store (the [ConnectivityData] model).  Either call may
    reject; [insertMany] resolves to the saved documents. *)
Class RecordStore : Type := {
  Store : Type;
  findOne : Store -> NearQuery -> Completion (option Document);
  insertMany : Store -> list Document -> Completion (list Document) * Store
}.

(** Token verification: [jwt.verify(token, process.env.JWT_SECRET)]
    yields the [userId] of the decoded payload or throws, and
    [User.findById] resolves to the [_id.toString()] of the user found,
    to [null], or rejects. *)
Class Auth : Type := {
  jwt_verify : JSValue -> Completion string;
  User_findById : string -> Completion (option string)
}.

(** ** controllers/ConnecitivityController.js: the best-zone resolver *)

Section Resolver.
Context {conv : Conversions} {geo : GeoUtils} {rs : RecordStore}.

Record BestZone : Type := {
  bz_bearing : number;
  bz_bearingDirection : string;
  bz_distance : number;
  bz_distanceFormatted : string;
  bz_qualityScore : Q;
  bz_location : JSValue * JSValue;
  bz_recommendation : string
}.

(** [{ hasData: false }] or [{ hasData: true, ... }] *)
Inductive BestZoneResult : Type :=
| NoData
| HasData (zone : BestZone).

Definition hasData (r : BestZoneResult) : bool :=
  match r with NoData => false | HasData _ => true end.

(** [findBestZoneHelper(userId, latitude, longitude, radiusMeters)].
    An [undefined] radius takes the default of the parameter; [Math.min]
    coerces its argument, and NaN stays NaN. *)
Definition findBestZoneHelper (db : Store) (userId : string)
    (latitude longitude : JSValue) (radiusMeters : JSValue)
  : Completion BestZoneResult :=
  let radiusMeters :=
    match radiusMeters with
    | JUndefined => JNumber CONSTANTS.GEO.DEFAULT_RADIUS_M
    | given => given
    end in
  let radiusMeters :=
    option_map (fun r => Math_min r CONSTANTS.GEO.MAX_RADIUS_M)
               (ToNumber radiusMeters) in
  match findOne db {| near_userId := userId;
                      near_coordinates := (longitude, latitude);
                      near_maxDistance := radiusMeters |} with
  | Throw e => Throw e
  | Return None => Return NoData
  | Return (Some nearbyData) =>
      let '(spotLon, spotLat) := doc_location nearbyData in
      let distance := calculateDistance latitude longitude spotLat spotLon in
      let bearing := calculateBearing latitude longitude spotLat spotLon in
      let direction := getCompassDirection bearing in
      Return (HasData {|
        bz_bearing := bearing;
        bz_bearingDirection := direction;
        bz_distance := distance;
        bz_distanceFormatted := formatDistance distance;
        bz_qualityScore := doc_qualityScore nearbyData;
        bz_location := (spotLat, spotLon);
        bz_recommendation :=
          "Move " ++ direction ++ " (" ++ NumberToString bearing ++ "Â°) for "
          ++ (if num_gt distance 100 then formatDistance distance
              else "nearby")
          ++ " better signal" |})
  end.

(** The answer of an endpoint: a status with its body, or the error
    handed to [next]. *)
Inductive Response (A : Type) : Type :=
| Status200 (data : A)
| Status400 (message : string)
| Next (error : string).

Arguments Status200 {A} data.
Arguments Status400 {A} message.
Arguments Next {A} error.

(** [exports.findBestZone]: [req.user.userId] and the body's
    [latitude], [longitude], [radius]. *)
Definition findBestZone (db : Store) (userId : string)
    (latitude longitude radius : JSValue) : Response BestZoneResult :=
  if negb (isValidCoordinate latitude longitude) then
    Status400 "Invalid coordinates"
  else
    match findBestZoneHelper db userId latitude longitude
            (JS.or radius (JNumber CONSTANTS.GEO.DEFAULT_RADIUS_M)) with
    | Return result => Status200 result
    | Throw e => Next e
    end.

End Resolver.

Arguments Status200 {A} data.
Arguments Status400 {A} message.
Arguments Next {A} error.

(** ** Handler code

    A handler reads and changes a world [W], and returns or throws.  What
    was done before a throw stays done. *)

Definition Handler (W A : Type) : Type := W -> Completion A * W.

Definition ret {W A : Type} (a : A) : Handler W A := fun w => (Return a, w).

Definition throw {W A : Type} (message : string) : Handler W A :=
  fun w => (Throw message, w).

Definition bind {W A B : Type} (m : Handler W A) (k : A -> Handler W B)
  : Handler W B :=
  fun w =>
    match m w with
    | (Return a, w') => k a w'
    | (Throw e, w') => (Throw e, w')
    end.

(** [try { body } catch (error) { handler }] *)
Definition try_catch {W A : Type} (body : Handler W A)
    (handler : string -> Handler W A) : Handler W A :=
  fun w =>
    match body w with
    | (Return a, w') => (Return a, w')
    | (Throw e, w') => handler e w'
    end.

Definition get {W : Type} : Handler W W := fun w => (Return w, w).

Definition modify {W : Type} (f : W -> W) : Handler W unit :=
  fun w => (Return tt, f w).

(** A [Completion] computed on the side, returned or rethrown. *)
Definition lift {W A : Type} (c : Completion A) : Handler W A :=
  fun w => (c, w).

Notation "x <- m ;; k" := (bind m (fun x => k))
  (at level 61, m at next level, right associativity).
Notation "m ;; k" := (bind m (fun _ => k))
  (at level 61, right associativity).

(** ** websocket/measurementHandler.js *)

Section MeasurementHandler.
Context {conv : Conversions} {geo : GeoUtils} {rs : RecordStore} {auth : Auth}.

(** An element of the [measurements] array. *)
Record Sample : Type := {
  m_rsrq : JSValue;
  m_sinr : JSValue;
  m_cqi : JSValue;
  m_latitude : JSValue;
  m_longitude : JSValue;
  m_qualityScore : Q;
  m_downloadSpeed : JSValue;
  m_uploadSpeed : JSValue;
  m_timestamp : Timestamp
}.

(** The best zone of the session path, [findBestNearbyZone]'s object. *)
Record NearbyZone : Type := {
  nz_bearing : number;
  nz_direction : string;
  nz_distance : number;
  nz_distanceFormatted : string;
  nz_qualityScore : Q;
  nz_recommendation : string
}.

(** [bestZone || { hasData: false }] *)
Inductive NearbyZoneResult : Type :=
| NoNearbyData
| NearbyData (zone : NearbyZone).

Record MeasurementResponse : Type := {
  resp_qualityScore : Q;
  resp_humanMessage : string;
  resp_bestZone : NearbyZoneResult;
  resp_rsrq : JSValue;
  resp_sinr : JSValue;
  resp_cqi : JSValue;
  resp_downloadSpeed : JSValue;
  resp_uploadSpeed : JSValue;
  resp_timestamp : Z
}.

Record SessionSummary : Type := {
  sum_measurementCount : nat;
  sum_sessionDuration : string;
  averageQuality : number;
  averageRsrq : number;
  averageSinr : number;
  averageCqi : number;
  averageDownloadSpeed : number;
  averageUploadSpeed : number;
  savedCount : nat;
  sum_timestamp : Z
}.

(** The frames the server sends, by their [type]. *)
Inductive ServerMessage : Type :=
| msg_connection (sessionId : string) (timestamp : Z)
| msg_authenticated (userId : string)
| msg_error (message : string)
| msg_pong (timestamp : Z)
| msg_heartbeat (timestamp : Z)
| msg_measurement_response (data : MeasurementResponse)
| msg_session_summary (sessionId : string) (data : SessionSummary).

(** What a handler does that can be seen from outside. *)
Inductive Effect : Type :=
| Send (frame : ServerMessage)
| Close (code : Z) (reason : string)
| SetActiveConnection (userId : string)
| DeleteActiveConnection (userId : string)
| ClearInterval
| FindOne (query : NearQuery)
| InsertMany (docs : list Document).

Inductive ReadyState : Type := OPEN | CLOSING.

(** The variables a connection closes over, its socket, the record
    store, and the effects so far (oldest first). *)
Record World : Type := {
  userId : option string;
  sessionId : string;
  measurementCount : Z;
  sessionStartTime : Z;
  measurements : list Sample;
  readyState : ReadyState;
  db : Store;
  trace : list Effect
}.

Definition set_userId (u : option string) (w : World) : World :=
  {| userId := u; sessionId := sessionId w;
     measurementCount := measurementCount w;
     sessionStartTime := sessionStartTime w;
     measurements := measurements w; readyState := readyState w;
     db := db w; trace := trace w |}.

Definition set_measurementCount (n : Z) (w : World) : World :=
  {| userId := userId w; sessionId := sessionId w;
     measurementCount := n;
     sessionStartTime := sessionStartTime w;
     measurements := measurements w; readyState := readyState w;
     db := db w; trace := trace w |}.

Definition set_measurements (ms : list Sample) (w : World) : World :=
  {| userId := userId w; sessionId := sessionId w;
     measurementCount := measurementCount w;
     sessionStartTime := sessionStartTime w;
     measurements := ms; readyState := readyState w;
     db := db w; trace := trace w |}.

Definition set_readyState (r : ReadyState) (w : World) : World :=
  {| userId := userId w; sessionId := sessionId w;
     measurementCount := measurementCount w;
     sessionStartTime := sessionStartTime w;
     measurements := measurements w; readyState := r;
     db := db w; trace := trace w |}.

Definition set_db (d : Store) (w : World) : World :=
  {| userId := userId w; sessionId := sessionId w;
     measurementCount := measurementCount w;
     sessionStartTime := sessionStartTime w;
     measurements := measurements w; readyState := readyState w;
     db := d; trace := trace w |}.

Definition emit (e : Effect) (w : World) : World :=
  {| userId := userId w; sessionId := sessionId w;
     measurementCount := measurementCount w;
     sessionStartTime := sessionStartTime w;
     measurements := measurements w; readyState := readyState w;
     db := db w; trace := (trace w ++ [e])%list |}.

(** [sendMessage(ws, data)]: sent only while the socket is open. *)
Definition sendMessage (data : ServerMessage) : Handler World unit :=
  modify (fun w =>
    match readyState w with
    | OPEN => emit (Send data) w
    | CLOSING => w
    end).

(** [ws.close(code, reason)] *)
Definition ws_close (code : Z) (reason : string) : Handler World unit :=
  modify (fun w =>
    match readyState w with
    | OPEN => set_readyState CLOSING (emit (Close code reason) w)
    | CLOSING => w
    end).

(** [await ConnectivityData.findOne(...).sort(...)] *)
Definition ConnectivityData_findOne (query : NearQuery)
  : Handler World (option Document) :=
  modify (emit (FindOne query)) ;;
  w <- get ;;
  lift (findOne (db w) query).

(** [await ConnectivityData.insertMany(docs)] *)
Definition ConnectivityData_insertMany (docs : list Document)
  : Handler World (list Document) :=
  modify (emit (InsertMany docs)) ;;
  w <- get ;;
  let '(saved, db') := insertMany (db w) docs in
  modify (set_db db') ;;
  lift saved.

(** [authenticateClient(token)]: [{ success: true, userId }] or
    [{ success: false, error }]. *)
Inductive AuthResult : Type :=
| Success (userId : string)
| Failure (error : string).

Definition authenticateClient (token : JSValue) : AuthResult :=
  if negb (ToBoolean token) then Failure "Token required"
  else
    match jwt_verify token with
    | Throw e => Failure e
    | Return decodedUserId =>
        match User_findById decodedUserId with
        | Throw e => Failure e
        | Return None => Failure "User not found"
        | Return (Some id) => Success id
        end
    end.

(** [findBestNearbyZone(userId, latitude, longitude)]; [null] is
    [None]. *)
Definition findBestNearbyZone (userId : string) (latitude longitude : JSValue)
  : Handler World (option NearbyZone) :=
  try_catch
    (nearbyData <- ConnectivityData_findOne
        {| near_userId := userId;
           near_coordinates := (longitude, latitude);
           near_maxDistance := Some CONSTANTS.GEO.DEFAULT_RADIUS_M |} ;;
     match nearbyData with
     | None => ret None
     | Some nearbyData =>
         let '(spotLon, spotLat) := doc_location nearbyData in
         let distance :=
           calculateDistance latitude longitude spotLat spotLon in
         let bearing :=
           calculateBearing latitude longitude spotLat spotLon in
         let direction := getCompassDirection bearing in
         ret (Some {|
           nz_bearing := bearing;
           nz_direction := direction;
           nz_distance := option_map Math_round distance;
           nz_distanceFormatted := formatDistance distance;
           nz_qualityScore := doc_qualityScore nearbyData;
           nz_recommendation :=
             "Move " ++ direction ++ " (" ++ NumberToString bearing
             ++ "°) for better signal" |})
     end)
    (fun _ => ret None).

(** The message after [JSON.parse(message.toString())]: the fields the
    handlers read, absent ones [undefined]. *)
Record ClientData : Type := {
  type : JSValue;
  token : JSValue;
  rsrq : JSValue;
  sinr : JSValue;
  cqi : JSValue;
  latitude : JSValue;
  longitude : JSValue;
  downloadSpeed : JSValue;
  uploadSpeed : JSValue;
  timestamp : JSValue
}.

(** [handleMeasurement(ws, userId, data, sessionId, measurements)];
    [now] is the clock read by [new Date()]. *)
Definition handleMeasurement (now : Z) (userId : string) (data : ClientData)
  : Handler World unit :=
  if negb (isValidCoordinate (latitude data) (longitude data)) then
    sendMessage (msg_error "Invalid coordinates")
  else if JS.lt (rsrq data) (-20) || JS.gt (rsrq data) (-3)
          || JS.lt (sinr data) (-10) || JS.gt (sinr data) 30
          || JS.lt (cqi data) 0 || JS.gt (cqi data) 15 then
    sendMessage (msg_error "Invalid radio metrics")
  else
    qualityScore <-
      lift (calculateQualityScore (rsrq data) (sinr data) (cqi data)) ;;
    let humanMessage :=
      generateHumanMessage qualityScore (rsrq data) (sinr data) (cqi data) in
    modify (fun w => set_measurements
      (measurements w ++
       [{| m_rsrq := rsrq data;
           m_sinr := sinr data;
           m_cqi := cqi data;
           m_latitude := latitude data;
           m_longitude := longitude data;
           m_qualityScore := qualityScore;
           m_downloadSpeed := JS.or (downloadSpeed data) (JNumber 0);
           m_uploadSpeed := JS.or (uploadSpeed data) (JNumber 0);
           m_timestamp :=
             if ToBoolean (timestamp data)
             then ClientTimestamp (timestamp data)
             else ServerDate now |}])%list w) ;;
    bestZone <- findBestNearbyZone userId (latitude data) (longitude data) ;;
    sendMessage (msg_measurement_response {|
      resp_qualityScore := qualityScore;
      resp_humanMessage := humanMessage;
      resp_bestZone :=
        match bestZone with
        | Some zone => NearbyData zone
        | None => NoNearbyData
        end;
      resp_rsrq := rsrq data;
      resp_sinr := sinr data;
      resp_cqi := cqi data;
      resp_downloadSpeed := JS.or (downloadSpeed data) (JNumber 0);
      resp_uploadSpeed := JS.or (uploadSpeed data) (JNumber 0);
      resp_timestamp := now |}).

(** The document [handleStop] writes for a sample. *)
Definition toDocument (userId : string) (m : Sample) : Document :=
  {| doc_userId := userId;
     doc_location := (m_longitude m, m_latitude m);
     doc_qualityScore := m_qualityScore m;
     doc_rsrq := m_rsrq m;
     doc_sinr := m_sinr m;
     doc_cqi := m_cqi m;
     doc_downloadSpeed := m_downloadSpeed m;
     doc_uploadSpeed := m_uploadSpeed m;
     doc_timestamp := m_timestamp m |}.

(** [measurements.reduce((sum, m) => sum + m.field, 0)] *)
Definition reduce_sum (field : Sample -> JSValue) (measurements : list Sample)
  : Sum :=
  fold_left (fun sum m => JS.plus sum (field m)) measurements
            (SumNumber (Some 0)).

(** [handleStop(ws, userId, data, sessionId, measurements,
    sessionStartTime)]; [now] is the clock read by [Date.now()]. *)
Definition handleStop (now : Z) (userId sessionId : string)
    (measurements : list Sample) (sessionStartTime : Z)
  : Handler World unit :=
  try_catch
    (if Nat.eqb (length measurements) 0 then
       sendMessage (msg_error "No measurements recorded")
     else
       savedMeasurements <-
         ConnectivityData_insertMany (map (toDocument userId) measurements) ;;
       let count := length measurements in
       let sessionDuration :=
         Math_round (inject_Z (now - sessionStartTime) / 1000) in
       let avgQuality :=
         option_map Math_round
           (divide (reduce_sum (fun m => JNumber (m_qualityScore m))
                               measurements) count) in
       let avgRsrq :=
         option_map parseFloat_toFixed2
           (divide (reduce_sum m_rsrq measurements) count) in
       let avgSinr :=
         option_map parseFloat_toFixed2
           (divide (reduce_sum m_sinr measurements) count) in
       let avgCqi :=
         option_map parseFloat_toFixed2
           (divide (reduce_sum m_cqi measurements) count) in
       let avgDownloadSpeed :=
         option_map parseFloat_toFixed2
           (divide (reduce_sum m_downloadSpeed measurements) count) in
       let avgUploadSpeed :=
         option_map parseFloat_toFixed2
           (divide (reduce_sum m_uploadSpeed measurements) count) in
       sendMessage (msg_session_summary sessionId {|
         sum_measurementCount := count;
         sum_sessionDuration :=
           NumberToString (Some sessionDuration) ++ "s";
         averageQuality := avgQuality;
         averageRsrq := avgRsrq;
         averageSinr := avgSinr;
         averageCqi := avgCqi;
         averageDownloadSpeed := avgDownloadSpeed;
         averageUploadSpeed := avgUploadSpeed;
         savedCount := length savedMeasurements;
         sum_timestamp := now |}))
    (fun e => sendMessage (msg_error ("Failed to save measurements: " ++ e))).

(** What arrives on the socket: a text [JSON.parse] rejects (or that
    parses to [null], whose [type] cannot be read), or the parsed
    object. *)
Inductive Incoming : Type :=
| Unparsable (reason : string)
| Parsed (data : ClientData).

Definition JSON_parse (message : Incoming) : Completion ClientData :=
  match message with
  | Unparsable reason => Throw reason
  | Parsed data => Return data
  end.

(** The user a truthy [userId] names; [!userId] holds of [null] and of
    the empty string. *)
Definition truthy_userId (w : World) : option string :=
  match userId w with
  | Some u => if String.eqb u "" then None else Some u
  | None => None
  end.

Definition quote : string := String (Ascii.ascii_of_nat 34) "".

Definition authenticate_first : string :=
  "Please authenticate first by sending { type: " ++ quote ++ "authenticate"
  ++ quote ++ ", token: " ++ quote ++ "YOUR_JWT_TOKEN" ++ quote ++ " }".

(** The listener [ws.on('message', async (message) => ...)] of
    [handleConnection]. *)
Definition onMessage (now : Z) (message : Incoming) : Handler World unit :=
  try_catch
    (data <- lift (JSON_parse message) ;;
     w <- get ;;
     match truthy_userId w with
     | None =>
         if strict_eq_string (type data) "authenticate" then
           match authenticateClient (token data) with
           | Success id =>
               modify (set_userId (Some id)) ;;
               modify (emit (SetActiveConnection id)) ;;
               sendMessage (msg_authenticated id)
           | Failure e =>
               sendMessage
                 (msg_error (if String.eqb e "" then "Authentication failed"
                             else e)) ;;
               ws_close 4001 "Authentication failed"
           end
         else
           sendMessage (msg_error authenticate_first)
     | Some user =>
         if strict_eq_string (type data) "measurement" then
           handleMeasurement now user data ;;
           modify (fun w => set_measurementCount (measurementCount w + 1) w)
         else if strict_eq_string (type data) "stop" then
           handleStop now user (sessionId w) (measurements w)
                      (sessionStartTime w) ;;
           modify (set_measurements [])
         else if strict_eq_string (type data) "ping" then
           sendMessage (msg_pong now)
         else
           sendMessage
             (msg_error ("Unknown message type: " ++ ToString (type data)))
     end)
    (fun e => sendMessage (msg_error ("Failed to process message: " ++ e))).

(** The world after the listener has run on a message. *)
Definition receive (now : Z) (message : Incoming) (w : World) : World :=
  snd (onMessage now message w).

(** The callback of the heartbeat timer, run every
    [CONSTANTS.WS.HEARTBEAT_INTERVAL_MS] until the interval is cleared. *)
Definition onHeartbeat (now : Z) : Handler World unit :=
  w <- get ;;
  match readyState w with
  | OPEN => sendMessage (msg_heartbeat now)
  | CLOSING => ret tt
  end.

(** The listener [ws.on('close', ...)]. *)
Definition onClose : Handler World unit :=
  w <- get ;;
  match truthy_userId w with
  | Some user => modify (emit (DeleteActiveConnection user))
  | None => ret tt
  end ;;
  modify (emit ClearInterval).

(** [handleConnection(ws, req)] up to the registration of the timer and
    of the listeners: the fresh variables and the [connection] frame.
    [newSessionId] stands for [generateSessionId()]. *)
Definition handleConnection (now : Z) (newSessionId : string) (store : Store)
  : World :=
  snd (sendMessage (msg_connection newSessionId now)
         {| userId := None;
            sessionId := newSessionId;
            measurementCount := 0;
            sessionStartTime := now;
            measurements := [];
            readyState := OPEN;
            db := store;
            trace := [] |}).

(** The connection after the messages of [events], each with the time
    of its arrival, were handled one after the other. *)
Fixpoint session (events : list (Z * Incoming)) (w : World) : World :=
  match events with
  | [] => w
  | (now, message) :: rest => session rest (receive now message w)
  end.

End MeasurementHandler.

(** ** Instances for the worked examples

    Small collaborators on which the handlers can be run.  The theorems
    below hold for every instance; these serve the examples only. *)

Module Example.

(** Integers print in decimal (the examples print no other number);
    no example converts a string to a number. *)
Definition conversions : Conversions := {|
  StringToNumber := fun _ => NaN;
  NumberToString := fun n =>
    match n with
    | Some q => DecimalString.NilZero.string_of_int (Z.to_int (Qfloor q))
    | None => "NaN"
    end
|}.

Definition same_point (lat1 lon1 lat2 lon2 : JSValue) : bool :=
  match lat1, lon1, lat2, lon2 with
  | JNumber a, JNumber b, JNumber c, JNumber d => Qeq_bool a c && Qeq_bool b d
  | _, _, _, _ => false
  end.

(** A geodesy that knows a point against itself: distance 0, bearing 0,
    direction N, printed "0 m".  Coordinates are valid when both are
    numbers within [-90, 90] and [-180, 180]. *)
Definition geo : GeoUtils := {|
  calculateDistance := fun lat1 lon1 lat2 lon2 =>
    if same_point lat1 lon1 lat2 lon2 then Some 0 else NaN;
  calculateBearing := fun lat1 lon1 lat2 lon2 =>
    if same_point lat1 lon1 lat2 lon2 then Some 0 else NaN;
  getCompassDirection := fun bearing =>
    match bearing with
    | Some b => if Qeq_bool b 0 then "N" else "?"
    | None => "?"
    end;
  formatDistance := fun meters =>
    match meters with
    | Some m => if Qeq_bool m 0 then "0 m" else "?"
    | None => "?"
    end;
  isValidCoordinate := fun lat lon =>
    match lat, lon with
    | JNumber a, JNumber b =>
        Qle_bool (-90) a && Qle_bool a 90
        && Qle_bool (-180) b && Qle_bool b 180
    | _, _ => false
    end
|}.

(** An in-memory record store that can be switched off.  It finds,
    among the documents of the user recorded at the queried point, one
    of the highest quality score. *)
Record Memory : Type := {
  documents : list Document;
  reachable : bool
}.

Definition recorded_at (query : NearQuery) (d : Document) : bool :=
  String.eqb (doc_userId d) (near_userId query)
  && same_point (snd (doc_location d)) (fst (doc_location d))
                (snd (near_coordinates query)) (fst (near_coordinates query)).

Fixpoint best (candidates : list Document) : option Document :=
  match candidates with
  | [] => None
  | d :: rest =>
      match best rest with
      | Some d' =>
          if Qltb (doc_qualityScore d) (doc_qualityScore d') then Some d'
          else Some d
      | None => Some d
      end
  end.

Definition store : RecordStore := {|
  Store := Memory;
  findOne := fun s query =>
    if reachable s then Return (best (filter (recorded_at query) (documents s)))
    else Throw "store unreachable";
  insertMany := fun s docs =>
    if reachable s then
      (Return docs,
       {| documents := (documents s ++ docs)%list; reachable := true |})
    else (Throw "store unreachable", s)
|}.

(** One user, "alice", whose token is "alice-token". *)
Definition auth : Auth := {|
  jwt_verify := fun token =>
    match token with
    | JString "alice-token" => Return "alice"
    | _ => Throw "jwt malformed"
    end;
  User_findById := fun id =>
    Return (if String.eqb id "alice" then Some "alice" else None)
|}.

End Example.

(** ** Worked sessions *)

Module Session.
Import Example.

#[local] Existing Instance conversions.
#[local] Existing Instance geo.
#[local] Existing Instance store.
#[local] Existing Instance auth.

Definition message (kind : string) : ClientData :=
  {| type := JString kind; token := JUndefined;
     rsrq := JUndefined; sinr := JUndefined; cqi := JUndefined;
     latitude := JUndefined; longitude := JUndefined;
     downloadSpeed := JUndefined; uploadSpeed := JUndefined;
     timestamp := JUndefined |}.

Definition authenticate (t : string) : ClientData :=
  {| type := JString "authenticate"; token := JString t;
     rsrq := JUndefined; sinr := JUndefined; cqi := JUndefined;
     latitude := JUndefined; longitude := JUndefined;
     downloadSpeed := JUndefined; uploadSpeed := JUndefined;
     timestamp := JUndefined |}.

(** A sample taken at latitude 10, longitude 20. *)
Definition measurement (r s c : JSValue) : ClientData :=
  {| type := JString "measurement"; token := JUndefined;
     rsrq := r; sinr := s; cqi := c;
     latitude := JNumber 10; longitude := JNumber 20;
     downloadSpeed := JUndefined; uploadSpeed := JUndefined;
     timestamp := JUndefined |}.

Definition empty_store : Store := {| documents := []; reachable := true |}.
Definition unreachable_store : Store :=
  {| documents := []; reachable := false |}.

(** A store holding one document of alice, of quality 90, recorded at
    latitude 10, longitude 20. *)
Definition recorded_spot : Document :=
  {| doc_userId := "alice";
     doc_location := (JNumber 20, JNumber 10);
     doc_qualityScore := 90;
     doc_rsrq := JNumber (-4); doc_sinr := JNumber 28; doc_cqi := JNumber 15;
     doc_downloadSpeed := JNumber 0; doc_uploadSpeed := JNumber 0;
     doc_timestamp := ServerDate 0 |}.

Definition store_with_spot : Store :=
  {| documents := [recorded_spot]; reachable := true |}.

(** A connection opened at time 0, then alice authenticated at 1000. *)
Definition connected (s : Store) : World :=
  handleConnection 0 "session-1" s.

Definition signed_in (s : Store) : World :=
  receive 1000 (Parsed (authenticate "alice-token")) (connected s).

(** Two samples, scoring 39 and 4, sent at 2000 and 3000. *)
Definition strong : ClientData :=
  measurement (JNumber (-5)) (JNumber 20) (JNumber 15).
Definition weak : ClientData :=
  measurement (JNumber (-5)) (JNumber 10) (JNumber 0).

Definition two_samples (s : Store) : World :=
  receive 3000 (Parsed weak) (receive 2000 (Parsed strong) (signed_in s)).

(** The summary in the last frame sent, if that is a summary. *)
Definition last_summary (w : World) : option SessionSummary :=
  match last (trace w) (Close 0 "") with
  | Send (msg_session_summary _ summary) => Some summary
  | _ => None
  end.

(** The effects of [w'] after those of [w]. *)
Definition since (w w' : World) : list Effect :=
  skipn (length (trace w)) (trace w').

Definition is_error_frame (e : Effect) : bool :=
  match e with
  | Send (msg_error _) => true
  | _ => false
  end.

End Session.

(** * Further vocabulary: what a handler sends and what it asks the store *)

(** A frame or a close on the socket. *)
Definition on_socket (e : Effect) : bool :=
  match e with
  | Send _ | Close _ _ => true
  | _ => false
  end.

(** A call to the record store. *)
Definition store_call (e : Effect) : bool :=
  match e with
  | FindOne _ | InsertMany _ => true
  | _ => false
  end.

(** * More of the backend *)

(** ** Arithmetic on numbers that may be NaN

    An operation on NaN yields NaN.  [div_by x k] is [x / k] for a
    literal or a length [k], which is never 0 in the sources. *)

Module Num.

Definition lift2 (f : Q -> Q -> Q) (x y : number) : number :=
  match x, y with
  | Some a, Some b => Some (f a b)
  | _, _ => NaN
  end.

Definition add : number -> number -> number := lift2 Qplus.
Definition sub : number -> number -> number := lift2 Qminus.
Definition mul : number -> number -> number := lift2 Qmult.
Definition div_by (x : number) (k : Q) : number :=
  option_map (fun a => a / k) x.

(** [Math.min], [Math.max], [Math.round] and [Math.abs]. *)
Definition min : number -> number -> number := lift2 Math_min.
Definition max : number -> number -> number := lift2 Math_max.
Definition round (x : number) : number := option_map Math_round x.
Definition abs (x : number) : number := option_map Math_abs x.

(** [x <= k] against a literal; false on NaN. *)
Definition le (x : number) (k : Q) : bool :=
  match x with Some x => Qle_bool x k | None => false end.

End Num.

(** ** Utils/qualityScore.js, the other exports *)

Section QualityScore.
Context {conv : Conversions}.



(** [v <= k] against a numeric literal. *)
Definition js_le (v : JSValue) (k : Q) : bool := Num.le (ToNumber v) k.



Record MetricAnalysis : Type := {
  value : JSValue;
  description : string;
  recommendation : string
}.

Record Analysis : Type := {
  analysis_rsrq : MetricAnalysis;
  analysis_sinr : MetricAnalysis;
  analysis_cqi : MetricAnalysis
}.

(** [analyzeMetrics(rsrq, sinr, cqi)] *)
Definition analyzeMetrics (rsrq sinr cqi : JSValue) : Analysis :=
  {| analysis_rsrq :=
       {| value := rsrq;
          description :=
            if JS.gt rsrq (-10) then "Strong"
            else if JS.gt rsrq (-15) then "Moderate" else "Weak";
          recommendation :=
            if JS.lt rsrq (-15) then "Move closer to tower"
            else "Signal acceptable" |};
     analysis_sinr :=
       {| value := sinr;
          description :=
            if JS.gt sinr 10 then "Low interference"
            else if JS.gt sinr 0 then "Moderate interference"
            else "High interference";
          recommendation :=
            if JS.lt sinr 0
            then "High noise detected, move away from interference sources"
            else "Noise levels acceptable" |};
     analysis_cqi :=
       {| value := cqi;
          description :=
            if JS.ge cqi 12 then "Excellent"
            else if JS.ge cqi 8 then "Good"
            else if JS.ge cqi 4 then "Fair" else "Poor";
          recommendation :=
            if JS.lt cqi 8 then "Channel conditions degraded"
            else "Channel quality good" |} |}.

(** The argument of [predictSignalStrength]: an array of scores, or
    anything else. *)
Inductive Scores : Type :=
| NotAnArray
| ArrayOf (scores : list Q).

(** Its result: [{ trend: 'insufficient', average: 0 }], or the four
    fields. *)
Inductive Prediction : Type :=
| Insufficient
| Predicted (average : Q) (trend : string) (min max : Q).

(** [scores.reduce((a, b) => a + b, 0)] *)
Definition sum_of (scores : list Q) : Q := fold_left Qplus scores 0.

(** [scores.slice(-5)] and [scores.slice(0, 5)] *)
Definition slice_last5 (scores : list Q) : list Q :=
  skipn (length scores - 5) scores.
Definition slice_first5 (scores : list Q) : list Q := firstn 5 scores.

(** [Math.min(...scores)] and [Math.max(...scores)] of a non-empty
    array. *)
Definition min_of (first : Q) (rest : list Q) : Q := fold_left Qmin rest first.
Definition max_of (first : Q) (rest : list Q) : Q := fold_left Qmax rest first.

(** [predictSignalStrength(historicalScores)] *)
Definition predictSignalStrength (historicalScores : Scores) : Prediction :=
  match historicalScores with
  | NotAnArray => Insufficient
  | ArrayOf [] => Insufficient
  | ArrayOf ((first :: rest) as scores) =>
      let count := inject_Z (Z.of_nat (length scores)) in
      let average := Math_round (sum_of scores / count) in
      let trend :=
        if (2 <=? length scores)%nat then
          let recent := slice_last5 scores in
          let older := slice_first5 scores in
          let recentAvg :=
            sum_of recent / inject_Z (Z.of_nat (length recent)) in
          let olderAvg :=
            sum_of older / inject_Z (Z.of_nat (length older)) in
          if Qgtb recentAvg (olderAvg + 5) then "improving"
          else if Qltb recentAvg (olderAvg - 5) then "degrading"
          else "stable"
        else "stable" in
      Predicted average trend (min_of first rest) (max_of first rest)
  end.

(** A parameter with the default [= 0]. *)
Definition default_0 (v : JSValue) : JSValue :=
  match v with
  | JUndefined => JNumber 0
  | given => given
  end.

(** [Math.min(100, (speed / reference) * 100)] *)
Definition normalizedSpeed (speed : JSValue) (reference : Q) : number :=
  Num.min (Some 100)
          (Num.mul (Num.div_by (ToNumber speed) reference) (Some 100)).

(** [calculateEnhancedQualityScore(rsrq, sinr, cqi, downloadSpeed = 0,
    uploadSpeed = 0)] *)
Definition calculateEnhancedQualityScore
    (rsrq sinr cqi downloadSpeed uploadSpeed : JSValue) : Completion number :=
  let downloadSpeed := default_0 downloadSpeed in
  let uploadSpeed := default_0 uploadSpeed in
  match calculateQualityScore rsrq sinr cqi with
  | Throw e => Throw e
  | Return signalQuality =>
      let normalizedDownload := normalizedSpeed downloadSpeed 100 in
      let normalizedUpload := normalizedSpeed uploadSpeed 50 in
      let enhancedScore :=
        Num.add (Num.add (Num.mul (Some signalQuality) (Some 0.5))
                         (Num.mul normalizedDownload (Some 0.3)))
                (Num.mul normalizedUpload (Some 0.2)) in
      Return (Num.round (Num.max (Some 0) (Num.min (Some 100) enhancedScore)))
  end.

(** [getSpeedQualityColor(speed, type = 'download')] *)
Definition getSpeedQualityColor (speed kind : JSValue) : string :=
  let kind :=
    match kind with
    | JUndefined => JString "download"
    | given => given
    end in
  let '(excellent, good) :=
    if strict_eq_string kind "download" then (50, 10) else (25, 5) in
  if JS.ge speed excellent then "#00FF94"
  else if JS.ge speed good then "#FFD700"
  else "#FF4444".

(** [calculateWiFiQualityScore(downloadSpeed = 0, uploadSpeed = 0,
    latency = 0)] *)
Definition calculateWiFiQualityScore
    (downloadSpeed uploadSpeed latency : JSValue) : number :=
  let downloadSpeed := default_0 downloadSpeed in
  let uploadSpeed := default_0 uploadSpeed in
  let latency := default_0 latency in
  let normalizedDownload := normalizedSpeed downloadSpeed 100 in
  let normalizedUpload := normalizedSpeed uploadSpeed 50 in
  let normalizedLatency :=
    Num.max (Some 0)
            (Num.sub (Some 100)
                     (Num.mul (Num.div_by (ToNumber latency) 200)
                              (Some 100))) in
  let wifiScore :=
    Num.add (Num.add (Num.mul normalizedDownload (Some 0.5))
                     (Num.mul normalizedUpload (Some 0.3)))
            (Num.mul normalizedLatency (Some 0.2)) in
  Num.round (Num.max (Some 0) (Num.min (Some 100) wifiScore)).

(** [label.toLowerCase()], for the ASCII letters of the labels. *)
Definition lower_char (c : Ascii.ascii) : Ascii.ascii :=
  let n := Ascii.nat_of_ascii c in
  if ((65 <=? n) && (n <=? 90))%nat then Ascii.ascii_of_nat (n + 32) else c.

Fixpoint toLowerCase (s : string) : string :=
  match s with
  | EmptyString => EmptyString
  | String c rest => String (lower_char c) (toLowerCase rest)
  end.

(** [generateWiFiMessage(qualityScore, downloadSpeed, uploadSpeed,
    latency)] *)
Definition generateWiFiMessage (qualityScore : number)
    (downloadSpeed uploadSpeed latency : JSValue) : string :=
  let qualityLabel :=
    if num_ge qualityScore 80 then "Excellent"
    else if num_ge qualityScore 60 then "Good"
    else if num_ge qualityScore 40 then "Fair"
    else "Poor" in
  let speedDescription :=
    if JS.ge downloadSpeed 50 && JS.ge uploadSpeed 25
    then "Excellent Wi-Fi speeds."
    else if JS.ge downloadSpeed 25 && JS.ge uploadSpeed 10
    then "Good Wi-Fi speeds."
    else if JS.ge downloadSpeed 10 && JS.ge uploadSpeed 5
    then "Moderate Wi-Fi speeds."
    else "Slow speeds detected." in
  let latencyDescription :=
    if js_le latency 20 then "Excellent response time."
    else if js_le latency 50 then "Good response time."
    else if js_le latency 100 then "Moderate response time."
    else "High latency may affect real-time applications." in
  "Your Wi-Fi connection is " ++ toLowerCase qualityLabel ++ ". "
  ++ speedDescription ++ " " ++ latencyDescription.

End QualityScore.


(** ** Utils/towerComparison.js *)

Section TowerComparison.
Context {conv : Conversions}.

(** [tower.calibration], of a tower that has one. *)
Record Calibration : Type := {
  expectedRsrq : JSValue;
  expectedSinr : JSValue;
  expectedCqi : JSValue;
  calibration_qualityScore : JSValue
}.

Record Details : Type := {
  rsrqDifference : number;
  sinrDifference : number;
  cqiDifference : number
}.

Record Comparison : Type := {
  currentScore : Q;
  towerScore : JSValue;
  difference : number;
  isBetter : bool;
  isWorse : bool;
  isEqual : bool;
  details : Details
}.

(** [a - b] *)
Definition js_minus (a b : JSValue) : number :=
  Num.sub (ToNumber a) (ToNumber b).

(** [a === q] for a number [q] *)
Definition strict_eq_number (a : JSValue) (q : Q) : bool :=
  match a with
  | JNumber x => Qeq_bool x q
  | _ => false
  end.

(** [compareWithTowerMetrics(measurement, tower)], on the three metrics
    of [measurement] and the calibration of [tower], [None] when the
    tower has none; the result [null] is [None].  The score of the
    expected metrics is computed only when the stored one is falsy. *)
Definition compareWithTowerMetrics (rsrq sinr cqi : JSValue)
    (calibration : option Calibration) : Completion (option Comparison) :=
  match calibration with
  | None => Return None
  | Some calibration =>
      let towerQuality := calibration_qualityScore calibration in
      match calculateQualityScore rsrq sinr cqi with
      | Throw e => Throw e
      | Return measurementScore =>
          let scored :=
            if ToBoolean towerQuality then Return towerQuality
            else
              match calculateQualityScore (expectedRsrq calibration)
                      (expectedSinr calibration) (expectedCqi calibration)
              with
              | Return score => Return (JNumber score)
              | Throw e => Throw e
              end in
          match scored with
          | Throw e => Throw e
          | Return towerScore =>
              Return (Some {|
                currentScore := measurementScore;
                towerScore := towerScore;
                difference :=
                  Num.sub (ToNumber towerScore) (Some measurementScore);
                isBetter := JS.gt towerScore measurementScore;
                isWorse := JS.lt towerScore measurementScore;
                isEqual := strict_eq_number towerScore measurementScore;
                details := {|
                  rsrqDifference := js_minus (expectedRsrq calibration) rsrq;
                  sinrDifference := js_minus (expectedSinr calibration) sinr;
                  cqiDifference := js_minus (expectedCqi calibration) cqi |}
              |})
          end
      end
  end.

End TowerComparison.

(** ** controllers/ConnecitivityController.js: recording one measurement *)

(** The fields [recordMeasurement] reads from [req.body], absent ones
    [undefined]. *)
Record RequestBody : Type := {
  req_rsrq : JSValue;
  req_sinr : JSValue;
  req_cqi : JSValue;
  req_latitude : JSValue;
  req_longitude : JSValue;
  req_downloadSpeed : JSValue;
  req_uploadSpeed : JSValue;
  req_latency : JSValue;
  req_saveOnStop : JSValue;
  req_provider : JSValue;
  req_networkType : JSValue
}.

(** The argument of [new ConnectivityData({ ... })]; [location] is the
    GeoJSON pair [[longitude, latitude]]. *)
Record Connectivity : Type := {
  new_userId : string;
  new_location : JSValue * JSValue;
  new_qualityScore : number;
  new_rsrq : JSValue;
  new_sinr : JSValue;
  new_cqi : JSValue;
  new_downloadSpeed : JSValue;
  new_uploadSpeed : JSValue;
  new_latency : JSValue;
  new_provider : JSValue;
  new_networkType : JSValue
}.

(** [await connectivity.save()]: the model validates the document and
    writes it, or rejects. *)
Class Persistence {rs : RecordStore} : Type := {
  save : Store -> Connectivity -> Completion unit * Store
}.

(** The [metrics] and the [data] of the answer. *)
Record Metrics : Type := {
  metrics_rsrq : JSValue;
  metrics_sinr : JSValue;
  metrics_cqi : JSValue;
  metrics_downloadSpeed : JSValue;
  metrics_uploadSpeed : JSValue;
  metrics_latency : JSValue
}.

Record Recorded : Type := {
  rec_qualityScore : number;
  rec_humanMessage : string;
  rec_downloadSpeed : JSValue;
  rec_uploadSpeed : JSValue;
  rec_latency : JSValue;
  rec_bestZone : BestZoneResult;
  rec_metrics : Metrics
}.

Section Recorder.
Context {conv : Conversions} {geo : GeoUtils} {rs : RecordStore}
        {ps : Persistence}.

(** [generateHumanMessage(qualityScore, rsrq, sinr, cqi)] as this path
    calls it, with a score that may be NaN; a comparison with NaN is
    false. *)
Definition generateHumanMessage_number (qualityScore : number)
    (rsrq sinr cqi : JSValue) : string :=
  let absRsrq := option_map Math_abs (ToNumber rsrq) in
  let assessment :=
    if num_ge qualityScore 80 then "Your connection is excellent"
    else if num_ge qualityScore 60 then "Your connection is good"
    else if num_ge qualityScore 40 then "Your connection is fair"
    else if num_ge qualityScore 20 then "Your connection is poor"
    else "Your connection is very poor" in
  let strength :=
    if num_lt absRsrq 10 then "Signal strength is strong"
    else if num_lt absRsrq 15 then "Signal strength is moderate"
    else "Signal strength is weak" in
  let noise :=
    if JS.gt sinr 10 then "Noise levels are low"
    else if JS.gt sinr 0 then "Noise levels are moderate"
    else "Noise levels are high" in
  let channel :=
    if JS.ge cqi 12 then "Channel quality is excellent"
    else if JS.ge cqi 8 then "Channel quality is good"
    else if JS.ge cqi 4 then "Channel quality is fair"
    else "Channel quality is poor" in
  let advice :=
    if num_lt qualityScore 40 then
      ((if JS.lt sinr 0 then ["Consider moving to reduce interference"]
        else [])
       ++ (if num_gt absRsrq 12 then ["Try getting closer to a cell tower"]
           else []))%list
    else if num_ge qualityScore 80 then
      ["This is a great location for connectivity"]
    else [] in
  join ". " ([assessment; strength; noise; channel] ++ advice)%list ++ ".".

Definition connectivity_save (connectivity : Connectivity)
  : Handler Store unit :=
  fun db => save db connectivity.

(** [exports.recordMeasurement]: [req.user.userId] and the body; the
    world of the handler is the record store. *)
Definition recordMeasurement (userId : string) (body : RequestBody)
  : Handler Store (Response Recorded) :=
  let rsrq := req_rsrq body in
  let sinr := req_sinr body in
  let cqi := req_cqi body in
  let latitude := req_latitude body in
  let longitude := req_longitude body in
  let downloadSpeed := req_downloadSpeed body in
  let uploadSpeed := req_uploadSpeed body in
  let latency := req_latency body in
  let networkType := req_networkType body in
  try_catch
    (if negb (isValidCoordinate latitude longitude) then
       ret (Status400 "Invalid coordinates")
     else
       scored <-
         lift
           (if strict_eq_string networkType "wifi" then
              let qualityScore :=
                calculateWiFiQualityScore downloadSpeed uploadSpeed latency in
              Return (qualityScore,
                      generateWiFiMessage qualityScore downloadSpeed
                                          uploadSpeed latency)
            else
              match
                (if JS.gt downloadSpeed 0 || JS.gt uploadSpeed 0 then
                   calculateEnhancedQualityScore rsrq sinr cqi downloadSpeed
                                                 uploadSpeed
                 else
                   match calculateQualityScore rsrq sinr cqi with
                   | Return score => Return (Some score)
                   | Throw e => Throw e
                   end)
              with
              | Return qualityScore =>
                  Return (qualityScore,
                          generateHumanMessage_number qualityScore rsrq sinr
                                                      cqi)
              | Throw e => Throw e
              end) ;;
       let '(qualityScore, message) := scored in
       (if ToBoolean (req_saveOnStop body) then
          connectivity_save {|
            new_userId := userId;
            new_location := (longitude, latitude);
            new_qualityScore := qualityScore;
            new_rsrq :=
              if strict_eq_string networkType "wifi" then JNull else rsrq;
            new_sinr :=
              if strict_eq_string networkType "wifi" then JNull else sinr;
            new_cqi :=
              if strict_eq_string networkType "wifi" then JNull else cqi;
            new_downloadSpeed := JS.or downloadSpeed (JNumber 0);
            new_uploadSpeed := JS.or uploadSpeed (JNumber 0);
            new_latency := JS.or latency (JNumber 0);
            new_provider := JS.or (req_provider body) (JString "Other");
            new_networkType := JS.or networkType (JString "unknown") |}
        else ret tt) ;;
       db <- get ;;
       bestZone <-
         lift (findBestZoneHelper db userId latitude longitude JUndefined) ;;
       ret (Status200 {|
         rec_qualityScore := qualityScore;
         rec_humanMessage := message;
         rec_downloadSpeed := JS.or downloadSpeed (JNumber 0);
         rec_uploadSpeed := JS.or uploadSpeed (JNumber 0);
         rec_latency := JS.or latency (JNumber 0);
         rec_bestZone := bestZone;
         rec_metrics := {|
           metrics_rsrq := rsrq;
           metrics_sinr := sinr;
           metrics_cqi := cqi;
           metrics_downloadSpeed := JS.or downloadSpeed (JNumber 0);
           metrics_uploadSpeed := JS.or uploadSpeed (JNumber 0);
           metrics_latency := JS.or latency (JNumber 0) |} |}))
    (fun error => ret (Next error)).

End Recorder.

(** ** Instances for the worked examples of the record endpoint *)

Module Recording.
Import Example.

#[local] Existing Instance conversions.
#[local] Existing Instance geo.
#[local] Existing Instance store.

(** What the in-memory store keeps of a saved measurement. *)
Definition document_of (c : Connectivity) : Document :=
  {| doc_userId := new_userId c;
     doc_location := new_location c;
     doc_qualityScore :=
       match new_qualityScore c with
       | Some q => q
       | None => 0
       end;
     doc_rsrq := new_rsrq c;
     doc_sinr := new_sinr c;
     doc_cqi := new_cqi c;
     doc_downloadSpeed := new_downloadSpeed c;
     doc_uploadSpeed := new_uploadSpeed c;
     doc_timestamp := ServerDate 0 |}.

Definition persistence : Persistence := {|
  save := fun s c =>
    if reachable s then
      (Return tt,
       {| documents := (documents s ++ [document_of c])%list;
          reachable := true |})
    else (Throw "store unreachable", s)
|}.

(** A request at latitude 10, longitude 20, asking to be saved. *)
Definition request (kind : string) (r s c down up : JSValue) : RequestBody :=
  {| req_rsrq := r; req_sinr := s; req_cqi := c;
     req_latitude := JNumber 10; req_longitude := JNumber 20;
     req_downloadSpeed := down; req_uploadSpeed := up;
     req_latency := JNumber 0;
     req_saveOnStop := JBoolean true;
     req_provider := JUndefined;
     req_networkType := JString kind |}.

(** The same request from nowhere. *)
Definition misplaced (body : RequestBody) : RequestBody :=
  {| req_rsrq := req_rsrq body; req_sinr := req_sinr body;
     req_cqi := req_cqi body;
     req_latitude := JUndefined; req_longitude := JUndefined;
     req_downloadSpeed := req_downloadSpeed body;
     req_uploadSpeed := req_uploadSpeed body;
     req_latency := req_latency body;
     req_saveOnStop := req_saveOnStop body;
     req_provider := req_provider body;
     req_networkType := req_networkType body |}.

(** The same request, not to be saved. *)
Definition unsaved (body : RequestBody) : RequestBody :=
  {| req_rsrq := req_rsrq body; req_sinr := req_sinr body;
     req_cqi := req_cqi body;
     req_latitude := req_latitude body;
     req_longitude := req_longitude body;
     req_downloadSpeed := req_downloadSpeed body;
     req_uploadSpeed := req_uploadSpeed body;
     req_latency := req_latency body;
     req_saveOnStop := JUndefined;
     req_provider := req_provider body;
     req_networkType := req_networkType body |}.

End Recording.

(** * Double precision

    The embedding above computes on exact rationals.  A JavaScript
    number is an IEEE 754 binary64 value, and where a result depends on
    its rounding (a tie of [Math.round] or of [toFixed]) or on the
    values that are no rationals (NaN, the infinities), the code is
    embedded again over the doubles.  A finite double is kept as the
    rational it denotes and every operation rounds its exact result to
    the nearest double, a tie going to the even significand.  The sign
    of a zero is not modelled. *)

Module Double.

Inductive double : Type :=
| Finite (q : Q)
| Infinity (negative : bool)
| NotANumber.

Definition pow2 (e : Z) : Q := 2 ^ e.

(** The [e] with [2 ^ e <= x < 2 ^ (e + 1)], for a positive [x]. *)
Definition ilog2 (x : Q) : Z :=
  let l := (Z.log2 (Qnum x) - Z.log2 (Zpos (Qden x)))%Z in
  if Qle_bool (pow2 l) x then l else (l - 1)%Z.

(** The integer nearest to [x], the even one of two. *)
Definition nearest_even (x : Q) : Z :=
  let f := Qfloor x in
  match Qcompare (x - inject_Z f) (1 # 2) with
  | Lt => f
  | Gt => (f + 1)%Z
  | Eq => if Z.even f then f else (f + 1)%Z
  end.

Definition negative (x : Q) : bool := negb (Qle_bool 0 x).

(** [round64 x]: the double nearest to the real [x].  The significand
    has 53 bits, fewer below [2 ^ -1022] where the spacing stays
    [2 ^ -1074], and what rounds to [2 ^ 1024] or beyond is infinite. *)
Definition round64 (x : Q) : double :=
  if Qeq_bool x 0 then Finite 0
  else
    let e := Z.max (ilog2 (Qabs x) - 52) (-1074) in
    let y := inject_Z (nearest_even (Qabs x / pow2 e)) * pow2 e in
    if Qle_bool (pow2 1024) y then Infinity (negative x)
    else Finite (Qred (if negative x then - y else y)).

(** The largest double. *)
Definition max_double : Q := pow2 1024 - pow2 971.

(** A numeric literal of the source, and an integer such as a length. *)
Definition literal (x : Q) : double := round64 x.
Definition of_Z (z : Z) : double := round64 (inject_Z z).

Definition is_zero (x : Q) : bool := Qeq_bool x 0.

(** [- x], [x + y], [x - y], [x * y] and [x / y]. *)
Definition opp (x : double) : double :=
  match x with
  | Finite q => Finite (- q)
  | Infinity s => Infinity (negb s)
  | NotANumber => NotANumber
  end.

Definition add (x y : double) : double :=
  match x, y with
  | NotANumber, _ | _, NotANumber => NotANumber
  | Infinity s, Infinity t => if Bool.eqb s t then Infinity s else NotANumber
  | Infinity s, Finite _ | Finite _, Infinity s => Infinity s
  | Finite a, Finite b => round64 (a + b)
  end.

Definition sub (x y : double) : double := add x (opp y).

Definition mul (x y : double) : double :=
  match x, y with
  | NotANumber, _ | _, NotANumber => NotANumber
  | Infinity s, Infinity t => Infinity (xorb s t)
  | Infinity s, Finite b | Finite b, Infinity s =>
      if is_zero b then NotANumber else Infinity (xorb s (negative b))
  | Finite a, Finite b => round64 (a * b)
  end.

(** A zero divisor counts as positive. *)
Definition div (x y : double) : double :=
  match x, y with
  | NotANumber, _ | _, NotANumber => NotANumber
  | Infinity _, Infinity _ => NotANumber
  | Infinity s, Finite b => Infinity (xorb s (negative b))
  | Finite _, Infinity _ => Finite 0
  | Finite a, Finite b =>
      if is_zero b then
        if is_zero a then NotANumber else Infinity (negative a)
      else round64 (a / b)
  end.

(** [x < y] and [x > y]; a comparison with NaN is false. *)
Definition lt (x y : double) : bool :=
  match x, y with
  | NotANumber, _ | _, NotANumber => false
  | Finite a, Finite b => Qltb a b
  | Finite _, Infinity t => negb t
  | Infinity s, Finite _ => s
  | Infinity s, Infinity t => s && negb t
  end.

Definition gt (x y : double) : bool := lt y x.

(** [Math.abs], [Math.max], [Math.min] and [Math.round]; the rounding
    is to the nearest integer, a tie going up, and is exact. *)
Definition Math_abs (x : double) : double :=
  match x with
  | Finite q => Finite (Qabs q)
  | Infinity _ => Infinity false
  | NotANumber => NotANumber
  end.

Definition Math_max (x y : double) : double :=
  match x, y with
  | NotANumber, _ | _, NotANumber => NotANumber
  | _, _ => if lt x y then y else x
  end.

Definition Math_min (x y : double) : double :=
  match x, y with
  | NotANumber, _ | _, NotANumber => NotANumber
  | _, _ => if lt y x then y else x
  end.

Definition Math_round (x : double) : double :=
  match x with
  | Finite q => Finite (inject_Z (Qfloor (q + (1 # 2))))
  | other => other
  end.

(** [parseFloat(x.toFixed(2))].  Below 1e21 [toFixed] prints the
    integer [n] with [n / 100] nearest to the magnitude, the larger one
    on a tie, and [parseFloat] reads the decimal back as the nearest
    double; from 1e21 on, and for NaN and the infinities, the number is
    printed and read back as it is. *)
Definition parseFloat_toFixed2 (x : double) : double :=
  match x with
  | Finite q =>
      if Qle_bool (inject_Z (10 ^ 21)) (Qabs q) then x
      else
        let n := inject_Z (Qfloor (Qabs q * 100 + (1 # 2))) in
        round64 (if negative q then - (n / 100) else n / 100)
  | other => other
  end.

(** What [JSON.stringify] writes for a number: the number, or [null]
    for NaN and the infinities. *)
Definition stringify (x : double) : number :=
  match x with
  | Finite q => Some q
  | _ => JS.NaN
  end.

End Double.

(** ** The code in double precision *)

Module Precise.
Import Double.

(** A value: as [JSValue], with every double for a number. *)
Inductive Value : Type :=
| VUndefined
| VNull
| VBoolean (b : bool)
| VNumber (x : double)
| VString (s : string).

(** [calculateQualityScore(rsrq, sinr, cqi)].  NaN is of type number
    and fails no range test. *)
Definition calculateQualityScore (rsrq sinr cqi : Value)
  : Completion double :=
  match rsrq, sinr, cqi with
  | VNumber rsrq, VNumber sinr, VNumber cqi =>
      if lt rsrq (literal (-20)) || gt rsrq (literal (-3)) then
        Throw "RSRQ out of range: -20 to -3"
      else if lt sinr (literal (-10)) || gt sinr (literal 30) then
        Throw "SINR out of range: -10 to 30"
      else if lt cqi (literal 0) || gt cqi (literal 15) then
        Throw "CQI out of range: 0 to 15"
      else
        let sinrScore :=
          mul sinr (literal CONSTANTS.QUALITY_SCORE.SINR_WEIGHT) in
        let cqiScore :=
          mul (mul (div cqi (literal 15)) (literal 100))
              (literal CONSTANTS.QUALITY_SCORE.CQI_WEIGHT) in
        let rsrqScore :=
          mul (Math_abs rsrq) (literal CONSTANTS.QUALITY_SCORE.RSRQ_WEIGHT) in
        let score := sub (add sinrScore cqiScore) rsrqScore in
        let score :=
          Math_max (literal CONSTANTS.QUALITY_SCORE.MIN_SCORE)
                   (Math_min (literal CONSTANTS.QUALITY_SCORE.MAX_SCORE)
                             score) in
        Return (Math_round score)
  | _, _, _ => Throw "Invalid radio metrics - must be numbers"
  end.

(** [calculateWiFiQualityScore(downloadSpeed = 0, uploadSpeed = 0,
    latency = 0)].  Each argument is used in a division first, which
    converts it: an argument is given here as the number it converts
    to, and [None] is one left out. *)
Definition default_0 (x : option double) : double :=
  match x with
  | Some x => x
  | None => literal 0
  end.

Definition calculateWiFiQualityScore
    (downloadSpeed uploadSpeed latency : option double) : double :=
  let downloadSpeed := default_0 downloadSpeed in
  let uploadSpeed := default_0 uploadSpeed in
  let latency := default_0 latency in
  let normalizedDownload :=
    Math_min (literal 100)
             (mul (div downloadSpeed (literal 100)) (literal 100)) in
  let normalizedUpload :=
    Math_min (literal 100)
             (mul (div uploadSpeed (literal 50)) (literal 100)) in
  let normalizedLatency :=
    Math_max (literal 0)
             (sub (literal 100)
                  (mul (div latency (literal 200)) (literal 100))) in
  let wifiScore :=
    add (add (mul normalizedDownload (literal 0.5))
             (mul normalizedUpload (literal 0.3)))
        (mul normalizedLatency (literal 0.2)) in
  Math_round (Math_max (literal 0) (Math_min (literal 100) wifiScore)).

Section StopHandler.
Context {conv : Conversions} {geo : GeoUtils} {rs : RecordStore} {auth : Auth}.

(** ToNumber and ToString on doubles.  A number of a message is the
    double its decimal denotes; [StringToNumber] yields a rational or
    NaN. *)
Definition ToNumber (v : JSValue) : double :=
  match v with
  | JUndefined => NotANumber
  | JNull => Finite 0
  | JBoolean b => Finite (if b then 1 else 0)
  | JNumber q => round64 q
  | JString s =>
      match StringToNumber s with
      | Some q => round64 q
      | None => NotANumber
      end
  end.

Definition NumberToString (x : double) : string :=
  match x with
  | Finite q => JS.NumberToString (Some q)
  | Infinity false => "Infinity"
  | Infinity true => "-Infinity"
  | NotANumber => JS.NumberToString JS.NaN
  end.

(** The running value of [measurements.reduce((sum, m) => sum + m.field,
    0)], and the quotient [sum / measurements.length]. *)
Inductive Sum : Type :=
| SumNumber (x : double)
| SumString (s : string).

Definition plus (sum : Sum) (v : JSValue) : Sum :=
  match sum, v with
  | SumString a, _ => SumString (a ++ ToString v)
  | SumNumber x, JString s => SumString (NumberToString x ++ s)
  | SumNumber x, _ => SumNumber (add x (ToNumber v))
  end.

Definition reduce_sum (field : Sample -> JSValue) (measurements : list Sample)
  : Sum :=
  fold_left (fun sum m => plus sum (field m)) measurements
            (SumNumber (literal 0)).

Definition divide (sum : Sum) (n : nat) : double :=
  let numerator :=
    match sum with
    | SumNumber x => x
    | SumString s => ToNumber (JString s)
    end in
  div numerator (of_Z (Z.of_nat n)).

(** The [data] of the summary of [handleStop], computed from the array
    as it is once [insertMany] has resolved. *)
Definition sessionSummary (now sessionStartTime : Z)
    (measurements : list Sample) (savedMeasurements : list Document)
  : SessionSummary :=
  let count := length measurements in
  let sessionDuration :=
    Math_round (div (of_Z (now - sessionStartTime)) (literal 1000)) in
  let avgQuality :=
    Math_round
      (divide (reduce_sum (fun m => JNumber (m_qualityScore m)) measurements)
              count) in
  let average field :=
    parseFloat_toFixed2 (divide (reduce_sum field measurements) count) in
  {| sum_measurementCount := count;
     sum_sessionDuration := NumberToString sessionDuration ++ "s";
     averageQuality := stringify avgQuality;
     averageRsrq := stringify (average m_rsrq);
     averageSinr := stringify (average m_sinr);
     averageCqi := stringify (average m_cqi);
     averageDownloadSpeed := stringify (average m_downloadSpeed);
     averageUploadSpeed := stringify (average m_uploadSpeed);
     savedCount := length savedMeasurements;
     sum_timestamp := now |}.

(** The 'stop' case of the listener, which it takes for a message of
    type 'stop' once a user is bound, in the two runs the event loop
    gives it.  [stop_begins] goes from the
    message to the one await of [handleStop]: on an empty array the
    handler ends there ([None]); otherwise the documents are built from
    the array as it is and handed to [insertMany], whose outcome is
    awaited. *)
Definition stop_begins (userId : string) (w : World)
  : option (Completion (list Document)) * World :=
  if Nat.eqb (length (measurements w)) 0 then
    (None,
     set_measurements []
       (snd (sendMessage (msg_error "No measurements recorded") w)))
  else
    let docs := map (toDocument userId) (measurements w) in
    let '(saved, db') := insertMany (db w) docs in
    (Some saved, set_db db' (emit (InsertMany docs) w)).

(** [stop_resumes] runs from the outcome of the insert to the end of
    the case: the summary is computed from [array], the array
    [handleStop] was given, as it is by then; after it the listener
    binds [measurements] to a new empty array. *)
Definition stop_resumes (now : Z) (saved : Completion (list Document))
    (array : list Sample) (w : World) : World :=
  let frame :=
    match saved with
    | Return savedMeasurements =>
        msg_session_summary (sessionId w)
          (sessionSummary now (sessionStartTime w) array savedMeasurements)
    | Throw e => msg_error ("Failed to save measurements: " ++ e)
    end in
  set_measurements [] (snd (sendMessage frame w)).

(** A stop during whose await the connection handles nothing else: the
    array is then still the one the listener's variable holds. *)
Definition stop_uninterrupted (now : Z) (userId : string) (w : World)
  : World :=
  match stop_begins userId w with
  | (None, w') => w'
  | (Some saved, w') => stop_resumes now saved (measurements w') w'
  end.

End StopHandler.

End Precise.

(** * Vocabulary of the properties *)

Definition valid_rsrq (x : Q) : Prop := -20 <= x <= -3.
Definition valid_sinr (x : Q) : Prop := -10 <= x <= 30.
Definition valid_cqi (x : Q) : Prop := 0 <= x <= 15.

(** The raw score and the clamping, written after the specification:
    half the SINR, plus three tenths of the CQI as a percentage of 15,
    minus a fifth of the magnitude of the RSRQ. *)
Definition raw_score (rsrq sinr cqi : Q) : Q :=
  0.5 * sinr + 0.3 * ((cqi / 15) * 100) - 0.2 * Qabs rsrq.

Definition clamp (x lo hi : Q) : Q :=
  if Qltb x lo then lo else if Qgtb x hi then hi else x.


Definition throws {A : Type} (c : Completion A) : Prop :=
  exists message, c = Throw message.

(** A value that is a number; one within, and one outside, a range. *)
Definition numeric (v : JSValue) : Prop := typeof v = "number".

Definition within (lo hi : Q) (v : JSValue) : Prop :=
  exists q, v = JNumber q /\ lo <= q <= hi.

Definition outside (lo hi : Q) (v : JSValue) : Prop :=
  exists q, v = JNumber q /\ (q < lo \/ hi < q).

(** A metric that is absent, or a number within its range. *)
Definition absent_or_within (lo hi : Q) (v : JSValue) : Prop :=
  v = JUndefined \/ within lo hi v.

Fixpoint total (qs : list Q) : Q :=
  match qs with
  | [] => 0
  | q :: rest => q + total rest
  end.

(** The arithmetic mean of a list of numbers. *)
Definition mean (qs : list Q) : Q :=
  total qs / inject_Z (Z.of_nat (length qs)).

(** Equality of numbers as values. *)
Definition number_eq (a b : number) : Prop :=
  match a, b with
  | Some x, Some y => x == y
  | None, None => True
  | _, _ => False
  end.

(** [text] names [part]: it has it as a run of consecutive characters. *)
Definition names (text part : string) : Prop :=
  exists before after, text = before ++ part ++ after.

(** A test for [names]. *)
Fixpoint is_infix (part text : string) : bool :=
  String.prefix part text
  || match text with
     | String _ rest => is_infix part rest
     | EmptyString => false
     end.

(** A sample whose radio metrics are numbers within their ranges and
    whose quality score is the score of those metrics. *)
Definition scored (m : Sample) : Prop :=
  within (-20) (-3) (m_rsrq m)
  /\ within (-10) 30 (m_sinr m)
  /\ within 0 15 (m_cqi m)
  /\ calculateQualityScore (m_rsrq m) (m_sinr m) (m_cqi m)
     = Return (m_qualityScore m).

Definition spot_latitude (d : Document) : JSValue := snd (doc_location d).
Definition spot_longitude (d : Document) : JSValue := fst (doc_location d).

Section Vocabulary.
Context {conv : Conversions} {rs : RecordStore}.

(** The effects a handler added to the trace of [w]. *)
Definition added (w w' : World) (effects : list Effect) : Prop :=
  trace w' = (trace w ++ effects)%list.

(** Nothing of the session but the trace changed. *)
Definition same_session (w w' : World) : Prop :=
  userId w' = userId w
  /\ sessionId w' = sessionId w
  /\ measurementCount w' = measurementCount w
  /\ sessionStartTime w' = sessionStartTime w
  /\ measurements w' = measurements w
  /\ readyState w' = readyState w
  /\ db w' = db w.

(** The query of the session path: the user's documents within the
    default radius of the sample. *)
Definition session_query (user : string) (lat lon : JSValue) : NearQuery :=
  {| near_userId := user;
     near_coordinates := (lon, lat);
     near_maxDistance := Some CONSTANTS.GEO.DEFAULT_RADIUS_M |}.

(** The query of the record path: the user's documents within the
    requested radius, the default one when none is given, and never more
    than the maximum. *)
Definition record_query (user : string) (lat lon radius : JSValue)
  : NearQuery :=
  {| near_userId := user;
     near_coordinates := (lon, lat);
     near_maxDistance :=
       option_map (fun r => Math_min r CONSTANTS.GEO.MAX_RADIUS_M)
         (ToNumber match radius with
                   | JUndefined => JNumber CONSTANTS.GEO.DEFAULT_RADIUS_M
                   | given => given
                   end) |}.

End Vocabulary.

(** ** Further vocabulary *)

(** A document whose radio metrics are numbers within their ranges and
    whose quality score is the score of those metrics. *)
Definition scored_document (d : Document) : Prop :=
  within (-20) (-3) (doc_rsrq d)
  /\ within (-10) 30 (doc_sinr d)
  /\ within 0 15 (doc_cqi d)
  /\ calculateQualityScore (doc_rsrq d) (doc_sinr d) (doc_cqi d)
     = Return (doc_qualityScore d).

(** The body of a request with other radio metrics. *)
Definition with_metrics (rsrq sinr cqi : JSValue) (body : RequestBody)
  : RequestBody :=
  {| req_rsrq := rsrq;
     req_sinr := sinr;
     req_cqi := cqi;
     req_latitude := req_latitude body;
     req_longitude := req_longitude body;
     req_downloadSpeed := req_downloadSpeed body;
     req_uploadSpeed := req_uploadSpeed body;
     req_latency := req_latency body;
     req_saveOnStop := req_saveOnStop body;
     req_provider := req_provider body;
     req_networkType := req_networkType body |}.

Section MoreVocabulary.
Context {conv : Conversions} {geo : GeoUtils} {rs : RecordStore}.

(** An answer but for the [metrics] it echoes. *)
Definition without_metrics (answer : Completion (Response Recorded))
  : Completion
      (Response (number * string * (JSValue * JSValue * JSValue)
                 * BestZoneResult)) :=
  match answer with
  | Return (Status200 data) =>
      Return (Status200
                (rec_qualityScore data, rec_humanMessage data,
                 (rec_downloadSpeed data, rec_uploadSpeed data,
                  rec_latency data),
                 rec_bestZone data))
  | Return (Status400 message) => Return (Status400 message)
  | Return (Next error) => Return (Next error)
  | Throw e => Throw e
  end.

End MoreVocabulary.

(** ** Vocabulary of the double precision *)

(** Half the spacing of the doubles between 1 and 2: one rounding moves
    a number of magnitude at most [M] by [(M + 1) * roundoff] at
    most. *)
Definition roundoff : Q := Double.pow2 (-53).

(** How close to a tie [k + 1/2] the clamped raw score must lie for
    the roundings of the arithmetic to decide the integer. *)
Definition tie_margin : Q := 1 # 1000000000000.

(** A double that is NaN, or finite and within a range. *)
Definition NaN_or_within (lo hi : Q) (x : Double.double) : Prop :=
  x = Double.NotANumber \/ exists q, x = Double.Finite q /\ lo <= q <= hi.

(** A number that is an integer. *)
Definition integer (q : Q) : Prop := exists k : Z, q == inject_Z k.

(** What bounds the partial sums of [n] numbers of magnitude at most
    [bound], each taken a unit larger; and the error of their mean
    when it is computed in double precision, by adding from left to
    right and dividing: three roundings of that size at most. *)
Definition magnitude (n : nat) (bound : Q) : Q :=
  inject_Z (Z.of_nat n) * (bound + 1) + 1.

Definition mean_error (n : nat) (bound : Q) : Q :=
  3 * magnitude n bound * roundoff.

(** [a] is the double nearest to a decimal [v] of two fractional
    digits that lies within 0.005, and [tol], of [m]. *)
Definition two_decimals (a : number) (m tol : Q) : Prop :=
  exists (k : Z) (v x : Q),
    v * 100 == inject_Z k
    /\ Qabs (v - m) <= (1 # 200) + tol
    /\ Double.round64 v = Double.Finite x
    /\ a = Some x.

(** A latency that is left out, a finite number no larger than the
    largest double, or Infinity. *)
Definition settled_latency (x : option Double.double) : Prop :=
  x = None
  \/ x = Some (Double.Infinity false)
  \/ exists q, x = Some (Double.Finite q) /\ Qabs q <= Double.max_double.

(** A double that is at most [B]: a finite one, or -Infinity. *)
Definition at_most (B : Q) (x : Double.double) : Prop :=
  x = Double.Infinity true \/ exists q, x = Double.Finite q /\ q <= B.

Section PreciseVocabulary.
Context {conv : Conversions} {geo : GeoUtils} {rs : RecordStore} {auth : Auth}.

(** A frame or call without the figures of a summary: its duration
    and averages. *)
Definition without_statistics (e : Effect) : Effect :=
  match e with
  | Send (msg_session_summary id s) =>
      Send (msg_session_summary id
              {| sum_measurementCount := sum_measurementCount s;
                 sum_sessionDuration := "";
                 averageQuality := NaN;
                 averageRsrq := NaN;
                 averageSinr := NaN;
                 averageCqi := NaN;
                 averageDownloadSpeed := NaN;
                 averageUploadSpeed := NaN;
                 savedCount := savedCount s;
                 sum_timestamp := sum_timestamp s |})
  | other => other
  end.

End PreciseVocabulary.

(** * Properties *)

(** ** Comparisons and rounding *)

Lemma Qltb_lt (x y : Q) : Qltb x y = true <-> x < y.
Proof.
  unfold Qltb. rewrite negb_true_iff, <- not_true_iff_false, Qle_bool_iff.
  split; [apply Qnot_le_lt | apply Qlt_not_le].
Qed.

Lemma Qltb_ge (x y : Q) : Qltb x y = false <-> y <= x.
Proof.
  unfold Qltb. rewrite negb_false_iff. apply Qle_bool_iff.
Qed.

Lemma Qgtb_gt (x y : Q) : Qgtb x y = true <-> y < x.
Proof. apply Qltb_lt. Qed.

Lemma Qgtb_le (x y : Q) : Qgtb x y = false <-> x <= y.
Proof. apply Qltb_ge. Qed.

(** [lo <= x <= hi], as the two tests of a range check read it. *)
Lemma range_check (lo hi x : Q) :
  Qltb x lo || Qgtb x hi = false <-> lo <= x <= hi.
Proof.
  rewrite orb_false_iff, Qltb_ge, Qgtb_le. tauto.
Qed.


(** ** The score of a valid triple *)

(** On a valid triple every check passes and the function returns the
    rounded, clamped weighted sum. *)
Lemma calculateQualityScore_valid (rsrq sinr cqi : Q) :
  valid_rsrq rsrq -> valid_sinr sinr -> valid_cqi cqi ->
  calculateQualityScore (JNumber rsrq) (JNumber sinr) (JNumber cqi)
  = Return (Math_round
              (Math_max 0 (Math_min 100
                 (sinr * 0.5 + (cqi / 15) * 100 * 0.3 - Math_abs rsrq * 0.2)))).
Proof.
  intros Hr Hs Hc. unfold calculateQualityScore.
  apply range_check in Hr, Hs, Hc.
  rewrite Hr, Hs, Hc. reflexivity.
Qed.

Example score_of_strong_signal :
  calculateQualityScore (JNumber (-5)) (JNumber 20) (JNumber 15) = Return 39.
Proof. reflexivity. Qed.

Example score_of_weak_signal :
  calculateQualityScore (JNumber (-5)) (JNumber 10) (JNumber 0) = Return 4.
Proof. reflexivity. Qed.

(** ** Monotonicity *)





(** ** Domain errors *)

Lemma numeric_JNumber (v : JSValue) : numeric v <-> exists q, v = JNumber q.
Proof.
  unfold numeric. split.
  - destruct v; simpl; intros H; try discriminate. eauto.
  - intros [q ->]. reflexivity.
Qed.

Lemma within_or_outside (lo hi q : Q) :
  within lo hi (JNumber q) \/ outside lo hi (JNumber q).
Proof.
  destruct (Qlt_le_dec q lo) as [Hlo | Hlo].
  - right. exists q. auto.
  - destruct (Qlt_le_dec hi q) as [Hhi | Hhi].
    + right. exists q. auto.
    + left. exists q. auto.
Qed.

Lemma within_not_outside (lo hi : Q) (v : JSValue) :
  within lo hi v -> ~ outside lo hi v.
Proof.
  intros [q [-> Hq]] [q' [E Hq']]. injection E as <-. lra.
Qed.

Lemma calculateQualityScore_numbers (rsrq sinr cqi : Q) :
  throws (calculateQualityScore (JNumber rsrq) (JNumber sinr) (JNumber cqi))
  <-> (rsrq < -20 \/ -3 < rsrq) \/ (sinr < -10 \/ 30 < sinr)
      \/ (cqi < 0 \/ 15 < cqi).
Proof.
  unfold calculateQualityScore.
  destruct (Qltb rsrq (-20) || Qgtb rsrq (-3)) eqn:Hr.
  { split; [intros _ | intros _; eexists; reflexivity].
    left. apply orb_true_iff in Hr.
    destruct Hr as [H | H]; [apply Qltb_lt in H | apply Qgtb_gt in H]; auto. }
  apply range_check in Hr.
  destruct (Qltb sinr (-10) || Qgtb sinr 30) eqn:Hs.
  { split; [intros _ | intros _; eexists; reflexivity].
    right; left. apply orb_true_iff in Hs.
    destruct Hs as [H | H]; [apply Qltb_lt in H | apply Qgtb_gt in H]; auto. }
  apply range_check in Hs.
  destruct (Qltb cqi 0 || Qgtb cqi 15) eqn:Hc.
  { split; [intros _ | intros _; eexists; reflexivity].
    right; right. apply orb_true_iff in Hc.
    destruct Hc as [H | H]; [apply Qltb_lt in H | apply Qgtb_gt in H]; auto. }
  apply range_check in Hc.
  split.
  - intros [m Hm]. discriminate.
  - intros H. lra.
Qed.

(** The cases of the unit tests of [calculateQualityScore] and
    [getSignalQuality]. *)
Example test_invalid_rsrq :
  calculateQualityScore (JNumber (-25)) (JNumber 5) (JNumber 10)
  = Throw "RSRQ out of range: -20 to -3"
  /\ calculateQualityScore (JNumber 0) (JNumber 5) (JNumber 10)
     = Throw "RSRQ out of range: -20 to -3".
Proof. split; reflexivity. Qed.

Example test_invalid_sinr :
  calculateQualityScore (JNumber (-10)) (JNumber (-20)) (JNumber 10)
  = Throw "SINR out of range: -10 to 30"
  /\ calculateQualityScore (JNumber (-10)) (JNumber 40) (JNumber 10)
     = Throw "SINR out of range: -10 to 30".
Proof. split; reflexivity. Qed.

Example test_invalid_cqi :
  calculateQualityScore (JNumber (-10)) (JNumber 5) (JNumber (-1))
  = Throw "CQI out of range: 0 to 15"
  /\ calculateQualityScore (JNumber (-10)) (JNumber 5) (JNumber 20)
     = Throw "CQI out of range: 0 to 15".
Proof. split; reflexivity. Qed.

Example test_non_numeric :
  calculateQualityScore (JString "invalid") (JNumber 5) (JNumber 10)
  = Throw "Invalid radio metrics - must be numbers"
  /\ calculateQualityScore (JNumber (-10)) JNull (JNumber 10)
     = Throw "Invalid radio metrics - must be numbers".
Proof. split; reflexivity. Qed.

Example test_better_metrics :
  calculateQualityScore (JNumber (-18)) (JNumber (-5)) (JNumber 2) = Return 0
  /\ calculateQualityScore (JNumber (-8)) (JNumber 15) (JNumber 12)
     = Return 30.
Proof. split; reflexivity. Qed.

Example test_edge_cases :
  calculateQualityScore (JNumber (-20)) (JNumber (-10)) (JNumber 0) = Return 0
  /\ calculateQualityScore (JNumber (-3)) (JNumber 30) (JNumber 15)
     = Return 44.
Proof. split; reflexivity. Qed.

Example test_getSignalQuality :
  map getSignalQuality [80; 100; 60; 79; 40; 59; 20; 39; 0; 19]
  = ["Excellent"; "Excellent"; "Good"; "Good"; "Fair"; "Fair";
     "Poor"; "Poor"; "Very Poor"; "Very Poor"].
Proof. reflexivity. Qed.

(** ** The session *)

Section SessionProperties.
Context {conv : Conversions} {geo : GeoUtils} {rs : RecordStore} {auth : Auth}.

Lemma same_session_emit (e : Effect) (w : World) : same_session w (emit e w).
Proof. repeat split. Qed.

Ltac run_handler :=
  unfold receive, onMessage, handleStop, handleMeasurement, findBestNearbyZone,
    ConnectivityData_findOne, ConnectivityData_insertMany, sendMessage,
    ws_close,
    try_catch, bind, ret, throw, lift, get, modify, JSON_parse;
  simpl.

(** A token fails verification when it is missing, when [jwt.verify]
    throws, or when the user it names is not found. *)
Lemma authenticateClient_rejects (tok : JSValue) :
  (ToBoolean tok = false ->
   authenticateClient tok = Failure "Token required")
  /\ (forall reason, ToBoolean tok = true -> jwt_verify tok = Throw reason ->
      authenticateClient tok = Failure reason)
  /\ (forall id, ToBoolean tok = true -> jwt_verify tok = Return id ->
      User_findById id = Return None ->
      authenticateClient tok = Failure "User not found").
Proof.
  unfold authenticateClient. repeat split.
  - intros ->. reflexivity.
  - intros reason -> ->. reflexivity.
  - intros id -> -> ->. reflexivity.
Qed.

(** C3.  While no user is bound to the session, a message of any type
    other than 'authenticate' is answered by one error frame asking to
    authenticate first, and nothing else changes: the socket stays open
    and the session unauthenticated.  An 'authenticate' message whose
    token fails verification is answered by an error frame and then the
    socket is closed with code 4001. *)
Theorem unauthenticated_messages (now : Z) (data : ClientData) (w : World) :
  truthy_userId w = None ->
  readyState w = OPEN ->
  (strict_eq_string (type data) "authenticate" = false ->
   let w' := receive now (Parsed data) w in
   added w w' [Send (msg_error authenticate_first)]
   /\ same_session w w'
   /\ readyState w' = OPEN
   /\ truthy_userId w' = None)
  /\ (forall reason,
      strict_eq_string (type data) "authenticate" = true ->
      authenticateClient (token data) = Failure reason ->
      let w' := receive now (Parsed data) w in
      added w w'
        [Send (msg_error (if String.eqb reason "" then "Authentication failed"
                          else reason));
         Close 4001 "Authentication failed"]
      /\ readyState w' = CLOSING
      /\ truthy_userId w' = None).
Proof.
  intros Huser Hopen. split.
  - intros Htype. run_handler. rewrite Huser, Htype. simpl.
    rewrite Hopen. simpl.
    repeat split; try assumption.
  - intros reason Htype Hfail. run_handler.
    rewrite Huser, Htype, Hfail. simpl. rewrite Hopen. simpl.
    rewrite Hopen. simpl.
    repeat split; try assumption.
    unfold added. simpl. rewrite <- app_assoc. reflexivity.
Qed.

(** C6.  In an authenticated session with an empty accumulator, a stop
    message is answered by one error frame, 'No measurements recorded';
    the record store is not called and the session is as before. *)
Theorem stop_without_measurements (now : Z) (data : ClientData) (w : World)
    (user : string) :
  truthy_userId w = Some user ->
  readyState w = OPEN ->
  measurements w = [] ->
  strict_eq_string (type data) "stop" = true ->
  let w' := receive now (Parsed data) w in
  added w w' [Send (msg_error "No measurements recorded")]
  /\ same_session w w'
  /\ measurements w' = []
  /\ truthy_userId w' = Some user
  /\ readyState w' = OPEN.
Proof.
  intros Huser Hopen Hempty Htype.
  assert (Hnot : strict_eq_string (type data) "measurement" = false).
  { destruct (type data) as [| | b | q | s]; try reflexivity.
    simpl in *. apply String.eqb_eq in Htype. subst s. reflexivity. }
  run_handler. rewrite Huser, Hnot, Htype, Hempty. simpl.
  rewrite Hopen. simpl.
  unfold same_session, added, truthy_userId in *. simpl.
  repeat split; auto.
Qed.

Lemma range_test_passes (lo hi : Q) (v : JSValue) :
  absent_or_within lo hi v -> JS.lt v lo = false /\ JS.gt v hi = false.
Proof.
  intros [-> | [q [-> Hq]]].
  - split; reflexivity.
  - unfold JS.lt, JS.gt. simpl. rewrite Qltb_ge, Qgtb_le. tauto.
Qed.

Lemma not_stop_nor_ping (v : JSValue) :
  strict_eq_string v "measurement" = true ->
  strict_eq_string v "stop" = false /\ strict_eq_string v "ping" = false.
Proof.
  destruct v as [| | b | q | s]; try discriminate.
  simpl. intros H. apply String.eqb_eq in H. subst s. split; reflexivity.
Qed.

(** C10.  In an authenticated session, a measurement message with a
    valid coordinate in which RSRQ, SINR or CQI is absent (each of them
    absent or within its range) passes the range test of the handler, so
    the 'Invalid radio metrics' answer is not given; the type check of
    [calculateQualityScore] throws, the listener answers 'Failed to process
    message: ...', and neither the accumulator nor anything else of the
    session changes. *)
Theorem measurement_with_absent_metric (now : Z) (data : ClientData)
    (w : World) (user : string) :
  truthy_userId w = Some user ->
  readyState w = OPEN ->
  strict_eq_string (type data) "measurement" = true ->
  isValidCoordinate (latitude data) (longitude data) = true ->
  absent_or_within (-20) (-3) (rsrq data) ->
  absent_or_within (-10) 30 (sinr data) ->
  absent_or_within 0 15 (cqi data) ->
  rsrq data = JUndefined \/ sinr data = JUndefined \/ cqi data = JUndefined ->
  JS.lt (rsrq data) (-20) || JS.gt (rsrq data) (-3)
  || JS.lt (sinr data) (-10) || JS.gt (sinr data) 30
  || JS.lt (cqi data) 0 || JS.gt (cqi data) 15 = false
  /\ calculateQualityScore (rsrq data) (sinr data) (cqi data)
     = Throw "Invalid radio metrics - must be numbers"
  /\ let w' := receive now (Parsed data) w in
     added w w'
       [Send (msg_error ("Failed to process message: "
                         ++ "Invalid radio metrics - must be numbers"))]
     /\ same_session w w'.
Proof.
  intros Huser Hopen Htype Hcoord Hr Hs Hc Habsent.
  destruct (range_test_passes _ _ _ Hr) as [Hr1 Hr2].
  destruct (range_test_passes _ _ _ Hs) as [Hs1 Hs2].
  destruct (range_test_passes _ _ _ Hc) as [Hc1 Hc2].
  assert (Hthrow : calculateQualityScore (rsrq data) (sinr data) (cqi data)
                   = Throw "Invalid radio metrics - must be numbers").
  { destruct Habsent as [E | [E | E]]; rewrite E.
    - reflexivity.
    - destruct (rsrq data); reflexivity.
    - destruct (rsrq data); try reflexivity.
      destruct (sinr data); reflexivity. }
  split; [rewrite Hr1, Hr2, Hs1, Hs2, Hc1, Hc2; reflexivity |].
  split; [exact Hthrow |].
  run_handler.
  rewrite Huser, Htype, Hcoord, Hr1, Hr2, Hs1, Hs2, Hc1, Hc2, Hthrow. simpl.
  rewrite Hopen. simpl.
  split; [reflexivity | apply same_session_emit].
Qed.

(** *** The accumulator *)

Lemma returns_within (r s c : JSValue) (q : Q) :
  calculateQualityScore r s c = Return q ->
  within (-20) (-3) r /\ within (-10) 30 s /\ within 0 15 c.
Proof.
  intros Hret.
  destruct r as [| | b | r | t]; try discriminate.
  destruct s as [| | b | s | t]; try discriminate.
  destruct c as [| | b | c | t]; try discriminate.
  assert (Hno : ~ throws (calculateQualityScore (JNumber r) (JNumber s)
                                                (JNumber c))).
  { intros [m Hm]. congruence. }
  rewrite calculateQualityScore_numbers in Hno.
  repeat split; eexists; (split; [reflexivity |]).
  - destruct (Qlt_le_dec r (-20)); [exfalso; auto |].
    destruct (Qlt_le_dec (-3) r); [exfalso; auto |]. auto.
  - destruct (Qlt_le_dec s (-10)); [exfalso; auto |].
    destruct (Qlt_le_dec 30 s); [exfalso; auto |]. auto.
  - destruct (Qlt_le_dec c 0); [exfalso; auto 6 |].
    destruct (Qlt_le_dec 15 c); [exfalso; auto 6 |]. auto.
Qed.

(** [handleMeasurement] leaves the accumulator as it is, or appends one
    scored sample. *)
Lemma handleMeasurement_accumulates (now : Z) (user : string)
    (data : ClientData) (w : World) :
  let w' := snd (handleMeasurement now user data w) in
  measurements w' = measurements w
  \/ exists m, scored m /\ measurements w' = (measurements w ++ [m])%list.
Proof.
  run_handler.
  destruct (isValidCoordinate (latitude data) (longitude data)); simpl;
    [| destruct (readyState w); left; reflexivity].
  destruct (JS.lt (rsrq data) (-20) || JS.gt (rsrq data) (-3)
            || JS.lt (sinr data) (-10) || JS.gt (sinr data) 30
            || JS.lt (cqi data) 0 || JS.gt (cqi data) 15); simpl;
    [destruct (readyState w); left; reflexivity |].
  destruct (calculateQualityScore (rsrq data) (sinr data) (cqi data))
    as [q | e] eqn:Hscore; simpl; [| left; reflexivity].
  destruct (returns_within _ _ _ _ Hscore) as [Hr [Hs Hc]].
  right. eexists. split.
  2: { destruct (findOne (db w) _) as [[d |] | e]; simpl;
         try destruct (doc_location d); simpl;
         destruct (readyState w); reflexivity. }
  repeat split; assumption.
Qed.

Lemma sendMessage_accumulator (frame : ServerMessage) (w : World) :
  measurements (snd (sendMessage frame w)) = measurements w.
Proof.
  unfold sendMessage, modify. simpl. destruct (readyState w); reflexivity.
Qed.

(** The frame a catch clause sends does not touch the accumulator. *)
Lemma caught_accumulator (body : Handler World unit)
    (report : string -> ServerMessage) (w : World) :
  measurements (snd (try_catch body (fun e => sendMessage (report e)) w))
  = measurements (snd (body w)).
Proof.
  unfold try_catch. destruct (body w) as [[[] | e] w1]; simpl;
    [reflexivity | apply sendMessage_accumulator].
Qed.

Lemma handleStop_accumulator (now : Z) (user session : string)
    (ms : list Sample) (start : Z) (w : World) :
  measurements (snd (handleStop now user session ms start w))
  = measurements w.
Proof.
  run_handler.
  destruct (Nat.eqb (length ms) 0); simpl;
    [destruct (readyState w); reflexivity |].
  destruct (insertMany (db w) _) as [[saved | e] db']; simpl;
    destruct (readyState w); reflexivity.
Qed.

(** Every sample a session accumulates is scored: the listener keeps
    that true on any message. *)
Lemma accumulator_scored (now : Z) (message : Incoming) (w : World) :
  Forall scored (measurements w) ->
  Forall scored (measurements (receive now message w)).
Proof.
  intros Hinv. unfold receive, onMessage.
  rewrite caught_accumulator.
  unfold bind, lift, get.
  destruct message as [reason | data]; cbv beta iota delta [JSON_parse];
    [exact Hinv |].
  destruct (truthy_userId w) as [user |]; cbv beta iota.
  - destruct (strict_eq_string (type data) "measurement"); cbv beta iota.
    + pose proof (handleMeasurement_accumulates now user data w) as Hacc.
      cbv zeta in Hacc.
      assert (Hscored : Forall scored
                (measurements (snd (handleMeasurement now user data w)))).
      { destruct Hacc as [-> | [m [Hm ->]]]; [exact Hinv |].
        apply Forall_app. split; [exact Hinv |].
        constructor; [exact Hm | constructor]. }
      destruct (handleMeasurement now user data w) as [[[] | e] w1];
        exact Hscored.
    + destruct (strict_eq_string (type data) "stop"); cbv beta iota.
      * pose proof (handleStop_accumulator now user (sessionId w)
                      (measurements w) (sessionStartTime w) w) as Hacc.
        destruct (handleStop now user (sessionId w) (measurements w)
                             (sessionStartTime w) w) as [[[] | e] w1];
          cbv beta iota.
        -- constructor.
        -- simpl in Hacc. simpl. rewrite Hacc. exact Hinv.
      * destruct (strict_eq_string (type data) "ping"); cbv beta iota;
          rewrite sendMessage_accumulator; exact Hinv.
  - destruct (strict_eq_string (type data) "authenticate"); cbv beta iota.
    + destruct (authenticateClient (token data)) as [id | e]; cbv beta iota.
      * unfold modify. rewrite sendMessage_accumulator. exact Hinv.
      * pose proof (sendMessage_accumulator
                      (msg_error (if String.eqb e ""
                                  then "Authentication failed" else e)) w)
          as Hsend.
        destruct (sendMessage _ w) as [[[] | e'] w1]; simpl in Hsend;
          cbv beta iota.
        -- unfold ws_close, modify.
           destruct (readyState w1) eqn:E; simpl; rewrite ?E; simpl;
             rewrite Hsend; exact Hinv.
        -- simpl. rewrite Hsend. exact Hinv.
    + rewrite sendMessage_accumulator. exact Hinv.
Qed.

Lemma session_scored (events : list (Z * Incoming)) (w : World) :
  Forall scored (measurements w) ->
  Forall scored (measurements (session events w)).
Proof.
  revert w. induction events as [| [now message] rest IH]; intros w Hinv.
  - exact Hinv.
  - simpl. apply IH. apply accumulator_scored. exact Hinv.
Qed.

(** From the opening of a connection on, the radio metrics of the
    accumulated samples are numbers within their ranges. *)
Lemma connection_scored (events : list (Z * Incoming)) (now : Z)
    (id : string) (store : Store) :
  Forall scored (measurements (session events (handleConnection now id store))).
Proof.
  apply session_scored. unfold handleConnection. simpl. constructor.
Qed.

(** *** Averages *)


(** Below 1e21, [parseFloat(x.toFixed(2))] is a number of hundredths
    within half a hundredth of [x]. *)
Lemma parseFloat_toFixed2_near (x : Q) :
  Qabs x < inject_Z (10 ^ 21) ->
  (exists n : Z, parseFloat_toFixed2 x == inject_Z n / 100)
  /\ Qabs (parseFloat_toFixed2 x - x) <= 1 # 200.
Proof.
  intros Hsmall. unfold parseFloat_toFixed2.
  destruct (Qle_bool (inject_Z (10 ^ 21)) (Qabs x)) eqn:Hbig.
  { apply Qle_bool_iff in Hbig. apply Qle_not_lt in Hbig. contradiction. }
  pose proof (Qfloor_le (Qabs x * 100 + (1 # 2))) as Hle.
  pose proof (Qlt_floor (Qabs x * 100 + (1 # 2))) as Hlt.
  rewrite inject_Z_plus in Hlt. change (inject_Z 1) with 1 in Hlt.
  set (n := Qfloor (Qabs x * 100 + (1 # 2))) in *.
  assert (Hdiv : inject_Z n / 100 == inject_Z n * (1 # 100))
    by (unfold Qdiv; reflexivity).
  destruct (Qltb x 0) eqn:Hneg.
  - apply Qltb_lt in Hneg.
    assert (Habs : Qabs x == - x) by (apply Qabs_neg; lra).
    rewrite Habs in Hle, Hlt.
    split.
    + exists (- n)%Z. rewrite inject_Z_opp. field.
    + apply Qabs_Qle_condition. rewrite Hdiv. split; lra.
  - apply Qltb_ge in Hneg.
    assert (Habs : Qabs x == x) by (apply Qabs_pos; exact Hneg).
    rewrite Habs in Hle, Hlt.
    split.
    + exists n. reflexivity.
    + apply Qabs_Qle_condition. rewrite Hdiv. split; lra.
Qed.

Lemma not_measurement (v : JSValue) :
  strict_eq_string v "stop" = true ->
  strict_eq_string v "measurement" = false.
Proof.
  destruct v as [| | b | q | s]; try discriminate.
  simpl. intros H. apply String.eqb_eq in H. subst s. reflexivity.
Qed.

(** *** A valid measurement event *)

(** In an authenticated session a measurement event with a valid
    coordinate and metrics within their ranges makes one lookup and is
    answered by one [measurement_response], which carries the score of
    the metrics and what [findBestNearbyZone] returned, [null] turned
    into [{ hasData: false }]. *)
Lemma valid_measurement_event (now : Z) (data : ClientData) (w : World)
    (user : string) :
  truthy_userId w = Some user ->
  readyState w = OPEN ->
  strict_eq_string (type data) "measurement" = true ->
  isValidCoordinate (latitude data) (longitude data) = true ->
  within (-20) (-3) (rsrq data) ->
  within (-10) 30 (sinr data) ->
  within 0 15 (cqi data) ->
  let w' := receive now (Parsed data) w in
  exists response,
    added w w'
      [FindOne (session_query user (latitude data) (longitude data));
       Send (msg_measurement_response response)]
    /\ resp_bestZone response
       = match fst (findBestNearbyZone user (latitude data) (longitude data)
                                       w) with
         | Return (Some zone) => NearbyData zone
         | _ => NoNearbyData
         end
    /\ calculateQualityScore (rsrq data) (sinr data) (cqi data)
       = Return (resp_qualityScore response)
    /\ readyState w' = OPEN
    /\ truthy_userId w' = Some user.
Proof.
  intros Huser Hopen Htype Hcoord [r [Er Hr]] [s [Es Hs]] [c [Ec Hc]].
  apply range_check in Hr, Hs, Hc.
  apply orb_false_iff in Hr, Hs, Hc.
  destruct Hr as [Hr1 Hr2], Hs as [Hs1 Hs2], Hc as [Hc1 Hc2].
  unfold session_query.
  run_handler. rewrite Huser, Htype, Hcoord, Er, Es, Ec. simpl.
  unfold JS.lt, JS.gt. simpl.
  rewrite Hr1, Hr2, Hs1, Hs2, Hc1, Hc2. simpl.
  destruct (findOne (db w) _) as [[d |] | e]; simpl;
    try destruct (doc_location d) as [spotLon spotLat]; simpl;
    rewrite Hopen; simpl;
    (eexists;
     split; [unfold added; simpl; rewrite <- app_assoc; reflexivity |]);
    simpl; unfold truthy_userId in *; simpl; auto.
Qed.

(** *** Failures of the record store *)

(** C9, as the code has it.  In an authenticated session: when the
    best-zone lookup of a valid measurement event fails, the failure is
    swallowed and the event is answered by a [measurement_response] with
    its score and [{ hasData: false }], not by an error; when the batch
    insert of a stop fails, the stop is answered by one error frame,
    'Failed to save measurements: ...'.  Either way the socket stays open
    and the session authenticated. *)
Theorem record_store_failure (now : Z) (data : ClientData) (w : World)
    (user reason : string) :
  truthy_userId w = Some user ->
  readyState w = OPEN ->
  (strict_eq_string (type data) "measurement" = true ->
   isValidCoordinate (latitude data) (longitude data) = true ->
   within (-20) (-3) (rsrq data) ->
   within (-10) 30 (sinr data) ->
   within 0 15 (cqi data) ->
   findOne (db w) (session_query user (latitude data) (longitude data))
   = Throw reason ->
   let w' := receive now (Parsed data) w in
   exists response,
     added w w'
       [FindOne (session_query user (latitude data) (longitude data));
        Send (msg_measurement_response response)]
     /\ resp_bestZone response = NoNearbyData
     /\ calculateQualityScore (rsrq data) (sinr data) (cqi data)
        = Return (resp_qualityScore response)
     /\ readyState w' = OPEN
     /\ truthy_userId w' = Some user)
  /\ (forall db' : Store,
      strict_eq_string (type data) "stop" = true ->
      measurements w <> [] ->
      insertMany (db w) (map (toDocument user) (measurements w))
      = (Throw reason, db') ->
      let w' := receive now (Parsed data) w in
      added w w' [InsertMany (map (toDocument user) (measurements w));
                  Send (msg_error ("Failed to save measurements: " ++ reason))]
      /\ readyState w' = OPEN
      /\ truthy_userId w' = Some user).
Proof.
  intros Huser Hopen. split.
  - intros Htype Hcoord Hr Hs Hc Hfind.
    destruct (valid_measurement_event now data w user
                Huser Hopen Htype Hcoord Hr Hs Hc)
      as [response [Hadded [Hzone Hrest]]].
    exists response. split; [exact Hadded |]. split; [| exact Hrest].
    rewrite Hzone. unfold session_query in Hfind. run_handler.
    rewrite Hfind. reflexivity.
  - intros db' Htype Hsome Hinsert.
    pose proof (not_measurement _ Htype) as Hnot.
    assert (Hlen : Nat.eqb (length (measurements w)) 0 = false).
    { destruct (measurements w); [congruence | reflexivity]. }
    run_handler. rewrite Huser, Hnot, Htype, Hlen. simpl.
    rewrite Hinsert. simpl. rewrite Hopen. simpl.
    split; [unfold added; simpl; rewrite <- app_assoc; reflexivity |].
    unfold truthy_userId in *. simpl. auto.
Qed.

(** *** The best zone *)

(** C7.  When the record store reports no match within the radius, both
    resolvers answer 'no data': [findBestZoneHelper] and the endpoint
    return [{ hasData: false }]; [findBestNearbyZone] returns [null], which
    the response to the measurement event carries as [{ hasData: false }].
    When it reports a match, the [bearing] of the result is
    [calculateBearing] from the current coordinate to the coordinate of
    the match, and its [distanceFormatted] is [formatDistance] of
    [calculateDistance] between the same two coordinates. *)
Theorem best_zone_follows_geodesy (store : Store) (w : World) (user : string)
    (lat lon radius : JSValue) :
  (findOne store (record_query user lat lon radius) = Return None ->
   exists result,
     findBestZoneHelper store user lat lon radius = Return result
     /\ hasData result = false)
  /\ (isValidCoordinate lat lon = true ->
      findOne store
        (record_query user lat lon
           (JS.or radius (JNumber CONSTANTS.GEO.DEFAULT_RADIUS_M)))
      = Return None ->
      exists result,
        findBestZone store user lat lon radius = Status200 result
        /\ hasData result = false)
  /\ (findOne (db w) (session_query user lat lon) = Return None ->
      fst (findBestNearbyZone user lat lon w) = Return None)
  /\ (forall d : Document,
      findOne store (record_query user lat lon radius) = Return (Some d) ->
      exists zone,
        findBestZoneHelper store user lat lon radius = Return (HasData zone)
        /\ bz_bearing zone
           = calculateBearing lat lon (spot_latitude d) (spot_longitude d)
        /\ bz_distanceFormatted zone
           = formatDistance
               (calculateDistance lat lon
                  (spot_latitude d) (spot_longitude d)))
  /\ (forall d : Document,
      findOne (db w) (session_query user lat lon) = Return (Some d) ->
      exists zone,
        fst (findBestNearbyZone user lat lon w) = Return (Some zone)
        /\ nz_bearing zone
           = calculateBearing lat lon (spot_latitude d) (spot_longitude d)
        /\ nz_distanceFormatted zone
           = formatDistance
               (calculateDistance lat lon
                  (spot_latitude d) (spot_longitude d)))
  /\ (forall (now : Z) (data : ClientData),
      truthy_userId w = Some user ->
      readyState w = OPEN ->
      strict_eq_string (type data) "measurement" = true ->
      isValidCoordinate (latitude data) (longitude data) = true ->
      within (-20) (-3) (rsrq data) ->
      within (-10) 30 (sinr data) ->
      within 0 15 (cqi data) ->
      exists response,
        added w (receive now (Parsed data) w)
          [FindOne (session_query user (latitude data) (longitude data));
           Send (msg_measurement_response response)]
        /\ (findOne (db w)
                    (session_query user (latitude data) (longitude data))
            = Return None ->
            resp_bestZone response = NoNearbyData)
        /\ (forall d : Document,
            findOne (db w)
                    (session_query user (latitude data) (longitude data))
            = Return (Some d) ->
            exists zone,
              resp_bestZone response = NearbyData zone
              /\ nz_bearing zone
                 = calculateBearing (latitude data) (longitude data)
                     (spot_latitude d) (spot_longitude d)
              /\ nz_distanceFormatted zone
                 = formatDistance
                     (calculateDistance (latitude data) (longitude data)
                        (spot_latitude d) (spot_longitude d)))).
Proof.
  unfold spot_latitude, spot_longitude.
  split; [| split; [| split; [| split; [| split]]]].
  - intros Hnone. unfold findBestZoneHelper.
    unfold record_query in Hnone. rewrite Hnone.
    exists NoData. split; reflexivity.
  - intros Hvalid Hnone. unfold findBestZone, findBestZoneHelper.
    unfold record_query in Hnone. rewrite Hvalid, Hnone.
    exists NoData. split; reflexivity.
  - intros Hnone. unfold session_query in Hnone. run_handler.
    rewrite Hnone. reflexivity.
  - intros d Hsome. unfold findBestZoneHelper.
    unfold record_query in Hsome. rewrite Hsome.
    destruct (doc_location d) as [spotLon spotLat]. simpl.
    eexists. split; [reflexivity |]. split; reflexivity.
  - intros d Hsome. unfold session_query in Hsome. run_handler.
    rewrite Hsome. destruct (doc_location d) as [spotLon spotLat]. simpl.
    eexists. split; [reflexivity |]. split; reflexivity.
  - intros now data Huser Hopen Htype Hcoord Hr Hs Hc.
    destruct (valid_measurement_event now data w user
                Huser Hopen Htype Hcoord Hr Hs Hc)
      as [response [Hadded [Hzone _]]].
    exists response. split; [exact Hadded |]. split.
    + intros Hnone. rewrite Hzone. unfold session_query in Hnone.
      run_handler. rewrite Hnone. reflexivity.
    + intros d Hsome. rewrite Hzone. unfold session_query in Hsome.
      run_handler. rewrite Hsome.
      destruct (doc_location d) as [spotLon spotLat]. simpl.
      eexists. split; [reflexivity |]. split; reflexivity.
Qed.

Lemma append_assoc (a b c : string) : (a ++ b) ++ c = a ++ (b ++ c).
Proof.
  induction a as [| ch a IH]; simpl; [reflexivity | rewrite IH; reflexivity].
Qed.

Lemma prefix_append (part after : string) :
  String.prefix part (part ++ after) = true.
Proof.
  induction part as [| ch part IH]; simpl.
  - destruct after; reflexivity.
  - destruct (Ascii.ascii_dec ch ch); [exact IH | contradiction].
Qed.

Lemma is_infix_unfold (part text : string) :
  is_infix part text
  = String.prefix part text
    || match text with
       | String _ rest => is_infix part rest
       | EmptyString => false
       end.
Proof. destruct text; reflexivity. Qed.

Lemma names_is_infix (text part : string) :
  names text part -> is_infix part text = true.
Proof.
  intros [before [after ->]].
  induction before as [| ch before IH].
  - change ("" ++ part ++ after) with (part ++ after).
    rewrite is_infix_unfold, prefix_append. reflexivity.
  - change (String ch before ++ part ++ after)
      with (String ch (before ++ part ++ after)).
    rewrite is_infix_unfold, IH. apply orb_true_r.
Qed.

Lemma names_here (before part after : string) :
  names (before ++ part ++ after) part.
Proof. exists before, after. reflexivity. Qed.

(** C8, as the code has it.  When a match exists, the record path builds
    'Move <direction> (<bearing>°) for <nearby | formatted distance>
    better signal': its text names the compass direction, the bearing,
    and the word 'nearby' unless the distance exceeds 100 m, when it
    names the formatted distance.  The session path builds
    'Move <direction> (<bearing>°) for better signal', which names the
    direction and the bearing and says nothing of the distance.  In both
    the quality score of the match is a field of the result, beside the
    text. *)
Theorem recommendation_text (store : Store) (w : World) (user : string)
    (lat lon radius : JSValue) (d : Document) :
  let distance :=
    calculateDistance lat lon (spot_latitude d) (spot_longitude d) in
  let bearing :=
    calculateBearing lat lon (spot_latitude d) (spot_longitude d) in
  let direction := getCompassDirection bearing in
  (findOne store (record_query user lat lon radius) = Return (Some d) ->
   exists zone,
     findBestZoneHelper store user lat lon radius = Return (HasData zone)
     /\ bz_recommendation zone
        = "Move " ++ direction ++ " (" ++ NumberToString bearing ++ "Â°) for "
          ++ (if num_gt distance 100 then formatDistance distance
              else "nearby")
          ++ " better signal"
     /\ names (bz_recommendation zone) direction
     /\ names (bz_recommendation zone) (NumberToString bearing)
     /\ (forall m, distance = Some m -> m <= 100 ->
         names (bz_recommendation zone) "nearby")
     /\ (forall m, distance = Some m -> 100 < m ->
         names (bz_recommendation zone) (formatDistance distance))
     /\ bz_qualityScore zone = doc_qualityScore d)
  /\ (findOne (db w) (session_query user lat lon) = Return (Some d) ->
      exists zone,
        fst (findBestNearbyZone user lat lon w) = Return (Some zone)
        /\ nz_recommendation zone
           = "Move " ++ direction ++ " (" ++ NumberToString bearing
             ++ "°) for better signal"
        /\ names (nz_recommendation zone) direction
        /\ names (nz_recommendation zone) (NumberToString bearing)
        /\ nz_distanceFormatted zone = formatDistance distance
        /\ nz_qualityScore zone = doc_qualityScore d).
Proof.
  unfold spot_latitude, spot_longitude. simpl. split.
  - intros Hsome. unfold findBestZoneHelper.
    unfold record_query in Hsome. rewrite Hsome.
    destruct (doc_location d) as [spotLon spotLat]. simpl.
    eexists. split; [reflexivity |]. simpl.
    split; [reflexivity |].
    split; [apply (names_here "Move ") |].
    split.
    { exists ("Move " ++ getCompassDirection
                          (calculateBearing lat lon spotLat spotLon) ++ " (").
      eexists. rewrite !append_assoc. reflexivity. }
    split.
    { intros m Hm Hle. rewrite Hm. simpl.
      apply Qgtb_le in Hle. rewrite Hle.
      exists ("Move " ++ getCompassDirection
                            (calculateBearing lat lon spotLat spotLon) ++ " ("
              ++ NumberToString (calculateBearing lat lon spotLat spotLon)
              ++ "Â°) for ").
      eexists. rewrite !append_assoc. reflexivity. }
    split; [| reflexivity].
    intros m Hm Hlt. rewrite Hm. simpl.
    apply Qgtb_gt in Hlt. rewrite Hlt. rewrite <- Hm.
    exists ("Move " ++ getCompassDirection
                          (calculateBearing lat lon spotLat spotLon) ++ " ("
            ++ NumberToString (calculateBearing lat lon spotLat spotLon)
            ++ "Â°) for ").
    eexists. rewrite !append_assoc. reflexivity.
  - intros Hsome. unfold session_query in Hsome. run_handler.
    rewrite Hsome. destruct (doc_location d) as [spotLon spotLat]. simpl.
    eexists. split; [reflexivity |]. simpl.
    split; [reflexivity |].
    split; [apply (names_here "Move ") |].
    split; [| split; reflexivity].
    exists ("Move " ++ getCompassDirection
                          (calculateBearing lat lon spotLat spotLon) ++ " (").
    eexists. rewrite !append_assoc. reflexivity.
Qed.

End SessionProperties.

Example session_of_two_samples :
  map m_qualityScore (measurements (Session.two_samples Session.empty_store))
  = [39; 4]
  /\ Session.since (Session.connected Session.empty_store)
                   (Session.signed_in Session.empty_store)
     = [SetActiveConnection "alice"; Send (msg_authenticated "alice")].
Proof. split; reflexivity. Qed.

Section Witnesses.
Import Session.

#[local] Existing Instance Example.conversions.
#[local] Existing Instance Example.geo.
#[local] Existing Instance Example.store.
#[local] Existing Instance Example.auth.

Lemma unauthenticated_messages_witness :
  (let w := connected empty_store in
   let w' := receive 2000 (Parsed strong) w in
   added w w' [Send (msg_error authenticate_first)]
   /\ same_session w w'
   /\ readyState w' = OPEN
   /\ truthy_userId w' = None)
  /\ (let w := connected empty_store in
      let w' := receive 1000 (Parsed (authenticate "forged")) w in
      added w w' [Send (msg_error "jwt malformed");
                  Close 4001 "Authentication failed"]
      /\ readyState w' = CLOSING
      /\ truthy_userId w' = None).
Proof.
  split.
  - destruct (unauthenticated_messages 2000 strong (connected empty_store)
                eq_refl eq_refl) as [H _].
    apply H. reflexivity.
  - destruct (unauthenticated_messages 1000 (authenticate "forged")
                (connected empty_store) eq_refl eq_refl) as [_ H].
    apply (H "jwt malformed"); reflexivity.
Defined.

Lemma stop_without_measurements_witness :
  let w := signed_in empty_store in
  let w' := receive 2000 (Parsed (message "stop")) w in
  added w w' [Send (msg_error "No measurements recorded")]
  /\ same_session w w'
  /\ measurements w' = []
  /\ truthy_userId w' = Some "alice"
  /\ readyState w' = OPEN.
Proof.
  apply (stop_without_measurements 2000 (message "stop")
           (signed_in empty_store) "alice"); reflexivity.
Defined.

Lemma measurement_with_absent_metric_witness :
  let data := measurement (JNumber (-5)) (JNumber 20) JUndefined in
  let w := signed_in empty_store in
  let w' := receive 2000 (Parsed data) w in
  calculateQualityScore (rsrq data) (sinr data) (cqi data)
  = Throw "Invalid radio metrics - must be numbers"
  /\ added w w'
       [Send (msg_error ("Failed to process message: "
                         ++ "Invalid radio metrics - must be numbers"))]
  /\ same_session w w'.
Proof.
  destruct (measurement_with_absent_metric 2000
              (measurement (JNumber (-5)) (JNumber 20) JUndefined)
              (signed_in empty_store) "alice") as [_ [Hthrow Hrest]];
    try reflexivity.
  - right. exists (-5). split; [reflexivity |].
    split; unfold Qle; simpl; lia.
  - right. exists 20. split; [reflexivity |].
    split; unfold Qle; simpl; lia.
  - left. reflexivity.
  - right. right. reflexivity.
  - split; [exact Hthrow | exact Hrest].
Defined.

(** C2 as stated does not hold: after samples scoring 39 and 4 the
    summary reports an [averageQuality] of 22, which is not their
    arithmetic mean, 21.5. *)
Lemma stop_average_quality_is_rounded :
  let w := two_samples empty_store in
  let w' := receive 4000 (Parsed (message "stop")) w in
  map m_qualityScore (measurements w) = [39; 4]
  /\ option_map averageQuality (last_summary w') = Some (Some 22)
  /\ mean [39; 4] == 21.5
  /\ ~ number_eq (Some 22) (Some (mean [39; 4])).
Proof.
  split; [reflexivity |].
  split; [reflexivity |].
  split; [reflexivity |].
  simpl. unfold Qeq. simpl. lia.
Qed.

Lemma record_store_failure_witness :
  (let w := signed_in unreachable_store in
   let w' := receive 2000 (Parsed strong) w in
   exists response,
     added w w' [FindOne (session_query "alice" (JNumber 10) (JNumber 20));
                 Send (msg_measurement_response response)]
     /\ resp_bestZone response = NoNearbyData
     /\ readyState w' = OPEN
     /\ truthy_userId w' = Some "alice")
  /\ (let w := receive 2000 (Parsed strong) (signed_in unreachable_store) in
      let w' := receive 3000 (Parsed (message "stop")) w in
      added w w' [InsertMany (map (toDocument "alice") (measurements w));
                  Send (msg_error ("Failed to save measurements: "
                                   ++ "store unreachable"))]
      /\ readyState w' = OPEN
      /\ truthy_userId w' = Some "alice").
Proof.
  split.
  - destruct (record_store_failure 2000 strong (signed_in unreachable_store)
                "alice" "store unreachable" eq_refl eq_refl) as [H _].
    destruct H as [response [Hadded [Hzone [_ [Hopen Huser]]]]];
      try reflexivity.
    + exists (-5). split; [reflexivity |]. split; unfold Qle; simpl; lia.
    + exists 20. split; [reflexivity |]. split; unfold Qle; simpl; lia.
    + exists 15. split; [reflexivity |]. split; unfold Qle; simpl; lia.
    + exists response. auto.
  - assert (Huser : truthy_userId
                      (receive 2000 (Parsed strong)
                               (signed_in unreachable_store))
                    = Some "alice") by (vm_compute; reflexivity).
    assert (Hopen : readyState
                      (receive 2000 (Parsed strong)
                               (signed_in unreachable_store))
                    = OPEN) by (vm_compute; reflexivity).
    destruct (record_store_failure 3000 (message "stop")
                (receive 2000 (Parsed strong) (signed_in unreachable_store))
                "alice" "store unreachable" Huser Hopen) as [_ H].
    apply (H unreachable_store);
      [reflexivity | vm_compute; discriminate | vm_compute; reflexivity].
Defined.

(** C9 as stated does not hold for the lookup: with the store out of
    reach, a measurement event is answered by a [measurement_response]
    without best zone, and no error frame is sent. *)
Lemma lookup_failure_is_not_reported :
  let w := signed_in unreachable_store in
  let w' := receive 2000 (Parsed strong) w in
  findOne (db w) (session_query "alice" (JNumber 10) (JNumber 20))
  = Throw "store unreachable"
  /\ map is_error_frame (since w w') = [false; false]
  /\ (exists response,
        since w w'
        = [FindOne (session_query "alice" (JNumber 10) (JNumber 20));
           Send (msg_measurement_response response)]
        /\ resp_qualityScore response = 39
        /\ resp_bestZone response = NoNearbyData).
Proof.
  split; [reflexivity |].
  split; [reflexivity |].
  eexists. split; [reflexivity |]. split; reflexivity.
Qed.

Lemma best_zone_follows_geodesy_witness :
  (exists result,
     findBestZoneHelper empty_store "alice" (JNumber 10) (JNumber 20)
                        JUndefined
     = Return result
     /\ hasData result = false)
  /\ (exists result,
        findBestZone empty_store "alice" (JNumber 10) (JNumber 20) JUndefined
        = Status200 result
        /\ hasData result = false)
  /\ fst (findBestNearbyZone "alice" (JNumber 10) (JNumber 20)
            (signed_in empty_store))
     = Return None
  /\ (exists zone,
        findBestZoneHelper store_with_spot "alice" (JNumber 10) (JNumber 20)
                           JUndefined
        = Return (HasData zone)
        /\ bz_bearing zone = Some 0
        /\ bz_distanceFormatted zone = "0 m")
  /\ (exists zone,
        fst (findBestNearbyZone "alice" (JNumber 10) (JNumber 20)
               (signed_in store_with_spot))
        = Return (Some zone)
        /\ nz_bearing zone = Some 0
        /\ nz_distanceFormatted zone = "0 m")
  /\ (exists response,
        added (signed_in empty_store)
          (receive 2000 (Parsed strong) (signed_in empty_store))
          [FindOne (session_query "alice" (JNumber 10) (JNumber 20));
           Send (msg_measurement_response response)]
        /\ resp_bestZone response = NoNearbyData)
  /\ (exists response zone,
        added (signed_in store_with_spot)
          (receive 2000 (Parsed strong) (signed_in store_with_spot))
          [FindOne (session_query "alice" (JNumber 10) (JNumber 20));
           Send (msg_measurement_response response)]
        /\ resp_bestZone response = NearbyData zone
        /\ nz_bearing zone = Some 0
        /\ nz_distanceFormatted zone = "0 m").
Proof.
  assert (Hr : within (-20) (-3) (rsrq strong)).
  { exists (-5). split; [reflexivity |]. split; unfold Qle; simpl; lia. }
  assert (Hs : within (-10) 30 (sinr strong)).
  { exists 20. split; [reflexivity |]. split; unfold Qle; simpl; lia. }
  assert (Hc : within 0 15 (cqi strong)).
  { exists 15. split; [reflexivity |]. split; unfold Qle; simpl; lia. }
  destruct (best_zone_follows_geodesy empty_store (signed_in empty_store)
              "alice" (JNumber 10) (JNumber 20) JUndefined)
    as [Hnone [Hendpoint [Hsession [_ [_ Hevent]]]]].
  destruct (best_zone_follows_geodesy store_with_spot
              (signed_in store_with_spot)
              "alice" (JNumber 10) (JNumber 20) JUndefined)
    as [_ [_ [_ [Hrecord [Hnearby Hevent']]]]].
  split; [apply Hnone; reflexivity |].
  split; [apply Hendpoint; reflexivity |].
  split; [apply Hsession; reflexivity |].
  split.
  { destruct (Hrecord recorded_spot eq_refl) as [zone [Hz [Hb Hd]]].
    exists zone. split; [exact Hz |]. split; [exact Hb | exact Hd]. }
  split.
  { destruct (Hnearby recorded_spot eq_refl) as [zone [Hz [Hb Hd]]].
    exists zone. split; [exact Hz |]. split; [exact Hb | exact Hd]. }
  split.
  - destruct (Hevent 2000%Z strong eq_refl eq_refl eq_refl eq_refl Hr Hs Hc)
      as [response [Hadded [Hno _]]].
    exists response. split; [exact Hadded | apply Hno; reflexivity].
  - destruct (Hevent' 2000%Z strong eq_refl eq_refl eq_refl eq_refl Hr Hs Hc)
      as [response [Hadded [_ Hyes]]].
    destruct (Hyes recorded_spot eq_refl) as [zone [Hz [Hb Hd]]].
    exists response, zone.
    split; [exact Hadded |]. split; [exact Hz |]. split; [exact Hb | exact Hd].
Defined.

Lemma recommendation_text_witness :
  (exists zone,
     findBestZoneHelper store_with_spot "alice" (JNumber 10) (JNumber 20)
                        JUndefined
     = Return (HasData zone)
     /\ bz_recommendation zone = "Move N (0Â°) for nearby better signal"
     /\ bz_qualityScore zone = 90)
  /\ (exists zone,
        fst (findBestNearbyZone "alice" (JNumber 10) (JNumber 20)
               (signed_in store_with_spot))
        = Return (Some zone)
        /\ nz_recommendation zone = "Move N (0°) for better signal"
        /\ nz_distanceFormatted zone = "0 m"
        /\ nz_qualityScore zone = 90).
Proof.
  destruct (recommendation_text store_with_spot (signed_in store_with_spot)
              "alice" (JNumber 10) (JNumber 20) JUndefined recorded_spot)
    as [Hrecord Hnearby].
  split.
  - destruct (Hrecord eq_refl) as [zone [Hz [Htext [_ [_ [_ [_ Hq]]]]]]].
    exists zone. split; [exact Hz |]. split; [exact Htext | exact Hq].
  - destruct (Hnearby eq_refl) as [zone [Hz [Htext [_ [_ [Hd Hq]]]]]].
    exists zone. split; [exact Hz |].
    split; [exact Htext |]. split; [exact Hd | exact Hq].
Defined.

(** C8 as stated does not hold for the session path: for a match at the
    sample's own position (distance 0) the text is
    'Move N (0°) for better signal', which names neither 'nearby' nor the
    formatted distance. *)
Lemma session_recommendation_omits_distance :
  let found :=
    match fst (findBestNearbyZone "alice" (JNumber 10) (JNumber 20)
                 (signed_in store_with_spot)) with
    | Return zone => zone
    | Throw _ => None
    end in
  option_map nz_distance found = Some (Some 0)
  /\ option_map nz_distanceFormatted found = Some "0 m"
  /\ option_map nz_recommendation found
     = Some "Move N (0°) for better signal"
  /\ ~ names "Move N (0°) for better signal" "nearby"
  /\ ~ names "Move N (0°) for better signal" "0 m".
Proof.
  split; [reflexivity |].
  split; [reflexivity |].
  split; [reflexivity |].
  split; intros H; apply names_is_infix in H; discriminate.
Qed.

End Witnesses.

(** * Further properties of the session *)

Ltac run_session :=
  unfold receive, onMessage, handleStop, handleMeasurement, findBestNearbyZone,
    ConnectivityData_findOne, ConnectivityData_insertMany, sendMessage,
    ws_close, try_catch, bind, ret, throw, lift, get, modify, JSON_parse;
  simpl.

(** Case analysis on everything a handler branches on. *)
Ltac branches :=
  repeat match goal with
         | |- context [match ?x with _ => _ end] =>
             lazymatch x with
             | context [match _ with _ => _ end] => fail
             | _ => destruct x eqn:?; simpl in *
             end
         end.

Section MoreSessionProperties.
Context {conv : Conversions} {geo : GeoUtils} {rs : RecordStore} {auth : Auth}.

(** X1.  A text that cannot be parsed is answered, whoever sent it, by
    one error frame quoting the parser's reason; nothing of the session
    changes and the store is not called. *)
Theorem unparsable_message (now : Z) (reason : string) (w : World) :
  readyState w = OPEN ->
  let w' := receive now (Unparsable reason) w in
  added w w' [Send (msg_error ("Failed to process message: " ++ reason))]
  /\ same_session w w'.
Proof.
  intros Hopen. run_session. rewrite Hopen. simpl.
  split; [reflexivity | apply same_session_emit].
Qed.


(** X3.  A session gets its user only from a verified token: if a
    message binds a user to a session that had none, the message was an
    'authenticate' whose token [jwt.verify] accepted and whose user
    [User.findById] found. *)
Theorem owner_is_a_verified_user (now : Z) (message : Incoming) (w : World)
    (user : string) :
  truthy_userId w = None ->
  truthy_userId (receive now message w) = Some user ->
  exists data id,
    message = Parsed data
    /\ strict_eq_string (type data) "authenticate" = true
    /\ ToBoolean (token data) = true
    /\ jwt_verify (token data) = Return id
    /\ User_findById id = Return (Some user).
Proof.
  intros Hnone. run_session. rewrite Hnone.
  unfold authenticateClient. unfold truthy_userId in *.
  destruct message as [reason | data]; simpl.
  - branches; congruence.
  - branches; intros Huser; try congruence.
    all: injection Huser as <-.
    all: exists data; eexists; repeat split; eauto.
    all: apply negb_false_iff; assumption.
Qed.

(** X4.  In an authenticated session a message that is neither a
    measurement nor a stop changes nothing: a 'ping' is answered by a
    'pong', and any other type, 'authenticate' included, by an error
    naming the type. *)
Theorem other_message_types (now : Z) (data : ClientData) (w : World)
    (user : string) :
  truthy_userId w = Some user ->
  readyState w = OPEN ->
  strict_eq_string (type data) "measurement" = false ->
  strict_eq_string (type data) "stop" = false ->
  let w' := receive now (Parsed data) w in
  same_session w w'
  /\ (strict_eq_string (type data) "ping" = true ->
      added w w' [Send (msg_pong now)])
  /\ (strict_eq_string (type data) "ping" = false ->
      added w w'
        [Send (msg_error ("Unknown message type: " ++ ToString (type data)))])
  /\ (strict_eq_string (type data) "authenticate" = true ->
      added w w' [Send (msg_error "Unknown message type: authenticate")]).
Proof.
  intros Huser Hopen Hm Hs. run_session.
  rewrite Huser, Hm, Hs.
  destruct (strict_eq_string (type data) "ping") eqn:Hping; simpl;
    rewrite Hopen; simpl.
  - split; [apply same_session_emit |].
    split; [reflexivity |]. split; [discriminate |].
    intros Hauth. destruct (type data) as [| | b | q | s]; try discriminate.
    simpl in *. apply String.eqb_eq in Hauth. subst s. discriminate.
  - split; [apply same_session_emit |].
    split; [discriminate |]. split; [reflexivity |].
    intros Hauth. destruct (type data) as [| | b | q | s]; try discriminate.
    simpl in *. apply String.eqb_eq in Hauth. subst s. reflexivity.
Qed.

(** X5.  On a socket that is no longer open nothing is sent: whatever
    the message, the handler adds neither a frame nor a close, and the
    socket stays as it is. *)
Theorem closed_socket_is_silent (now : Z) (message : Incoming) (w : World) :
  readyState w = CLOSING ->
  let w' := receive now message w in
  readyState w' = CLOSING
  /\ exists effects,
       added w w' effects
       /\ forallb (fun e => negb (on_socket e)) effects = true.
Proof.
  intros Hclosed. run_session. unfold added.
  destruct message as [reason | data]; simpl.
  - branches; try congruence.
    all: split; [assumption |].
    all: first [ exists []; rewrite app_nil_r; split; reflexivity
               | eexists; split;
                 [rewrite <- ?app_assoc; reflexivity | reflexivity] ].
  - branches; try congruence.
    all: split; [assumption |].
    all: first [ exists []; rewrite app_nil_r; split; reflexivity
               | eexists; split;
                 [rewrite <- ?app_assoc; reflexivity | reflexivity] ].
Qed.

(** X6.  No message makes the handler call the record store more than
    once, and effects are only ever added to those before. *)
Theorem one_store_call_at_most (now : Z) (message : Incoming) (w : World) :
  exists effects,
    added w (receive now message w) effects
    /\ (length (filter store_call effects) <= 1)%nat.
Proof.
  run_session. unfold added.
  destruct message as [reason | data]; simpl.
  - branches.
    all: first [ exists []; rewrite app_nil_r; split; [reflexivity | simpl; lia]
               | eexists; split;
                 [rewrite <- ?app_assoc; reflexivity | simpl; lia] ].
  - branches.
    all: first [ exists []; rewrite app_nil_r; split; [reflexivity | simpl; lia]
               | eexists; split;
                 [rewrite <- ?app_assoc; reflexivity | simpl; lia] ].
Qed.

Lemma outside_fails_range_test (lo hi : Q) (v : JSValue) :
  outside lo hi v -> JS.lt v lo || JS.gt v hi = true.
Proof.
  intros [q [-> [H | H]]]; unfold JS.lt, JS.gt; simpl.
  - apply Qltb_lt in H. rewrite H. reflexivity.
  - apply Qgtb_gt in H. rewrite H. apply orb_true_r.
Qed.

(** X7.  In an authenticated session a measurement that fails validation
    is dropped but counted: with an invalid coordinate it is answered by
    'Invalid coordinates', with a valid one and a metric that is a number
    outside its range by 'Invalid radio metrics'; the accumulator and the
    store are untouched, and [measurementCount] still goes up by one. *)
Theorem rejected_measurement_is_counted (now : Z) (data : ClientData)
    (w : World) (user : string) :
  truthy_userId w = Some user ->
  readyState w = OPEN ->
  strict_eq_string (type data) "measurement" = true ->
  let w' := receive now (Parsed data) w in
  (isValidCoordinate (latitude data) (longitude data) = false ->
   added w w' [Send (msg_error "Invalid coordinates")]
   /\ measurements w' = measurements w
   /\ db w' = db w
   /\ measurementCount w' = (measurementCount w + 1)%Z)
  /\ (isValidCoordinate (latitude data) (longitude data) = true ->
      outside (-20) (-3) (rsrq data) \/ outside (-10) 30 (sinr data)
      \/ outside 0 15 (cqi data) ->
      added w w' [Send (msg_error "Invalid radio metrics")]
      /\ measurements w' = measurements w
      /\ db w' = db w
      /\ measurementCount w' = (measurementCount w + 1)%Z).
Proof.
  intros Huser Hopen Htype. split.
  - intros Hcoord. run_session. rewrite Huser, Htype, Hcoord. simpl.
    rewrite Hopen. simpl. repeat split.
  - intros Hcoord Hout.
    assert (Htest : JS.lt (rsrq data) (-20) || JS.gt (rsrq data) (-3)
                    || JS.lt (sinr data) (-10) || JS.gt (sinr data) 30
                    || JS.lt (cqi data) 0 || JS.gt (cqi data) 15 = true).
    { destruct Hout as [H | [H | H]];
        apply outside_fails_range_test, orb_true_iff in H;
        destruct H as [H | H]; rewrite H; rewrite ?orb_true_r; reflexivity. }
    run_session. rewrite Huser, Htype, Hcoord, Htest. simpl.
    rewrite Hopen. simpl. repeat split.
Qed.

(** X8.  In an authenticated session a measurement with a valid
    coordinate and metrics within their ranges is appended to the
    accumulator as one sample: the fields as sent, the score of the
    metrics, absent (or zero) speeds as 0 and, when the message has no
    timestamp, the time of arrival.  The counter goes up by one and the
    store is only read. *)
Theorem valid_measurement_is_accumulated (now : Z) (data : ClientData)
    (w : World) (user : string) :
  truthy_userId w = Some user ->
  strict_eq_string (type data) "measurement" = true ->
  isValidCoordinate (latitude data) (longitude data) = true ->
  within (-20) (-3) (rsrq data) ->
  within (-10) 30 (sinr data) ->
  within 0 15 (cqi data) ->
  let w' := receive now (Parsed data) w in
  exists score,
    calculateQualityScore (rsrq data) (sinr data) (cqi data) = Return score
    /\ measurements w'
       = (measurements w ++
          [{| m_rsrq := rsrq data;
              m_sinr := sinr data;
              m_cqi := cqi data;
              m_latitude := latitude data;
              m_longitude := longitude data;
              m_qualityScore := score;
              m_downloadSpeed := JS.or (downloadSpeed data) (JNumber 0);
              m_uploadSpeed := JS.or (uploadSpeed data) (JNumber 0);
              m_timestamp :=
                if ToBoolean (timestamp data)
                then ClientTimestamp (timestamp data)
                else ServerDate now |}])%list
    /\ measurementCount w' = (measurementCount w + 1)%Z
    /\ db w' = db w.
Proof.
  intros Huser Htype Hcoord [r [Er Hr]] [s [Es Hs]] [c [Ec Hc]].
  pose proof (calculateQualityScore_valid r s c Hr Hs Hc) as Hscore.
  apply range_check in Hr, Hs, Hc.
  apply orb_false_iff in Hr, Hs, Hc.
  destruct Hr as [Hr1 Hr2], Hs as [Hs1 Hs2], Hc as [Hc1 Hc2].
  eexists. split; [rewrite Er, Es, Ec; exact Hscore |].
  run_session. rewrite Huser, Htype, Hcoord, Er, Es, Ec. simpl.
  unfold JS.lt, JS.gt. simpl.
  rewrite Hr1, Hr2, Hs1, Hs2, Hc1, Hc2. simpl.
  branches; repeat split.
Qed.

(** X9.  A stop always empties the accumulator: in an authenticated
    session the samples are gone after the stop whether the batch insert
    succeeded or failed, and the store is left as [insertMany] left it. *)
Theorem stop_always_empties (now : Z) (data : ClientData) (w : World)
    (user : string) :
  truthy_userId w = Some user ->
  strict_eq_string (type data) "stop" = true ->
  let w' := receive now (Parsed data) w in
  measurements w' = []
  /\ (measurements w <> [] ->
      db w'
      = snd (insertMany (db w) (map (toDocument user) (measurements w)))).
Proof.
  intros Huser Htype.
  pose proof (not_measurement _ Htype) as Hnot.
  run_session. rewrite Huser, Hnot, Htype. simpl.
  destruct (measurements w) as [| m ms] eqn:Hms; simpl.
  - branches; (split; [reflexivity | congruence]).
  - branches; split; reflexivity.
Qed.

Lemma count_covers_step (now : Z) (message : Incoming) (w : World) :
  (Z.of_nat (length (measurements w)) <= measurementCount w)%Z ->
  (Z.of_nat (length (measurements (receive now message w)))
   <= measurementCount (receive now message w))%Z.
Proof.
  intros Hinv. run_session.
  destruct message as [reason | data]; simpl.
  - branches; assumption.
  - branches; rewrite ?length_app; simpl; lia.
Qed.

Lemma toDocument_scored (user : string) (m : Sample) :
  scored m -> scored_document (toDocument user m).
Proof. intros H. exact H. Qed.

Lemma stored_step (now : Z) (message : Incoming) (w : World)
    (docs : list Document) :
  Forall scored (measurements w) ->
  In (InsertMany docs) (trace (receive now message w)) ->
  In (InsertMany docs) (trace w)
  \/ (docs <> []
      /\ Forall scored_document docs
      /\ exists user,
           truthy_userId w = Some user
           /\ Forall (fun d => doc_userId d = user) docs).
Proof.
  intros Hinv. run_session.
  destruct message as [reason | data]; simpl.
  - branches; rewrite ?in_app_iff; simpl; intuition discriminate.
  - branches; rewrite ?in_app_iff; simpl; intros Hin.
    all: repeat match goal with
                | H : _ \/ _ |- _ => destruct H
                | H : False |- _ => contradiction
                end;
      try discriminate; auto.
    all: match goal with
         | H : InsertMany _ = InsertMany _ |- _ => injection H as <-
         end.
    all: right; split;
      [ destruct (measurements w); simpl in *; discriminate |].
    all: split;
      [ apply Forall_map; revert Hinv; apply Forall_impl;
        intros m Hm; exact (toDocument_scored _ m Hm)
      | eexists; split; [reflexivity |];
        apply Forall_map, Forall_forall; reflexivity ].
Qed.

(** X12.  Whatever the messages of a connection, every batch it hands
    to [insertMany] is non-empty and written for one user, and each of
    its documents has radio metrics that are numbers within their ranges
    and the quality score [calculateQualityScore] gives for them. *)
Theorem stored_documents_are_scored (events : list (Z * Incoming)) (now : Z)
    (id : string) (store : Store) (docs : list Document) :
  In (InsertMany docs)
     (trace (session events (handleConnection now id store))) ->
  docs <> []
  /\ Forall scored_document docs
  /\ exists user, Forall (fun d => doc_userId d = user) docs.
Proof.
  assert (Hstart : forall docs,
             In (InsertMany docs) (trace (handleConnection now id store)) ->
             docs <> []
             /\ Forall scored_document docs
             /\ exists user, Forall (fun d => doc_userId d = user) docs).
  { unfold handleConnection. simpl. intros ? [H | []]. discriminate. }
  assert (Hscored : Forall scored
                      (measurements (handleConnection now id store))).
  { unfold handleConnection. simpl. constructor. }
  revert docs Hstart Hscored. generalize (handleConnection now id store).
  induction events as [| [t message] rest IH]; intros w docs Hold Hscored.
  - exact (Hold docs).
  - simpl. apply IH.
    + intros batch Hin.
      destruct (stored_step t message w batch Hscored Hin)
        as [H | [H1 [H2 [user [_ H3]]]]]; [auto |].
      split; [exact H1 |]. split; [exact H2 |]. exists user. exact H3.
    + apply accumulator_scored. exact Hscored.
Qed.

End MoreSessionProperties.

(** * Further properties of the scores *)







Lemma Qgeb_ge (x y : Q) : Qgeb x y = true <-> y <= x.
Proof. apply Qle_bool_iff. Qed.

Lemma Qgeb_lt (x y : Q) : Qgeb x y = false <-> x < y.
Proof.
  unfold Qgeb. rewrite <- not_true_iff_false, Qle_bool_iff.
  split; [apply Qnot_le_lt | apply Qlt_not_le].
Qed.

(** Every test on a number turned into the inequality it decides. *)
Ltac tests :=
  repeat match goal with
         | H : Qltb _ _ = true |- _ => apply Qltb_lt in H
         | H : Qltb _ _ = false |- _ => apply Qltb_ge in H
         | H : Qgtb _ _ = true |- _ => apply Qgtb_gt in H
         | H : Qgtb _ _ = false |- _ => apply Qgtb_le in H
         | H : Qgeb _ _ = true |- _ => apply Qgeb_ge in H
         | H : Qgeb _ _ = false |- _ => apply Qgeb_lt in H
         end.

Section WiFiScore.
Context {conv : Conversions}.



End WiFiScore.

Section MoreScores.
Context {conv : Conversions}.





(** X16.  [calculateEnhancedQualityScore] validates the radio metrics
    as [calculateQualityScore] does, whatever the speeds: it throws
    exactly when the plain score throws, and with the same message. *)
Theorem enhanced_score_throws_as_plain (r s c d u : JSValue)
    (message : string) :
  calculateEnhancedQualityScore r s c d u = Throw message
  <-> calculateQualityScore r s c = Throw message.
Proof.
  unfold calculateEnhancedQualityScore.
  destruct (calculateQualityScore r s c) as [base | e]; split;
    congruence.
Qed.






(** X20.  The descriptions and the recommendations of [analyzeMetrics]
    do not share their thresholds.  An RSRQ of exactly -15 is the one
    described as weak and yet found acceptable, and a SINR of exactly 0
    the one with high interference and acceptable noise; for a CQI that
    is a number the channel is degraded exactly when it is described as
    fair or poor.  A metric that converts to no number is described as
    the worst and recommended as fine. *)
Theorem analysis_thresholds :
  (forall (q : Q) (s c : JSValue),
     let a := analysis_rsrq (analyzeMetrics (JNumber q) s c) in
     description a = "Weak" /\ recommendation a = "Signal acceptable"
     <-> q == -15)
  /\ (forall (q : Q) (r c : JSValue),
      let a := analysis_sinr (analyzeMetrics r (JNumber q) c) in
      description a = "High interference"
      /\ recommendation a = "Noise levels acceptable"
      <-> q == 0)
  /\ (forall (q : Q) (r s : JSValue),
      let a := analysis_cqi (analyzeMetrics r s (JNumber q)) in
      recommendation a = "Channel conditions degraded"
      <-> description a = "Fair" \/ description a = "Poor")
  /\ (forall v : JSValue,
      ToNumber v = NaN ->
      let a := analyzeMetrics v v v in
      (description (analysis_rsrq a) = "Weak"
       /\ recommendation (analysis_rsrq a) = "Signal acceptable")
      /\ (description (analysis_sinr a) = "High interference"
          /\ recommendation (analysis_sinr a) = "Noise levels acceptable")
      /\ (description (analysis_cqi a) = "Poor"
          /\ recommendation (analysis_cqi a) = "Channel quality good")).
Proof.
  split; [| split; [| split]].
  - intros q s c. simpl. unfold JS.gt, JS.lt. simpl.
    destruct (Qgtb q (-10)) eqn:H1, (Qgtb q (-15)) eqn:H2,
      (Qltb q (-15)) eqn:H3; tests;
      (split; [intros [? ?]; try discriminate; lra
              | intros ?; try (split; reflexivity); exfalso; lra]).
  - intros q r c. simpl. unfold JS.gt, JS.lt. simpl.
    destruct (Qgtb q 10) eqn:H1, (Qgtb q 0) eqn:H2,
      (Qltb q 0) eqn:H3; tests;
      (split; [intros [? ?]; try discriminate; lra
              | intros ?; try (split; reflexivity); exfalso; lra]).
  - intros q r s. simpl. unfold JS.ge, JS.lt. simpl.
    destruct (Qgeb q 12) eqn:H1, (Qgeb q 8) eqn:H2, (Qgeb q 4) eqn:H3,
      (Qltb q 8) eqn:H4; tests;
      (split; [intros ?; try discriminate; auto; exfalso; lra
              | intros [? | ?]; try discriminate; try reflexivity;
                exfalso; lra]).
  - intros v Hv. simpl. unfold JS.gt, JS.lt, JS.ge. rewrite Hv. simpl.
    repeat split.
Qed.

Lemma slices_of_short (scores : list Q) :
  (length scores <= 5)%nat ->
  slice_last5 scores = scores /\ slice_first5 scores = scores.
Proof.
  intros H. unfold slice_last5, slice_first5.
  replace (length scores - 5)%nat with 0%nat by lia.
  split; [reflexivity | apply firstn_all2; exact H].
Qed.

(** X21.  With five scores or fewer [predictSignalStrength] always
    reports a stable trend, whatever the scores: the recent and the
    older window are then the same scores. *)
Theorem short_history_is_stable (scores : list Q) :
  (1 <= length scores <= 5)%nat ->
  exists average min max,
    predictSignalStrength (ArrayOf scores)
    = Predicted average "stable" min max.
Proof.
  intros [Hone Hfive].
  destruct (slices_of_short scores Hfive) as [Hlast Hfirst].
  destruct scores as [| first rest]; [simpl in Hone; lia |].
  unfold predictSignalStrength. rewrite Hlast, Hfirst.
  eexists. eexists. eexists. f_equal.
  destruct (2 <=? length (first :: rest))%nat; [| reflexivity].
  match goal with
  | |- context [Qgtb ?a (?a + 5)] =>
      assert (Hgt : Qgtb a (a + 5) = false) by (apply Qgtb_le; lra);
      assert (Hlt : Qltb a (a - 5) = false) by (apply Qltb_ge; lra);
      rewrite Hgt, Hlt
  end.
  reflexivity.
Qed.





Lemma Qgeb_double (s k : Q) : Qgeb s k = Qgeb (2 * s) (2 * k).
Proof.
  destruct (Qgeb s k) eqn:H1, (Qgeb (2 * s) (2 * k)) eqn:H2; tests;
    try reflexivity; exfalso; lra.
Qed.

Lemma Qgeb_comp (x k k' : Q) : k == k' -> Qgeb x k = Qgeb x k'.
Proof.
  intros H.
  destruct (Qgeb x k) eqn:H1, (Qgeb x k') eqn:H2; tests;
    try reflexivity; exfalso; lra.
Qed.

(** X23.  [getSpeedQualityColor] judges an upload by half the
    thresholds of a download: the colour of an upload speed is the
    colour of twice that speed as a download.  A type left out means
    'download', and any type given that is not the string 'download'
    means upload. *)
Theorem upload_thresholds_are_halved (s : Q) (kind : JSValue) :
  getSpeedQualityColor (JNumber s) JUndefined
  = getSpeedQualityColor (JNumber s) (JString "download")
  /\ (kind <> JUndefined ->
      strict_eq_string kind "download" = false ->
      getSpeedQualityColor (JNumber s) kind
      = getSpeedQualityColor (JNumber (2 * s)) (JString "download")).
Proof.
  split; [reflexivity |].
  intros Hgiven Hkind. unfold getSpeedQualityColor.
  assert (Hsame : strict_eq_string
                    match kind with
                    | JUndefined => JString "download"
                    | _ => kind
                    end "download" = false).
  { destruct kind; try exact Hkind. contradiction. }
  rewrite Hsame. simpl. unfold JS.ge. simpl.
  rewrite (Qgeb_double s 25), (Qgeb_double s 5).
  rewrite (Qgeb_comp _ (2 * 25) 50) by reflexivity.
  rewrite (Qgeb_comp _ (2 * 5) 10) by reflexivity.
  reflexivity.
Qed.

Lemma prefix_split (part text : string) :
  String.prefix part text = true -> exists after, text = part ++ after.
Proof.
  revert text. induction part as [| ch part IH]; intros text H.
  - exists text. reflexivity.
  - destruct text as [| ch' text]; [discriminate |]. simpl in H.
    destruct (Ascii.ascii_dec ch ch') as [<- |]; [| discriminate].
    destruct (IH text H) as [after ->]. exists after. reflexivity.
Qed.

Lemma names_iff (text part : string) :
  names text part <-> is_infix part text = true.
Proof.
  split; [apply names_is_infix |].
  induction text as [| ch text IH]; rewrite is_infix_unfold; intros H.
  - rewrite orb_false_r in H. destruct (prefix_split _ _ H) as [after ->].
    exists "", after. reflexivity.
  - apply orb_true_iff in H. destruct H as [H | H].
    + destruct (prefix_split _ _ H) as [after ->].
      exists "", after. reflexivity.
    + destruct (IH H) as [before [after ->]].
      exists (String ch before), after. reflexivity.
Qed.

(** Case analysis on the tests of a text, the innermost first. *)
Ltac tests_of_text :=
  repeat match goal with
         | |- context [if ?b then _ else _] =>
             lazymatch b with
             | context [if _ then _ else _] => fail
             | _ => destruct b eqn:?; cbv beta iota
             end
         end.

(** X24.  The advice at the end of [generateHumanMessage].  The
    message calls the place a great location exactly from a score of 80
    on; it advises to move away from interference exactly when the score
    is below 40 and the SINR negative, and to get closer to a tower
    exactly when the score is below 40 and the RSRQ beyond 12 dB in
    magnitude.  A score from 40 to 79 gets no advice. *)
Theorem advice_of_the_message (q : Q) (r s c : JSValue) :
  let text := generateHumanMessage q r s c in
  (names text "This is a great location for connectivity" <-> 80 <= q)
  /\ (names text "Consider moving to reduce interference"
      <-> q < 40 /\ JS.lt s 0 = true)
  /\ (names text "Try getting closer to a cell tower"
      <-> q < 40 /\ num_gt (option_map Math_abs (ToNumber r)) 12 = true).
Proof.
  cbv zeta. rewrite !names_iff. unfold generateHumanMessage.
  tests_of_text; vm_compute is_infix; tests;
    (repeat split; intros; try discriminate; try reflexivity;
     try lra;
     repeat match goal with
            | H : _ /\ _ |- _ => destruct H
            end;
     try discriminate; try lra).
Qed.

(** X25.  The label of [generateWiFiMessage] against
    [getSignalQuality]: from a score of 20 on the message opens with
    the label of the score in lower case; below 20, where the label is
    'Very Poor', and for a score that is NaN, it says 'poor'.  An upload
    below 5 Mbps, or one that is no number, is reported as slow however
    fast the download. *)
Theorem wifi_message_label (d u l : JSValue) :
  (forall q : Q,
     20 <= q ->
     exists rest,
       generateWiFiMessage (Some q) d u l
       = "Your Wi-Fi connection is " ++ toLowerCase (getSignalQuality q)
         ++ ". " ++ rest)
  /\ (forall q : Q,
      q < 20 ->
      getSignalQuality q = "Very Poor"
      /\ exists rest,
           generateWiFiMessage (Some q) d u l
           = "Your Wi-Fi connection is poor. " ++ rest)
  /\ (exists rest,
        generateWiFiMessage NaN d u l
        = "Your Wi-Fi connection is poor. " ++ rest)
  /\ (forall score : number,
      JS.ge u 5 = false ->
      names (generateWiFiMessage score d u l) "Slow speeds detected.").
Proof.
  split; [| split; [| split]].
  - intros q Hq. apply Qgeb_ge in Hq.
    unfold generateWiFiMessage, getSignalQuality, num_ge. rewrite Hq.
    destruct (Qgeb q 80), (Qgeb q 60), (Qgeb q 40);
      eexists; reflexivity.
  - intros q Hq.
    assert (H80 : Qgeb q 80 = false) by (apply Qgeb_lt; lra).
    assert (H60 : Qgeb q 60 = false) by (apply Qgeb_lt; lra).
    assert (H40 : Qgeb q 40 = false) by (apply Qgeb_lt; lra).
    assert (H20 : Qgeb q 20 = false) by (apply Qgeb_lt; lra).
    unfold generateWiFiMessage, getSignalQuality, num_ge.
    rewrite H80, H60, H40, H20.
    split; [reflexivity | eexists; reflexivity].
  - eexists. reflexivity.
  - intros score Hu.
    assert (H25 : JS.ge u 25 = false).
    { unfold JS.ge in *. destruct (ToNumber u) as [x |]; [| reflexivity].
      simpl in *. tests. apply Qgeb_lt. lra. }
    assert (H10 : JS.ge u 10 = false).
    { unfold JS.ge in *. destruct (ToNumber u) as [x |]; [| reflexivity].
      simpl in *. tests. apply Qgeb_lt. lra. }
    unfold generateWiFiMessage. rewrite Hu, H25, H10, !andb_false_r.
    match goal with
    | |- names (?a ++ ?b ++ ?c ++ ?part ++ ?rest) _ =>
        exists (a ++ b ++ c), rest
    end.
    rewrite !append_assoc. reflexivity.
Qed.

End MoreScores.

(** * Properties of the tower comparison *)

Section TowerProperties.
Context {conv : Conversions}.

Lemma sign_of_difference (x q : Q) :
  Qgtb x q = Qgtb (x - q) 0
  /\ Qltb x q = Qltb (x - q) 0
  /\ Qgtb x q && Qltb x q = false
  /\ (Qeq_bool x q = true ->
      x - q == 0 /\ Qgtb x q = false /\ Qltb x q = false)
  /\ Qgtb x q || Qltb x q || Qeq_bool x q = true.
Proof.
  assert (Heq : Qeq_bool x q = true -> x == q) by apply Qeq_bool_iff.
  assert (Hne : Qeq_bool x q = false -> ~ x == q) by apply Qeq_bool_neq.
  destruct (Qgtb x q) eqn:H1, (Qltb x q) eqn:H2,
    (Qgtb (x - q) 0) eqn:H3, (Qltb (x - q) 0) eqn:H4,
    (Qeq_bool x q) eqn:H5; tests;
    try specialize (Heq eq_refl); try specialize (Hne eq_refl);
    repeat split; intros; try discriminate; try reflexivity;
    try lra; exfalso; try lra.
  all: apply Hne; lra.
Qed.

Lemma verdicts (t : JSValue) (q : Q) :
  (JS.gt t q && JS.lt t q = false
   /\ JS.gt t q && strict_eq_number t q = false
   /\ JS.lt t q && strict_eq_number t q = false)
  /\ (numeric t -> JS.gt t q || JS.lt t q || strict_eq_number t q = true)
  /\ JS.gt t q = num_gt (Num.sub (ToNumber t) (Some q)) 0
  /\ JS.lt t q = num_lt (Num.sub (ToNumber t) (Some q)) 0
  /\ (strict_eq_number t q = true ->
      number_eq (Num.sub (ToNumber t) (Some q)) (Some 0)).
Proof.
  unfold JS.gt, JS.lt.
  destruct (ToNumber t) as [x |] eqn:Hx; simpl.
  - destruct (sign_of_difference x q) as [Hgt [Hlt [Hex [Heq Hcover]]]].
    assert (Hstrict : strict_eq_number t q = true -> Qeq_bool x q = true).
    { destruct t; simpl; try discriminate.
      simpl in Hx. injection Hx as ->. auto. }
    assert (Hnum : numeric t -> strict_eq_number t q = Qeq_bool x q).
    { intros Hn. destruct t; try discriminate Hn.
      simpl in Hx. injection Hx as ->. reflexivity. }
    repeat split; auto.
    + destruct (strict_eq_number t q) eqn:E; [| apply andb_false_r].
      destruct (Heq (Hstrict eq_refl)) as [_ [-> _]]. reflexivity.
    + destruct (strict_eq_number t q) eqn:E; [| apply andb_false_r].
      destruct (Heq (Hstrict eq_refl)) as [_ [_ ->]]. reflexivity.
    + intros Hn. rewrite (Hnum Hn). exact Hcover.
    + intros E. apply Heq, Hstrict, E.
  - assert (Hstrict : strict_eq_number t q = false).
    { destruct t; try reflexivity. discriminate Hx. }
    rewrite Hstrict. repeat split; auto; try discriminate.
    intros Hn. destruct t; try discriminate Hn. discriminate Hx.
Qed.

(** X26.  The verdicts of a comparison exclude each other: a tower is
    never both better and worse than the measurement, nor equal and
    either.  When the tower's score is a number exactly one verdict
    holds; a stored score that is a numeric string can be better or
    worse but never equal.  Better and worse are the sign of
    [difference], which is 0 when the scores are equal. *)
Theorem tower_verdicts (r s c : JSValue) (calibration : Calibration)
    (result : Comparison) :
  compareWithTowerMetrics r s c (Some calibration) = Return (Some result) ->
  (isBetter result && isWorse result = false
   /\ isBetter result && isEqual result = false
   /\ isWorse result && isEqual result = false)
  /\ (numeric (towerScore result) ->
      isBetter result || isWorse result || isEqual result = true)
  /\ (forall text, towerScore result = JString text ->
      isEqual result = false)
  /\ isBetter result = num_gt (difference result) 0
  /\ isWorse result = num_lt (difference result) 0
  /\ (isEqual result = true -> number_eq (difference result) (Some 0)).
Proof.
  unfold compareWithTowerMetrics.
  destruct (calculateQualityScore r s c) as [q | e]; [| discriminate].
  destruct (if ToBoolean (calibration_qualityScore calibration)
            then Return (calibration_qualityScore calibration)
            else _) as [t | e]; [| discriminate].
  intros H. injection H as <-. simpl.
  destruct (verdicts t q) as [H1 [H2 [H3 [H4 H5]]]].
  split; [exact H1 |]. split; [exact H2 |].
  split; [intros text ->; reflexivity |]. auto.
Qed.

(** X27.  Where the tower's score comes from.  Without a calibration
    the result is [null], whatever the measurement.  With one, the
    measurement is scored first, so invalid metrics throw as
    [calculateQualityScore] does; a truthy stored score is then taken as
    it is, the expected metrics not being looked at, and a falsy one,
    0 included, is replaced by the score of the expected metrics, which
    throws when they are invalid. *)
Theorem tower_score_source (r s c : JSValue) :
  compareWithTowerMetrics r s c None = Return None
  /\ (forall calibration message,
      calculateQualityScore r s c = Throw message ->
      compareWithTowerMetrics r s c (Some calibration) = Throw message)
  /\ (forall calibration q,
      calculateQualityScore r s c = Return q ->
      ToBoolean (calibration_qualityScore calibration) = true ->
      exists result,
        compareWithTowerMetrics r s c (Some calibration)
        = Return (Some result)
        /\ currentScore result = q
        /\ towerScore result = calibration_qualityScore calibration)
  /\ (forall calibration q,
      calculateQualityScore r s c = Return q ->
      ToBoolean (calibration_qualityScore calibration) = false ->
      match calculateQualityScore (expectedRsrq calibration)
              (expectedSinr calibration) (expectedCqi calibration) with
      | Return expected =>
          exists result,
            compareWithTowerMetrics r s c (Some calibration)
            = Return (Some result)
            /\ currentScore result = q
            /\ towerScore result = JNumber expected
      | Throw message =>
          compareWithTowerMetrics r s c (Some calibration) = Throw message
      end).
Proof.
  split; [reflexivity |]. split; [| split].
  - intros calibration message H. unfold compareWithTowerMetrics.
    rewrite H. reflexivity.
  - intros calibration q H Hstored. unfold compareWithTowerMetrics.
    rewrite H, Hstored. eexists. split; [reflexivity |]. split; reflexivity.
  - intros calibration q H Hstored. unfold compareWithTowerMetrics.
    rewrite H, Hstored.
    destruct (calculateQualityScore (expectedRsrq calibration)
                (expectedSinr calibration) (expectedCqi calibration));
      [| reflexivity].
    eexists. split; [reflexivity |]. split; reflexivity.
Qed.

End TowerProperties.

(** * Properties of the record endpoint *)

Section RecorderProperties.
Context {conv : Conversions} {geo : GeoUtils} {rs : RecordStore}
        {ps : Persistence}.

Ltac run_record :=
  unfold recordMeasurement, connectivity_save, try_catch, bind, ret, lift,
    get;
  simpl.

(** On a score that is a number the message of the record path is the
    one of the session path. *)
Lemma generateHumanMessage_number_Some (q : Q) (r s c : JSValue) :
  generateHumanMessage_number (Some q) r s c = generateHumanMessage q r s c.
Proof. reflexivity. Qed.

(** X28.  [recordMeasurement] rejects before it touches the store.  An
    invalid coordinate is answered by status 400 and 'Invalid
    coordinates'; a cellular measurement whose radio metrics
    [calculateQualityScore] refuses is handed to [next] with that
    error, with or without speeds and even when saving was asked for.
    In both cases the store is as it was. *)
Theorem record_rejects_before_saving (user : string) (body : RequestBody)
    (db : Store) :
  (isValidCoordinate (req_latitude body) (req_longitude body) = false ->
   recordMeasurement user body db
   = (Return (Status400 "Invalid coordinates"), db))
  /\ (forall message,
      isValidCoordinate (req_latitude body) (req_longitude body) = true ->
      strict_eq_string (req_networkType body) "wifi" = false ->
      calculateQualityScore (req_rsrq body) (req_sinr body) (req_cqi body)
      = Throw message ->
      recordMeasurement user body db = (Return (Next message), db)).
Proof.
  split.
  - intros Hcoord. run_record. rewrite Hcoord. reflexivity.
  - intros message Hcoord Hwifi Hthrow. run_record.
    rewrite Hcoord, Hwifi. unfold calculateEnhancedQualityScore.
    rewrite Hthrow. simpl.
    destruct (JS.gt (req_downloadSpeed body) 0
              || JS.gt (req_uploadSpeed body) 0); reflexivity.
Qed.

(** X29.  For a Wi-Fi measurement the radio metrics do not matter:
    whatever they are, invalid ones included, the request leaves the
    same store and gets the same answer but for the metrics it
    echoes. *)
Theorem record_wifi_ignores_radio_metrics (user : string)
    (body : RequestBody) (db : Store) (r s c : JSValue) :
  strict_eq_string (req_networkType body) "wifi" = true ->
  let other := with_metrics r s c body in
  snd (recordMeasurement user other db)
  = snd (recordMeasurement user body db)
  /\ without_metrics (fst (recordMeasurement user other db))
     = without_metrics (fst (recordMeasurement user body db)).
Proof.
  intros Hwifi. run_record. rewrite Hwifi.
  destruct (isValidCoordinate (req_latitude body) (req_longitude body));
    simpl; [| split; reflexivity].
  destruct (ToBoolean (req_saveOnStop body)); simpl.
  - match goal with
    | |- context [save db ?doc] => destruct (save db doc) as [[[] | e] db']
    end; simpl; [| split; reflexivity].
    destruct (findBestZoneHelper db' user (req_latitude body)
                (req_longitude body) JUndefined); split; reflexivity.
  - destruct (findBestZoneHelper db user (req_latitude body)
                (req_longitude body) JUndefined); split; reflexivity.
Qed.

(** X30.  [recordMeasurement] writes on request only.  With a falsy
    [saveOnStop] the store is left as it was.  With a truthy one, an
    answer of status 200 means that one document was saved, for the
    user of the request, at the pair [[longitude, latitude]] and with
    the score of the answer, and that the best zone of the answer was
    looked up in the store as the save left it. *)
Theorem record_saves_on_request_only (user : string) (body : RequestBody)
    (db : Store) :
  (ToBoolean (req_saveOnStop body) = false ->
   snd (recordMeasurement user body db) = db)
  /\ (forall data,
      ToBoolean (req_saveOnStop body) = true ->
      fst (recordMeasurement user body db) = Return (Status200 data) ->
      exists document,
        save db document = (Return tt, snd (recordMeasurement user body db))
        /\ new_userId document = user
        /\ new_location document = (req_longitude body, req_latitude body)
        /\ new_qualityScore document = rec_qualityScore data
        /\ findBestZoneHelper (snd (recordMeasurement user body db)) user
             (req_latitude body) (req_longitude body) JUndefined
           = Return (rec_bestZone data)).
Proof.
  split.
  - intros Hsave. run_record. rewrite Hsave.
    destruct (isValidCoordinate (req_latitude body) (req_longitude body));
      simpl; [| reflexivity].
    match goal with
    | |- context [if strict_eq_string ?n "wifi" then ?a else ?b] =>
        destruct (if strict_eq_string n "wifi" then a else b)
          as [[score text] | e]
    end; simpl; [| reflexivity].
    destruct (findBestZoneHelper db user (req_latitude body)
                (req_longitude body) JUndefined); reflexivity.
  - intros data Hsave. run_record. rewrite Hsave.
    destruct (isValidCoordinate (req_latitude body) (req_longitude body));
      simpl; [| discriminate].
    match goal with
    | |- context [if strict_eq_string ?n "wifi" then ?a else ?b] =>
        destruct (if strict_eq_string n "wifi" then a else b)
          as [[score text] | e]
    end; simpl; [| discriminate].
    match goal with
    | |- context [save db ?doc] =>
        destruct (save db doc) as [[[] | e] db'] eqn:Hdoc
    end; simpl; [| discriminate].
    destruct (findBestZoneHelper db' user (req_latitude body)
                (req_longitude body) JUndefined) as [zone | e] eqn:Hzone;
      simpl; [| discriminate].
    intros H. injection H as <-. simpl.
    eexists. split; [exact Hdoc |]. repeat split. exact Hzone.
Qed.

End RecorderProperties.

(** * Worked examples of the further properties *)

Section MoreWitnesses.
Import Session.

#[local] Existing Instance Example.conversions.
#[local] Existing Instance Example.geo.
#[local] Existing Instance Example.store.
#[local] Existing Instance Example.auth.
#[local] Existing Instance Recording.persistence.

(** A closed comparison of two rationals. *)
Ltac compared := unfold Qle, Qlt; simpl; lia.

Lemma unparsable_message_witness :
  let w := connected empty_store in
  let w' := receive 2000 (Unparsable "Unexpected token") w in
  added w w'
    [Send (msg_error ("Failed to process message: " ++ "Unexpected token"))]
  /\ same_session w w'.
Proof.
  apply (unparsable_message 2000 "Unexpected token" (connected empty_store)).
  reflexivity.
Defined.


Lemma owner_is_a_verified_user_witness :
  exists data id,
    Parsed (authenticate "alice-token") = Parsed data
    /\ strict_eq_string (type data) "authenticate" = true
    /\ ToBoolean (token data) = true
    /\ jwt_verify (token data) = Return id
    /\ User_findById id = Return (Some "alice").
Proof.
  apply (owner_is_a_verified_user 1000 (Parsed (authenticate "alice-token"))
           (connected empty_store) "alice"); reflexivity.
Defined.

Lemma other_message_types_witness :
  let w := signed_in empty_store in
  (let w' := receive 2000 (Parsed (message "ping")) w in
   same_session w w' /\ added w w' [Send (msg_pong 2000)])
  /\ (let w' := receive 2000 (Parsed (authenticate "alice-token")) w in
      added w w' [Send (msg_error "Unknown message type: authenticate")]).
Proof.
  split.
  - destruct (other_message_types 2000 (message "ping")
                (signed_in empty_store) "alice" eq_refl eq_refl eq_refl
                eq_refl) as [H1 [H2 _]].
    split; [exact H1 | apply H2; reflexivity].
  - destruct (other_message_types 2000 (authenticate "alice-token")
                (signed_in empty_store) "alice" eq_refl eq_refl eq_refl
                eq_refl) as [_ [_ [_ H]]].
    apply H. reflexivity.
Defined.

Lemma closed_socket_is_silent_witness :
  let w := receive 1000 (Parsed (authenticate "forged"))
                   (connected empty_store) in
  let w' := receive 2000 (Parsed (authenticate "alice-token")) w in
  readyState w' = CLOSING
  /\ exists effects,
       added w w' effects
       /\ forallb (fun e => negb (on_socket e)) effects = true.
Proof.
  apply (closed_socket_is_silent 2000
           (Parsed (authenticate "alice-token"))
           (receive 1000 (Parsed (authenticate "forged"))
                    (connected empty_store))).
  reflexivity.
Defined.

Lemma rejected_measurement_is_counted_witness :
  let w := signed_in empty_store in
  let data := measurement (JNumber (-25)) (JNumber 20) (JNumber 15) in
  let w' := receive 2000 (Parsed data) w in
  added w w' [Send (msg_error "Invalid radio metrics")]
  /\ measurements w' = measurements w
  /\ db w' = db w
  /\ measurementCount w' = (measurementCount w + 1)%Z.
Proof.
  destruct (rejected_measurement_is_counted 2000
              (measurement (JNumber (-25)) (JNumber 20) (JNumber 15))
              (signed_in empty_store) "alice" eq_refl eq_refl eq_refl)
    as [_ H].
  apply H; [reflexivity |].
  left. exists (-25). split; [reflexivity |]. left. compared.
Defined.

Lemma valid_measurement_is_accumulated_witness :
  let w := signed_in empty_store in
  let w' := receive 2000 (Parsed strong) w in
  exists score,
    calculateQualityScore (rsrq strong) (sinr strong) (cqi strong)
    = Return score
    /\ map m_qualityScore (measurements w') = [score]
    /\ measurementCount w' = 1%Z.
Proof.
  assert (Hcoord : isValidCoordinate (latitude strong) (longitude strong)
                   = true) by reflexivity.
  destruct (valid_measurement_is_accumulated 2000 strong
              (signed_in empty_store) "alice" eq_refl eq_refl Hcoord)
    as [score [Hscore [Hsamples [Hcount _]]]].
  - exists (-5). split; [reflexivity | split; compared].
  - exists 20. split; [reflexivity | split; compared].
  - exists 15. split; [reflexivity | split; compared].
  - exists score. split; [exact Hscore |].
    split; [rewrite Hsamples; reflexivity | exact Hcount].
Defined.

Lemma stop_always_empties_witness :
  let w := two_samples unreachable_store in
  let w' := receive 4000 (Parsed (message "stop")) w in
  measurements w <> [] /\ measurements w' = [].
Proof.
  destruct (stop_always_empties 4000 (message "stop")
              (two_samples unreachable_store) "alice" eq_refl eq_refl)
    as [H _].
  split; [discriminate | exact H].
Defined.

Lemma stored_documents_are_scored_witness :
  let docs :=
    map (toDocument "alice") (measurements (two_samples empty_store)) in
  docs <> []
  /\ Forall scored_document docs
  /\ exists user, Forall (fun d => doc_userId d = user) docs.
Proof.
  apply (stored_documents_are_scored
           [(1000%Z, Parsed (authenticate "alice-token"));
            (2000%Z, Parsed strong); (3000%Z, Parsed weak);
            (4000%Z, Parsed (message "stop"))]
           0 "session-1" empty_store).
  vm_compute. repeat (first [left; reflexivity | right]).
Defined.



Lemma enhanced_score_throws_as_plain_witness :
  calculateEnhancedQualityScore (JNumber (-25)) (JNumber 20) (JNumber 15)
                                (JNumber 80) JUndefined
  = Throw "RSRQ out of range: -20 to -3".
Proof.
  apply (enhanced_score_throws_as_plain (JNumber (-25)) (JNumber 20)
           (JNumber 15) (JNumber 80) JUndefined).
  reflexivity.
Defined.




Lemma analysis_thresholds_witness :
  (let a := analysis_rsrq
              (analyzeMetrics (JNumber (-15)) JUndefined JUndefined) in
   description a = "Weak" /\ recommendation a = "Signal acceptable")
  /\ (let a := analyzeMetrics JUndefined JUndefined JUndefined in
      description (analysis_cqi a) = "Poor"
      /\ recommendation (analysis_cqi a) = "Channel quality good").
Proof.
  destruct analysis_thresholds as [Hrsrq [_ [_ Hnan]]].
  split.
  - apply (Hrsrq (-15) JUndefined JUndefined). reflexivity.
  - destruct (Hnan JUndefined eq_refl) as [_ [_ H]]. exact H.
Defined.

Lemma short_history_is_stable_witness :
  exists average min max,
    predictSignalStrength (ArrayOf [10; 20; 90; 95; 100])
    = Predicted average "stable" min max.
Proof.
  apply (short_history_is_stable [10; 20; 90; 95; 100]). simpl. lia.
Defined.


Lemma upload_thresholds_are_halved_witness :
  getSpeedQualityColor (JNumber 30) (JString "upload")
  = getSpeedQualityColor (JNumber (2 * 30)) (JString "download").
Proof.
  destruct (upload_thresholds_are_halved 30 (JString "upload")) as [_ H].
  apply H; [discriminate | reflexivity].
Defined.

Lemma advice_of_the_message_witness :
  names (generateHumanMessage 85 (JNumber (-5)) (JNumber 20) (JNumber 15))
        "This is a great location for connectivity"
  /\ ~ names (generateHumanMessage 50 (JNumber (-14)) (JNumber (-2))
                                   (JNumber 15))
             "Consider moving to reduce interference".
Proof.
  split.
  - apply (advice_of_the_message 85 (JNumber (-5)) (JNumber 20)
             (JNumber 15)).
    compared.
  - intros H.
    apply (advice_of_the_message 50 (JNumber (-14)) (JNumber (-2))
             (JNumber 15)) in H.
    destruct H as [H _]. revert H. compared.
Defined.

Lemma wifi_message_label_witness :
  (exists rest,
     generateWiFiMessage (Some 65) (JNumber 30) (JNumber 12) (JNumber 40)
     = "Your Wi-Fi connection is " ++ toLowerCase (getSignalQuality 65)
       ++ ". " ++ rest)
  /\ (getSignalQuality 10 = "Very Poor"
      /\ exists rest,
           generateWiFiMessage (Some 10) (JNumber 30) (JNumber 12)
                               (JNumber 40)
           = "Your Wi-Fi connection is poor. " ++ rest)
  /\ names (generateWiFiMessage (Some 65) (JNumber 300) (JNumber 4)
                                (JNumber 40))
           "Slow speeds detected.".
Proof.
  split; [| split].
  - destruct (wifi_message_label (JNumber 30) (JNumber 12) (JNumber 40))
      as [H _].
    apply H. compared.
  - destruct (wifi_message_label (JNumber 30) (JNumber 12) (JNumber 40))
      as [_ [H _]].
    apply H. compared.
  - destruct (wifi_message_label (JNumber 300) (JNumber 4) (JNumber 40))
      as [_ [_ [_ H]]].
    apply H. reflexivity.
Defined.

Lemma tower_verdicts_witness :
  let calibration :=
    {| expectedRsrq := JNumber (-8); expectedSinr := JNumber 15;
       expectedCqi := JNumber 12; calibration_qualityScore := JNumber 80 |} in
  exists result,
    compareWithTowerMetrics (JNumber (-15)) (JNumber 5) (JNumber 5)
                            (Some calibration)
    = Return (Some result)
    /\ isBetter result && isWorse result = false
    /\ isBetter result || isWorse result || isEqual result = true.
Proof.
  eexists. split; [reflexivity |].
  match goal with
  | |- ?b && _ = false /\ _ =>
      match b with
      | isBetter ?result =>
          destruct (tower_verdicts (JNumber (-15)) (JNumber 5) (JNumber 5)
                      {| expectedRsrq := JNumber (-8);
                         expectedSinr := JNumber 15;
                         expectedCqi := JNumber 12;
                         calibration_qualityScore := JNumber 80 |}
                      result eq_refl)
            as [[H1 _] [H2 _]]
      end
  end.
  split; [exact H1 | apply H2; reflexivity].
Defined.

Lemma tower_score_source_witness :
  let stored :=
    {| expectedRsrq := JUndefined; expectedSinr := JUndefined;
       expectedCqi := JUndefined; calibration_qualityScore := JNumber 80 |} in
  let zero :=
    {| expectedRsrq := JNumber (-5); expectedSinr := JNumber 20;
       expectedCqi := JNumber 15; calibration_qualityScore := JNumber 0 |} in
  (exists result,
     compareWithTowerMetrics (JNumber (-5)) (JNumber 10) (JNumber 0)
                             (Some stored)
     = Return (Some result)
     /\ currentScore result = 4
     /\ towerScore result = JNumber 80)
  /\ (exists result,
        compareWithTowerMetrics (JNumber (-5)) (JNumber 10) (JNumber 0)
                                (Some zero)
        = Return (Some result)
        /\ currentScore result = 4
        /\ towerScore result = JNumber 39).
Proof.
  destruct (tower_score_source (JNumber (-5)) (JNumber 10) (JNumber 0))
    as [_ [_ [Hstored Hfalsy]]].
  split.
  - apply (Hstored {| expectedRsrq := JUndefined;
                      expectedSinr := JUndefined;
                      expectedCqi := JUndefined;
                      calibration_qualityScore := JNumber 80 |} 4);
      reflexivity.
  - apply (Hfalsy {| expectedRsrq := JNumber (-5);
                     expectedSinr := JNumber 20;
                     expectedCqi := JNumber 15;
                     calibration_qualityScore := JNumber 0 |} 4);
      reflexivity.
Defined.

Lemma record_rejects_before_saving_witness :
  let invalid :=
    Recording.request "cellular" (JNumber (-25)) (JNumber 20) (JNumber 15)
                      (JNumber 80) JUndefined in
  recordMeasurement "alice" (Recording.misplaced invalid) empty_store
  = (Return (Status400 "Invalid coordinates"), empty_store)
  /\ recordMeasurement "alice" invalid empty_store
     = (Return (Next "RSRQ out of range: -20 to -3"), empty_store).
Proof.
  split.
  - apply (record_rejects_before_saving "alice"
             (Recording.misplaced
                (Recording.request "cellular" (JNumber (-25)) (JNumber 20)
                                   (JNumber 15) (JNumber 80) JUndefined))
             empty_store).
    reflexivity.
  - apply (record_rejects_before_saving "alice"
             (Recording.request "cellular" (JNumber (-25)) (JNumber 20)
                                (JNumber 15) (JNumber 80) JUndefined)
             empty_store); reflexivity.
Defined.

Lemma record_wifi_ignores_radio_metrics_witness :
  let body :=
    Recording.request "wifi" JUndefined JUndefined JUndefined (JNumber 80)
                      (JNumber 20) in
  let other := with_metrics (JNumber (-25)) (JString "?") JNull body in
  snd (recordMeasurement "alice" other empty_store)
  = snd (recordMeasurement "alice" body empty_store)
  /\ without_metrics (fst (recordMeasurement "alice" other empty_store))
     = without_metrics (fst (recordMeasurement "alice" body empty_store)).
Proof.
  apply (record_wifi_ignores_radio_metrics "alice"
           (Recording.request "wifi" JUndefined JUndefined JUndefined
                              (JNumber 80) (JNumber 20))
           empty_store (JNumber (-25)) (JString "?") JNull).
  reflexivity.
Defined.

Lemma record_saves_on_request_only_witness :
  let body :=
    Recording.request "cellular" (JNumber (-5)) (JNumber 20) (JNumber 15)
                      JUndefined JUndefined in
  snd (recordMeasurement "alice" (Recording.unsaved body) empty_store)
  = empty_store
  /\ exists document,
       save empty_store document
       = (Return tt, snd (recordMeasurement "alice" body empty_store))
       /\ new_userId document = "alice"
       /\ new_qualityScore document = Some 39.
Proof.
  split.
  - apply (record_saves_on_request_only "alice"
             (Recording.unsaved
                (Recording.request "cellular" (JNumber (-5)) (JNumber 20)
                                   (JNumber 15) JUndefined JUndefined))
             empty_store).
    reflexivity.
  - destruct (record_saves_on_request_only "alice"
                (Recording.request "cellular" (JNumber (-5)) (JNumber 20)
                                   (JNumber 15) JUndefined JUndefined)
                empty_store) as [_ H].
    assert (Hanswer : exists data,
               fst (recordMeasurement "alice"
                      (Recording.request "cellular" (JNumber (-5))
                         (JNumber 20) (JNumber 15) JUndefined JUndefined)
                      empty_store)
               = Return (Status200 data)
               /\ rec_qualityScore data = Some 39).
    { eexists. split; reflexivity. }
    destruct Hanswer as [data [Hdata Hscore]].
    destruct (H data eq_refl Hdata) as [document [H1 [H2 [_ [H3 _]]]]].
    exists document. rewrite <- Hscore. auto.
Defined.

End MoreWitnesses.

(** * Properties of the code in double precision

    What depends on the rounding of doubles, on NaN and the infinities,
    or on what the event loop does while a handler awaits, is proved
    here of the definitions of [Double] and [Precise]. *)

Section Rounding.
Import Double.

Lemma pow2_pos (e : Z) : 0 < pow2 e.
Proof. apply Qpower_0_lt. reflexivity. Qed.

Lemma pow2_add (a b : Z) : pow2 (a + b) == pow2 a * pow2 b.
Proof. apply Qpower_plus. discriminate. Qed.

Lemma pow2_Z (n : Z) : (0 <= n)%Z -> pow2 n == inject_Z (2 ^ n).
Proof. intros H. symmetry. apply (Zpower_Qpower 2 n H). Qed.

Lemma pow2_le (a b : Z) : (a <= b)%Z -> pow2 a <= pow2 b.
Proof.
  intros H. apply Qpower_le_compat_l; [exact H |]. unfold Qle. simpl. lia.
Qed.

Lemma nearest_even_near (x : Q) :
  Qabs (inject_Z (nearest_even x) - x) <= 1 # 2.
Proof.
  unfold nearest_even.
  pose proof (Qfloor_le x) as Hle. pose proof (Qlt_floor x) as Hlt.
  rewrite inject_Z_plus in Hlt. change (inject_Z 1) with 1 in Hlt.
  apply Qabs_Qle_condition.
  destruct (Qcompare_spec (x - inject_Z (Qfloor x)) (1 # 2)) as [H | H | H];
    [destruct (Z.even (Qfloor x)) | |];
    rewrite ?inject_Z_plus; change (inject_Z 1) with 1; split; lra.
Qed.

Lemma nearest_even_comp (x y : Q) :
  x == y -> nearest_even x = nearest_even y.
Proof.
  intros H. unfold nearest_even.
  rewrite (Qfloor_comp _ _ H).
  assert (Hc : Qcompare (x - inject_Z (Qfloor y)) (1 # 2)
               = Qcompare (y - inject_Z (Qfloor y)) (1 # 2)).
  { apply Qcompare_comp; [rewrite H; reflexivity | reflexivity]. }
  rewrite Hc. reflexivity.
Qed.

Lemma nearest_even_Z (k : Z) : nearest_even (inject_Z k) = k.
Proof.
  unfold nearest_even. rewrite Qfloor_Z.
  destruct (Qcompare_spec (inject_Z k - inject_Z k) (1 # 2)) as [H | H | H];
    [exfalso; lra | reflexivity | exfalso; lra].
Qed.

(** The exponent found is not above the one of [x]. *)
Lemma ilog2_le (x : Q) : 0 < x -> pow2 (ilog2 x) <= x.
Proof.
  intros Hpos. unfold ilog2.
  destruct (Qle_bool _ x) eqn:Htest; [apply Qle_bool_iff; exact Htest |].
  clear Htest. destruct x as [a b]. cbn [Qnum Qden].
  assert (Ha : (0 < a)%Z).
  { unfold Qlt in Hpos. simpl in Hpos. lia. }
  pose proof (Z.log2_spec a Ha) as [Hla _].
  pose proof (Z.log2_spec (Zpos b) (Pos2Z.is_pos b)) as [_ Hlb].
  pose proof (Z.log2_nonneg a) as Hna.
  pose proof (Z.log2_nonneg (Zpos b)) as Hnb.
  set (la := Z.log2 a) in *. set (lb := Z.log2 (Zpos b)) in *.
  replace (la - lb - 1)%Z with (la - Z.succ lb)%Z by lia.
  unfold pow2. rewrite Qpower_minus by discriminate.
  change (2 ^ la) with (pow2 la).
  change (2 ^ Z.succ lb) with (pow2 (Z.succ lb)).
  rewrite (pow2_Z la Hna), (pow2_Z (Z.succ lb)) by lia.
  rewrite (Qmake_Qdiv a b).
  assert (H1 : (0 < 2 ^ Z.succ lb)%Z) by (apply Z.pow_pos_nonneg; lia).
  assert (H2 : (2 ^ la * Zpos b <= a * 2 ^ Z.succ lb)%Z).
  { apply Z.mul_le_mono_nonneg; try lia. }
  unfold Qdiv, Qle, Qmult, Qinv. simpl.
  destruct (2 ^ Z.succ lb)%Z as [| p | p] eqn:Hp; try lia.
  simpl. lia.
Qed.

Lemma roundoff_pos : 0 < roundoff.
Proof. apply pow2_pos. Qed.

Lemma roundoff_le_1 : roundoff <= 1.
Proof. apply Qle_bool_iff. vm_compute. reflexivity. Qed.

(** One rounding: the double nearest to a real of magnitude at most
    [M] is finite and within [(M + 1) * roundoff] of it. *)
Lemma round64_near_max (x M : Q) :
  Qabs x <= M -> M <= max_double ->
  exists y, round64 x = Finite y /\ Qabs (y - x) <= (M + 1) * roundoff.
Proof.
  intros Hx HM.
  pose proof (Qabs_nonneg x) as Hnn.
  pose proof roundoff_pos as Hu. pose proof roundoff_le_1 as Hu1.
  assert (HMu : 0 <= M * roundoff) by (apply Qmult_le_0_compat; lra).
  assert (HMu' : M * roundoff <= M) by nra.
  unfold round64.
  destruct (Qeq_bool x 0) eqn:Hzero.
  - apply Qeq_bool_iff in Hzero. exists 0. split; [reflexivity |].
    rewrite Hzero. change (Qabs (0 - 0)) with 0. lra.
  - apply Qeq_bool_neq in Hzero.
    assert (Hax : 0 < Qabs x).
    { destruct (Qlt_le_dec 0 (Qabs x)) as [H | H]; [exact H | exfalso].
      apply Hzero. revert H. apply Qabs_case; intros; lra. }
    set (ax := Qabs x) in *.
    set (e := Z.max (ilog2 ax - 52) (-1074)).
    pose proof (pow2_pos e) as Hpe.
    pose proof (nearest_even_near (ax / pow2 e)) as Hm.
    set (m := nearest_even (ax / pow2 e)) in *.
    set (y := inject_Z m * pow2 e).
    assert (Hy : Qabs (y - ax) <= pow2 e * (1 # 2)).
    { assert (E : y - ax == pow2 e * (inject_Z m - ax / pow2 e)).
      { unfold y. field. lra. }
      rewrite E, Qabs_Qmult, (Qabs_pos (pow2 e)) by lra.
      apply Qmult_le_l; [exact Hpe | exact Hm]. }
    assert (He : pow2 e * (1 # 2) <= (M + 1) * roundoff).
    { destruct (Z.max_spec (ilog2 ax - 52) (-1074)) as [[_ E] | [_ E]];
        fold e in E; rewrite E.
      - assert (H : pow2 (-1074) * (1 # 2) <= roundoff)
          by (apply Qle_bool_iff; vm_compute; reflexivity).
        lra.
      - pose proof (ilog2_le ax Hax) as Hlog.
        pose proof (pow2_pos (ilog2 ax)) as Hplog.
        replace (ilog2 ax - 52)%Z with (ilog2 ax + -52)%Z by lia.
        rewrite pow2_add.
        assert (H : pow2 (-52) * (1 # 2) == roundoff) by reflexivity.
        assert (H' : pow2 (ilog2 ax) * pow2 (-52) * (1 # 2)
                     == pow2 (ilog2 ax) * roundoff).
        { rewrite <- H. ring. }
        rewrite H'.
        assert (H'' : pow2 (ilog2 ax) * roundoff <= M * roundoff).
        { apply Qmult_le_compat_r; lra. }
        lra. }
    assert (Hfin : Qle_bool (pow2 1024) y = false).
    { destruct (Qle_bool (pow2 1024) y) eqn:Hover; [exfalso | reflexivity].
      apply Qle_bool_iff in Hover.
      assert (K : max_double + (max_double + 1) * roundoff < pow2 1024).
      { unfold Qlt. vm_compute. reflexivity. }
      assert (K' : (M + 1) * roundoff <= (max_double + 1) * roundoff).
      { apply Qmult_le_compat_r; lra. }
      apply Qabs_Qle_condition in Hy. fold ax in Hx. lra. }
    rewrite Hfin. eexists. split; [reflexivity |].
    rewrite Qred_correct.
    unfold negative.
    destruct (Qle_bool 0 x) eqn:Hsign; cbn [negb].
    + apply Qle_bool_iff in Hsign.
      assert (E : y - x == y - ax).
      { unfold ax. rewrite (Qabs_pos x Hsign). reflexivity. }
      rewrite E. lra.
    + assert (Hneg : x <= 0).
      { destruct (Qlt_le_dec 0 x) as [H | H]; [| exact H].
        apply Qlt_le_weak, Qle_bool_iff in H. congruence. }
      assert (E : - y - x == - (y - ax)).
      { unfold ax. rewrite (Qabs_neg x Hneg). ring. }
      rewrite E, Qabs_opp. lra.
Qed.

Lemma round64_near (x M : Q) :
  Qabs x <= M -> M <= pow2 1000 ->
  exists y, round64 x = Finite y /\ Qabs (y - x) <= (M + 1) * roundoff.
Proof.
  intros Hx HM. apply round64_near_max; [exact Hx |].
  assert (K : pow2 1000 <= max_double).
  { apply Qle_bool_iff. vm_compute. reflexivity. }
  lra.
Qed.

(** A multiple of [2 ^ - j] with a numerator below [2 ^ 53] in
    magnitude is a double: rounding leaves it as it is. *)
Lemma round64_exact (x : Q) (h j : Z) :
  x * pow2 j == inject_Z h -> (Z.abs h < 2 ^ 53)%Z -> (0 <= j <= 1074)%Z ->
  exists y, round64 x = Finite (Qred y) /\ y == x.
Proof.
  intros Hx Hh Hj. unfold round64.
  destruct (Qeq_bool x 0) eqn:Hzero.
  - apply Qeq_bool_iff in Hzero. exists 0. split; [reflexivity |].
    symmetry. exact Hzero.
  - apply Qeq_bool_neq in Hzero.
    pose proof (pow2_pos j) as Hpj.
    set (ax := Qabs x).
    assert (Hax : 0 < ax).
    { destruct (Qlt_le_dec 0 ax) as [H | H]; [exact H | exfalso].
      apply Hzero. revert H. unfold ax. apply Qabs_case; intros; lra. }
    assert (Hscale : ax * pow2 j == inject_Z (Z.abs h)).
    { unfold ax. rewrite <- (Qabs_pos (pow2 j)) at 1 by lra.
      rewrite <- Qabs_Qmult, Hx. reflexivity. }
    assert (Hsmall : ax < pow2 (53 - j)).
    { apply (Qmult_lt_r _ _ (pow2 j) Hpj).
      rewrite Hscale, <- pow2_add.
      replace (53 - j + j)%Z with 53%Z by lia.
      rewrite (pow2_Z 53) by lia. rewrite <- Zlt_Qlt. exact Hh. }
    assert (Hlog : (ilog2 ax <= 52 - j)%Z).
    { destruct (Z.le_gt_cases (ilog2 ax) (52 - j)) as [H | H];
        [exact H | exfalso].
      pose proof (ilog2_le ax Hax) as H1.
      assert (H2 : pow2 (53 - j) <= pow2 (ilog2 ax)) by (apply pow2_le; lia).
      lra. }
    set (e := Z.max (ilog2 ax - 52) (-1074)).
    assert (He : (-1074 <= e <= - j)%Z) by (unfold e; lia).
    pose proof (pow2_pos e) as Hpe.
    assert (Hsplit : pow2 (- j - e) * pow2 e * pow2 j == 1).
    { rewrite <- !pow2_add. replace (- j - e + e + j)%Z with 0%Z by lia.
      reflexivity. }
    assert (Hscaled : ax / pow2 e == inject_Z (Z.abs h * 2 ^ (- j - e))).
    { rewrite inject_Z_mult, <- (pow2_Z (- j - e)) by lia.
      rewrite <- Hscale.
      apply (Qmult_inj_r _ _ (pow2 e)); [lra |].
      transitivity ax; [field; lra |].
      transitivity (ax * (pow2 (- j - e) * pow2 e * pow2 j));
        [rewrite Hsplit; ring | ring]. }
    rewrite (nearest_even_comp _ _ Hscaled), nearest_even_Z.
    assert (Hy : inject_Z (Z.abs h * 2 ^ (- j - e)) * pow2 e == ax).
    { rewrite <- Hscaled. field. lra. }
    assert (Hfin : Qle_bool (pow2 1024)
                     (inject_Z (Z.abs h * 2 ^ (- j - e)) * pow2 e) = false).
    { destruct (Qle_bool _ _) eqn:Hover; [exfalso | reflexivity].
      apply Qle_bool_iff in Hover. rewrite Hy in Hover.
      assert (K : pow2 53 < pow2 1024).
      { unfold Qlt. vm_compute. reflexivity. }
      assert (K' : pow2 (53 - j) <= pow2 53) by (apply pow2_le; lia).
      lra. }
    rewrite Hfin. eexists. split; [reflexivity |].
    unfold negative.
    destruct (Qle_bool 0 x) eqn:Hsign; cbn [negb].
    + apply Qle_bool_iff in Hsign.
      rewrite Hy. unfold ax. apply Qabs_pos. exact Hsign.
    + assert (Hneg : x <= 0).
      { destruct (Qlt_le_dec 0 x) as [H | H]; [| exact H].
        apply Qlt_le_weak, Qle_bool_iff in H. congruence. }
      rewrite Hy. unfold ax. rewrite (Qabs_neg x Hneg). ring.
Qed.

Lemma Qred_inject_Z (z : Z) : Qred (inject_Z z) = inject_Z z.
Proof.
  unfold Qred, inject_Z.
  pose proof (Z.ggcd_gcd z 1) as Hg.
  pose proof (Z.ggcd_correct_divisors z 1) as Hd.
  destruct (Z.ggcd z 1) as [g [r1 r2]]. simpl in *.
  rewrite Z.gcd_1_r in Hg. subst g. destruct Hd as [H1 H2].
  rewrite Z.mul_1_l in H1, H2. subst. reflexivity.
Qed.

End Rounding.

Section PreciseScore.
Import Double Precise.

Lemma roundoff_value : roundoff == 1 # 9007199254740992.
Proof. reflexivity. Qed.

Lemma Qfloor_unique (x : Q) (k : Z) :
  inject_Z k <= x -> x < inject_Z k + 1 -> Qfloor x = k.
Proof.
  intros Hle Hlt.
  pose proof (Qfloor_resp_le _ _ Hle) as H1. rewrite Qfloor_Z in H1.
  pose proof (Qfloor_le x) as H2.
  assert (H3 : (Qfloor x < k + 1)%Z).
  { rewrite Zlt_Qlt, inject_Z_plus. change (inject_Z 1) with 1. lra. }
  lia.
Qed.

(** The literals of [calculateQualityScore]: the bounds and 0.5 are
    doubles, 0.3 and 0.2 are not. *)
Lemma literals :
  literal (-20) = Finite (-20) /\ literal (-3) = Finite (-3)
  /\ literal (-10) = Finite (-10) /\ literal 30 = Finite 30
  /\ literal 0 = Finite 0 /\ literal 15 = Finite 15
  /\ literal 100 = Finite 100
  /\ literal CONSTANTS.QUALITY_SCORE.MIN_SCORE = Finite 0
  /\ literal CONSTANTS.QUALITY_SCORE.MAX_SCORE = Finite 100
  /\ literal CONSTANTS.QUALITY_SCORE.SINR_WEIGHT = Finite (1 # 2)
  /\ literal CONSTANTS.QUALITY_SCORE.CQI_WEIGHT
     = Finite (5404319552844595 # 18014398509481984)
  /\ literal CONSTANTS.QUALITY_SCORE.RSRQ_WEIGHT
     = Finite (3602879701896397 # 18014398509481984).
Proof. vm_compute. repeat split. Qed.

(** The weighted sum in double precision, on a valid triple: seven
    roundings, and the weights 0.3 and 0.2 as the doubles nearest to
    them, leave it within a fraction of [tie_margin] of the raw
    score. *)
Lemma weighted_sum_near (rsrq sinr cqi : Q) :
  valid_rsrq rsrq -> valid_sinr sinr -> valid_cqi cqi ->
  exists score,
    sub (add (mul (Finite sinr) (Finite (1 # 2)))
             (mul (mul (div (Finite cqi) (Finite 15)) (Finite 100))
                  (Finite (5404319552844595 # 18014398509481984))))
        (mul (Math_abs (Finite rsrq))
             (Finite (3602879701896397 # 18014398509481984)))
    = Finite score
    /\ Qabs (score - raw_score rsrq sinr cqi) <= tie_margin.
Proof.
  intros [Hr1 Hr2] [Hs1 Hs2] [Hc1 Hc2].
  assert (Hbig : forall M, M <= 1000 -> M <= pow2 1000).
  { intros M HM.
    assert (K : 1000 <= pow2 1000)
      by (apply Qle_bool_iff; vm_compute; reflexivity).
    lra. }
  assert (Habs : Qabs rsrq == - rsrq) by (apply Qabs_neg; lra).
  pose proof roundoff_value as Hu.
  cbn [mul div Math_abs]. change (is_zero 15) with false. cbv iota.
  change (cqi / 15) with (cqi * (1 # 15)).
  assert (H1 : Qabs (sinr * (1 # 2)) <= 15)
    by (apply Qabs_Qle_condition; split; lra).
  destruct (round64_near _ 15 H1 (Hbig 15 ltac:(lra))) as [y1 [E1 B1]].
  apply Qabs_Qle_condition in B1. rewrite E1. clear H1 E1.
  assert (H1 : Qabs (cqi * (1 # 15)) <= 1)
    by (apply Qabs_Qle_condition; split; lra).
  destruct (round64_near _ 1 H1 (Hbig 1 ltac:(lra))) as [ya [E1 Ba]].
  apply Qabs_Qle_condition in Ba. rewrite E1. clear H1 E1.
  cbn [mul].
  assert (H1 : Qabs (ya * 100) <= 101)
    by (apply Qabs_Qle_condition; split; lra).
  destruct (round64_near _ 101 H1 (Hbig 101 ltac:(lra))) as [yb [E1 Bb]].
  apply Qabs_Qle_condition in Bb. rewrite E1. clear H1 E1.
  cbn [mul].
  assert (H1 : Qabs (yb * (5404319552844595 # 18014398509481984)) <= 31)
    by (apply Qabs_Qle_condition; split; lra).
  destruct (round64_near _ 31 H1 (Hbig 31 ltac:(lra))) as [y2 [E1 B2]].
  apply Qabs_Qle_condition in B2. rewrite E1. clear H1 E1.
  assert (H1 : Qabs (Qabs rsrq * (3602879701896397 # 18014398509481984))
               <= 5)
    by (rewrite Habs; apply Qabs_Qle_condition; split; lra).
  destruct (round64_near _ 5 H1 (Hbig 5 ltac:(lra))) as [y3 [E1 B3]].
  rewrite Habs in B3.
  apply Qabs_Qle_condition in B3. rewrite E1. clear H1 E1.
  cbn [add sub opp].
  assert (H1 : Qabs (y1 + y2) <= 50)
    by (apply Qabs_Qle_condition; split; lra).
  destruct (round64_near _ 50 H1 (Hbig 50 ltac:(lra))) as [y4 [E1 B4]].
  apply Qabs_Qle_condition in B4. rewrite E1. clear H1 E1.
  cbn [add sub opp].
  assert (H1 : Qabs (y4 + - y3) <= 60)
    by (apply Qabs_Qle_condition; split; lra).
  destruct (round64_near _ 60 H1 (Hbig 60 ltac:(lra))) as [y5 [E1 B5]].
  apply Qabs_Qle_condition in B5. rewrite E1. clear H1 E1.
  exists y5. split; [reflexivity |].
  unfold raw_score, tie_margin. rewrite Habs.
  change (cqi / 15) with (cqi * (1 # 15)).
  apply Qabs_Qle_condition. split; lra.
Qed.
(** Clamping and rounding what is near the raw score. *)
Lemma clamped_near (score raw : Q) :
  Qabs (score - raw) <= tie_margin ->
  let least := if Qltb score 100 then score else 100 in
  let clamped := if Qltb 0 least then least else 0 in
  0 <= clamped <= 100
  /\ Qabs (clamped - clamp raw 0 100) <= tie_margin.
Proof.
  intros Hnear. apply Qabs_Qle_condition in Hnear.
  unfold tie_margin in *. cbv zeta. unfold clamp.
  destruct (Qltb score 100) eqn:H1;
    [destruct (Qltb 0 score) eqn:H2
    | assert (H2 : Qltb 0 100 = true) by reflexivity; rewrite H2];
    destruct (Qltb raw 0) eqn:H3; destruct (Qgtb raw 100) eqn:H4; tests;
    (split; [split; lra | apply Qabs_Qle_condition; split; lra]).
Qed.

(** C1, as the code has it.  On every RSRQ in [-20, -3], SINR in
    [-10, 30] and CQI in [0, 15] [calculateQualityScore], computing in
    double precision, returns an integer between 0 and 100 that lies
    within a half, and the rounding error of the arithmetic, of the
    clamped raw score 0.5*sinr + 0.3*((cqi/15)*100) - 0.2*|rsrq|.  It is
    the integer round(clamp(raw score)) of the exact formula whenever
    the clamped raw score is farther than [tie_margin] from every tie
    k + 1/2; at a tie the result can be the integer below. *)
Theorem calculateQualityScore_nearest (rsrq sinr cqi : Q) :
  valid_rsrq rsrq -> valid_sinr sinr -> valid_cqi cqi ->
  exists z : Z,
    Precise.calculateQualityScore (VNumber (Finite rsrq))
      (VNumber (Finite sinr)) (VNumber (Finite cqi))
    = Return (Finite (inject_Z z))
    /\ (0 <= z <= 100)%Z
    /\ Qabs (inject_Z z - clamp (raw_score rsrq sinr cqi) 0 100)
       <= (1 # 2) + tie_margin
    /\ ((forall k : Z,
           tie_margin
           < Qabs (clamp (raw_score rsrq sinr cqi) 0 100
                   - (inject_Z k + (1 # 2)))) ->
        inject_Z z == JS.Math_round (clamp (raw_score rsrq sinr cqi) 0 100)).
Proof.
  intros Hr Hs Hc.
  destruct (weighted_sum_near rsrq sinr cqi Hr Hs Hc) as [score [Escore Hnear]].
  destruct (clamped_near score _ Hnear) as [Hrange Hclamped].
  cbv zeta in Hrange, Hclamped.
  apply range_check in Hr, Hs, Hc.
  destruct literals
    as [L1 [L2 [L3 [L4 [L5 [L6 [L7 [L8 [L9 [L10 [L11 L12]]]]]]]]]]].
  unfold Precise.calculateQualityScore.
  rewrite L1, L2, L3, L4, L5, L6, L7, L8, L9, L10, L11, L12.
  change (lt (Finite rsrq) (Finite (-20)) || gt (Finite rsrq) (Finite (-3)))
    with (Qltb rsrq (-20) || Qgtb rsrq (-3)).
  change (lt (Finite sinr) (Finite (-10)) || gt (Finite sinr) (Finite 30))
    with (Qltb sinr (-10) || Qgtb sinr 30).
  change (lt (Finite cqi) (Finite 0) || gt (Finite cqi) (Finite 15))
    with (Qltb cqi 0 || Qgtb cqi 15).
  rewrite Hr, Hs, Hc, Escore. cbv iota.
  set (C := clamp (raw_score rsrq sinr cqi) 0 100) in *.
  assert (Hresult :
            Math_round (Math_max (Finite 0) (Math_min (Finite 100)
                                                      (Finite score)))
            = Finite
                (inject_Z
                   (Qfloor
                      ((if Qltb 0 (if Qltb score 100 then score else 100)
                        then if Qltb score 100 then score else 100
                        else 0) + (1 # 2))))).
  { cbn [Math_min lt].
    destruct (Qltb score 100); cbn [Math_max lt];
      [destruct (Qltb 0 score) | change (Qltb 0 100) with true];
      reflexivity. }
  rewrite Hresult. clear Hresult.
  set (c := if Qltb 0 (if Qltb score 100 then score else 100)
            then if Qltb score 100 then score else 100 else 0) in *.
  pose proof (Qfloor_le (c + (1 # 2))) as Hfl.
  pose proof (Qlt_floor (c + (1 # 2))) as Hlt.
  rewrite inject_Z_plus in Hlt. change (inject_Z 1) with 1 in Hlt.
  apply Qabs_Qle_condition in Hclamped. unfold tie_margin in *.
  exists (Qfloor (c + (1 # 2))).
  split; [reflexivity |]. split; [| split].
  - split.
    + change 0%Z with (Qfloor (1 # 2)). apply Qfloor_resp_le. lra.
    + change 100%Z with (Qfloor (201 # 2)). apply Qfloor_resp_le. lra.
  - apply Qabs_Qle_condition. split; lra.
  - intros Hties. unfold JS.Math_round.
    set (k := Qfloor (C + (1 # 2))).
    pose proof (Qfloor_le (C + (1 # 2))) as Hk1.
    pose proof (Qlt_floor (C + (1 # 2))) as Hk2.
    fold k in Hk1, Hk2.
    rewrite inject_Z_plus in Hk2. change (inject_Z 1) with 1 in Hk2.
    pose proof (Hties (k - 1)%Z) as Hbelow.
    pose proof (Hties k) as Habove.
    unfold Z.sub in Hbelow. rewrite inject_Z_plus in Hbelow.
    change (inject_Z (- (1))) with (- (1)) in Hbelow.
    rewrite Qabs_pos in Hbelow by lra.
    rewrite Qabs_neg in Habove by lra.
    assert (E : Qfloor (c + (1 # 2)) = k)
      by (apply Qfloor_unique; lra).
    rewrite E. reflexivity.
Qed.

Lemma add_NaN_r (x : double) : add x NotANumber = NotANumber.
Proof. destruct x; reflexivity. Qed.

Lemma range_test (lo hi : Q) (x : double) :
  NaN_or_within lo hi x ->
  lt x (Finite lo) || gt x (Finite hi) = false.
Proof.
  intros [-> | [q [-> Hq]]]; [reflexivity |].
  apply range_check in Hq. exact Hq.
Qed.

(** NaN passes every check.  With a NaN among the arguments, the others
    being NaN too or within their ranges, [calculateQualityScore] throws
    nothing and returns NaN. *)
Lemma calculateQualityScore_passes_NaN (rsrq sinr cqi : double) :
  NaN_or_within (-20) (-3) rsrq ->
  NaN_or_within (-10) 30 sinr ->
  NaN_or_within 0 15 cqi ->
  rsrq = NotANumber \/ sinr = NotANumber \/ cqi = NotANumber ->
  Precise.calculateQualityScore (VNumber rsrq) (VNumber sinr) (VNumber cqi)
  = Return NotANumber.
Proof.
  intros Hr Hs Hc Hnan.
  apply range_test in Hr, Hs, Hc.
  destruct literals
    as [L1 [L2 [L3 [L4 [L5 [L6 [L7 [L8 [L9 [L10 [L11 L12]]]]]]]]]]].
  unfold Precise.calculateQualityScore.
  rewrite L1, L2, L3, L4, L5, L6, L7, L8, L9, L10, L11, L12.
  rewrite Hr, Hs, Hc. cbv iota.
  destruct Hnan as [-> | [-> | ->]].
  - cbn [Math_abs mul]. unfold sub. cbn [opp]. rewrite add_NaN_r.
    reflexivity.
  - cbn [mul add]. unfold sub. cbn [add]. reflexivity.
  - cbn [div mul]. rewrite add_NaN_r. reflexivity.
Qed.

End PreciseScore.

Section Sums.
Import Double.

Lemma length_succ {A : Type} (a : A) (l : list A) :
  inject_Z (Z.of_nat (length (a :: l)))
  == inject_Z (Z.of_nat (length l)) + 1.
Proof.
  cbn [length]. rewrite Nat2Z.inj_succ. unfold Z.succ.
  rewrite inject_Z_plus. reflexivity.
Qed.

Lemma length_nonneg {A : Type} (l : list A) :
  0 <= inject_Z (Z.of_nat (length l)).
Proof. change 0 with (inject_Z 0). rewrite <- Zle_Qle. lia. Qed.

(** A rational equal to an integer below [2 ^ 53] is that double. *)
Lemma round64_integral (x : Q) (z : Z) :
  x == inject_Z z -> inject_Z (Z.abs z) < pow2 53 ->
  round64 x = Finite (inject_Z z).
Proof.
  intros Hx Hz.
  rewrite (pow2_Z 53) in Hz by lia. rewrite <- Zlt_Qlt in Hz.
  destruct (round64_exact x z 0) as [y [E Hy]];
    [change (pow2 0) with 1; rewrite Hx; ring | exact Hz | lia |].
  rewrite Hx in Hy.
  rewrite E, (Qred_complete _ _ Hy), Qred_inject_Z. reflexivity.
Qed.

(** Integers add without error while the sums stay below [2 ^ 53]. *)
Lemma sum_integers (bound : Q) (qs : list Q) :
  forall a : Z,
    Forall integer qs ->
    Forall (fun q => Qabs q <= bound) qs ->
    inject_Z (Z.abs a) + inject_Z (Z.of_nat (length qs)) * bound < pow2 53 ->
    exists z : Z,
      fold_left add (map round64 qs) (Finite (inject_Z a))
      = Finite (inject_Z z)
      /\ inject_Z z == inject_Z a + total qs
      /\ inject_Z (Z.abs z)
         <= inject_Z (Z.abs a) + inject_Z (Z.of_nat (length qs)) * bound.
Proof.
  induction qs as [| q qs IH]; intros a Hint Hbound Hsmall.
  - exists a. split; [reflexivity |]. split; [simpl; ring |].
    cbn [length]. change (inject_Z (Z.of_nat 0)) with 0. lra.
  - inversion Hint as [| ? ? [k Hk] Hint']; subst.
    inversion Hbound as [| ? ? Hq Hbound']; subst.
    rewrite length_succ in Hsmall.
    pose proof (length_nonneg qs) as Hlen.
    set (L := inject_Z (Z.of_nat (length qs))) in *.
    assert (Hk' : inject_Z (Z.abs k) <= bound).
    { change (inject_Z (Z.abs k)) with (Qabs (inject_Z k)).
      rewrite <- Hk. exact Hq. }
    assert (Hb : 0 <= bound).
    { pose proof (Qabs_nonneg q). lra. }
    assert (HLb : 0 <= L * bound) by (apply Qmult_le_0_compat; assumption).
    assert (Ha : 0 <= inject_Z (Z.abs a)).
    { change 0 with (inject_Z 0). rewrite <- Zle_Qle. lia. }
    assert (Hsum : inject_Z (Z.abs (a + k))
                   <= inject_Z (Z.abs a) + inject_Z (Z.abs k)).
    { rewrite <- inject_Z_plus, <- Zle_Qle. lia. }
    cbn [map fold_left add].
    rewrite (round64_integral q k Hk) by lra.
    cbn [add].
    rewrite (round64_integral (inject_Z a + inject_Z k) (a + k)%Z)
      by (rewrite ?inject_Z_plus; try reflexivity; lra).
    destruct (IH (a + k)%Z Hint' Hbound') as [z [E [Hz Hz']]].
    { fold L. lra. }
    exists z. split; [exact E |]. fold L in Hz'.
    split.
    + rewrite Hz, inject_Z_plus. cbn [total]. rewrite Hk. ring.
    + rewrite length_succ. fold L. lra.
Qed.

(** Adding [qs] from left to right in double precision: every number
    is rounded on entry and every sum once, each within [c]. *)
Lemma sum_near (bound M c : Q) (qs : list Q) :
  M <= pow2 1000 -> 0 <= c -> (M + 1) * roundoff <= c ->
  forall s S A err : Q,
    Forall (fun q => Qabs q <= bound) qs ->
    Qabs S <= A -> Qabs (s - S) <= err ->
    A + err + inject_Z (Z.of_nat (length qs)) * (bound + 2 * c) <= M ->
    exists s',
      fold_left add (map round64 qs) (Finite s) = Finite s'
      /\ Qabs (s' - (S + total qs))
         <= err + inject_Z (Z.of_nat (length qs)) * (2 * c)
      /\ Qabs (S + total qs)
         <= A + inject_Z (Z.of_nat (length qs)) * bound.
Proof.
  intros HM Hc0 Hc.
  induction qs as [| q qs IH]; intros s S A err Hbound HS Hs Hinv.
  - exists s. split; [reflexivity |].
    cbn [length total]. change (inject_Z (Z.of_nat 0)) with 0.
    assert (E : S + 0 == S) by ring. rewrite E. split; lra.
  - inversion Hbound as [| ? ? Hq Hbound']; subst.
    rewrite length_succ in Hinv.
    pose proof (length_nonneg qs) as Hlen.
    set (L := inject_Z (Z.of_nat (length qs))) in *.
    pose proof (Qabs_nonneg S) as HS0.
    pose proof (Qabs_nonneg (s - S)) as Hs0.
    pose proof (Qabs_nonneg q) as Hq0.
    assert (HLb : 0 <= L * bound) by (apply Qmult_le_0_compat; lra).
    assert (HLc : 0 <= L * c) by (apply Qmult_le_0_compat; lra).
    apply Qabs_Qle_condition in HS, Hs.
    assert (Hq' : Qabs q <= M) by lra.
    destruct (round64_near q M Hq' HM) as [x [Ex Hx]].
    apply Qabs_Qle_condition in Hq, Hx.
    assert (Hsx : Qabs (s + x) <= M)
      by (apply Qabs_Qle_condition; split; lra).
    destruct (round64_near (s + x) M Hsx HM) as [t [Et Ht]].
    apply Qabs_Qle_condition in Ht.
    cbn [map fold_left]. rewrite Ex. cbn [add]. rewrite Et.
    destruct (IH t (S + q) (A + bound) (err + 2 * c) Hbound')
      as [s' [E [H1 H2]]].
    + apply Qabs_Qle_condition. split; lra.
    + apply Qabs_Qle_condition. split; lra.
    + fold L. lra.
    + fold L in H1, H2. exists s'. split; [exact E |].
      rewrite !(length_succ q qs). fold L. cbn [total].
      assert (E' : S + (q + total qs) == S + q + total qs) by ring.
      rewrite E'. split; lra.
Qed.

End Sums.

Section Means.
Import Double.

Lemma magnitude_facts (n : nat) (bound : Q) :
  (0 < n)%nat -> 0 <= bound -> magnitude n bound <= pow2 52 ->
  let N := inject_Z (Z.of_nat n) in
  let c := magnitude n bound * roundoff in
  1 <= N /\ N < pow2 53 /\ bound + 1 <= N * (bound + 1)
  /\ 0 <= c /\ 2 * c <= 1 /\ N * (2 * c) <= N
  /\ N * (bound + 1) <= pow2 1000.
Proof.
  intros Hn Hb Hmag N c.
  assert (HN : 1 <= N).
  { change 1 with (inject_Z 1). unfold N. rewrite <- Zle_Qle. lia. }
  assert (H1 : 0 <= (N - 1) * (bound + 1))
    by (apply Qmult_le_0_compat; lra).
  assert (H0 : 0 <= N * bound) by (apply Qmult_le_0_compat; lra).
  unfold magnitude in *. fold N in Hmag.
  assert (K1 : pow2 52 == 4503599627370496) by reflexivity.
  assert (K2 : pow2 53 == 9007199254740992) by reflexivity.
  assert (K3 : pow2 52 <= pow2 1000) by (apply pow2_le; lia).
  assert (Hc : c == (N * (bound + 1) + 1) * (1 # 9007199254740992)).
  { unfold c, magnitude. fold N. rewrite roundoff_value. reflexivity. }
  assert (H2 : 0 <= N * (1 - 2 * c))
    by (apply Qmult_le_0_compat; lra).
  repeat split; lra.
Qed.

Lemma of_Z_length (n : nat) :
  inject_Z (Z.of_nat n) < pow2 53 ->
  of_Z (Z.of_nat n) = Finite (inject_Z (Z.of_nat n)).
Proof.
  intros H. apply round64_integral; [reflexivity |].
  rewrite Z.abs_eq by lia. exact H.
Qed.

Lemma nonzero_length (N : Q) : 1 <= N -> is_zero N = false.
Proof.
  intros H. unfold is_zero. destruct (Qeq_bool N 0) eqn:E; [| reflexivity].
  apply Qeq_bool_iff in E. lra.
Qed.

Lemma nonempty_length {A : Type} (l : list A) : l <> [] -> (0 < length l)%nat.
Proof. destruct l; [congruence | simpl; lia]. Qed.

Lemma Forall_bound_nonneg (bound : Q) (qs : list Q) :
  qs <> [] -> Forall (fun q => Qabs q <= bound) qs -> 0 <= bound.
Proof.
  intros Hne H. destruct qs as [| q qs]; [congruence |].
  inversion H; subst. pose proof (Qabs_nonneg q). lra.
Qed.

(** The mean of [qs] in double precision, [sum / length] with the sum
    added from left to right. *)
Lemma mean_near (bound : Q) (qs : list Q) :
  qs <> [] ->
  Forall (fun q => Qabs q <= bound) qs ->
  magnitude (length qs) bound <= pow2 52 ->
  exists d,
    div (fold_left add (map round64 qs) (literal 0))
        (of_Z (Z.of_nat (length qs)))
    = Finite d
    /\ Qabs (d - mean qs) <= mean_error (length qs) bound
    /\ Qabs d <= magnitude (length qs) bound.
Proof.
  intros Hne Hbound Hmag.
  pose proof (Forall_bound_nonneg bound qs Hne Hbound) as Hb.
  destruct (magnitude_facts _ bound (nonempty_length qs Hne) Hb Hmag)
    as [HN [HN53 [H1 [Hc0 [Hc1 [HNc HM]]]]]].
  unfold mean_error, mean. unfold magnitude in *.
  set (N := inject_Z (Z.of_nat (length qs))) in *.
  set (c := (N * (bound + 1) + 1) * roundoff) in *.
  assert (Hc : (N * (bound + 1) + 1) * roundoff <= c) by (unfold c; lra).
  destruct (sum_near bound (N * (bound + 1)) c qs HM Hc0 Hc 0 0 0 0 Hbound)
    as [s' [Es [Hs Htotal]]].
  { change (Qabs 0) with 0. lra. }
  { change (Qabs (0 - 0)) with 0. lra. }
  { fold N. lra. }
  fold N in Hs, Htotal.
  assert (E0 : 0 + total qs == total qs) by ring.
  rewrite E0 in Hs, Htotal. clear E0.
  apply Qabs_Qle_condition in Hs, Htotal.
  change (literal 0) with (Finite 0). rewrite Es.
  rewrite (of_Z_length _ HN53). fold N.
  cbn [div]. rewrite (nonzero_length N HN).
  set (X := s' / N). set (Y := total qs / N).
  assert (HX : X * N == s') by (unfold X; field; lra).
  assert (HY : Y * N == total qs) by (unfold Y; field; lra).
  assert (HN0 : 0 < N) by lra.
  assert (HXb : Qabs X <= bound + 1).
  { apply Qabs_Qle_condition. split; apply (Qmult_le_r _ _ N HN0); lra. }
  assert (K : bound + 1 <= pow2 1000) by lra.
  destruct (round64_near X (bound + 1) HXb K) as [d [Ed Hd]].
  exists d. split; [exact Ed |].
  assert (HXY : Qabs (X - Y) <= 2 * c).
  { apply Qabs_Qle_condition. split; apply (Qmult_le_r _ _ N HN0); lra. }
  assert (Hdc : (bound + 1 + 1) * roundoff <= c).
  { unfold c. apply Qmult_le_compat_r; [lra |].
    apply Qlt_le_weak, roundoff_pos. }
  assert (Ec : c == (N * (bound + 1) + 1) * roundoff) by reflexivity.
  apply Qabs_Qle_condition in Hd, HXY, HXb.
  split; apply Qabs_Qle_condition; split; lra.
Qed.

(** Rounding a quotient of integers that was computed with a small
    error: the integer is the one of the exact quotient, provided the
    half-integers are computed exactly. *)
Lemma Math_round_of_quotient (s n : Z) (d : Q) :
  (0 < n)%Z ->
  Qabs (d - inject_Z s / inject_Z n) * inject_Z (2 * n) < 1 ->
  (forall h : Z, (2 * s = h * n)%Z -> d == inject_Z s / inject_Z n) ->
  Qfloor (d + (1 # 2)) = Qfloor (inject_Z s / inject_Z n + (1 # 2)).
Proof.
  intros Hn Hnear Hexact.
  assert (HN : 0 < inject_Z n).
  { change 0 with (inject_Z 0). rewrite <- Zlt_Qlt. exact Hn. }
  set (N := inject_Z n) in *. set (S := inject_Z s) in *.
  set (q := S / N) in *.
  assert (Hq : q * N == S) by (unfold q; field; lra).
  set (k := Qfloor (q + (1 # 2))).
  pose proof (Qfloor_le (q + (1 # 2))) as Hk1.
  pose proof (Qlt_floor (q + (1 # 2))) as Hk2.
  fold k in Hk1, Hk2.
  rewrite inject_Z_plus in Hk2. change (inject_Z 1) with 1 in Hk2.
  set (K := inject_Z k) in *.
  assert (Z1 : ((2 * k - 1) * n <= 2 * s)%Z).
  { rewrite Zle_Qle, !inject_Z_mult. unfold Z.sub.
    rewrite inject_Z_plus, inject_Z_mult.
    change (inject_Z 2) with 2. change (inject_Z (- (1))) with (- (1)).
    fold N S K.
    assert (H : (K - (1 # 2)) * N <= q * N)
      by (apply Qmult_le_compat_r; lra).
    lra. }
  assert (Z2 : (2 * s + 1 <= (2 * k + 1) * n)%Z).
  { apply Zlt_le_succ.
    rewrite Zlt_Qlt, !inject_Z_mult, inject_Z_plus, inject_Z_mult.
    change (inject_Z 2) with 2. change (inject_Z 1) with 1.
    fold N S K.
    assert (H : q * N < (K + (1 # 2)) * N)
      by (apply Qmult_lt_compat_r; lra).
    lra. }
  destruct (Z.eq_dec (2 * s) ((2 * k - 1) * n)) as [Htie | Hoff].
  - rewrite (Qfloor_comp _ _ (Qplus_comp _ _ (Hexact _ Htie) _ _
                                (Qeq_refl (1 # 2)))).
    reflexivity.
  - assert (Z3 : ((2 * k - 1) * n + 1 <= 2 * s)%Z) by lia.
    rewrite Zle_Qle in Z2, Z3.
    rewrite !inject_Z_plus, !inject_Z_mult in Z2, Z3.
    unfold Z.sub in Z3.
    rewrite inject_Z_plus, inject_Z_mult in Z2, Z3.
    change (inject_Z 2) with 2 in *. change (inject_Z 1) with 1 in *.
    change (inject_Z (- (1))) with (- (1)) in Z3.
    fold N S K in Z2, Z3.
    rewrite inject_Z_mult in Hnear. change (inject_Z 2) with 2 in Hnear.
    fold N in Hnear.
    assert (H1 : (d - q) * (2 * N) < 1).
    { apply Qle_lt_trans with (Qabs (d - q) * (2 * N)); [| exact Hnear].
      apply Qmult_le_compat_r; [apply Qle_Qabs | lra]. }
    assert (H2 : - (d - q) * (2 * N) < 1).
    { apply Qle_lt_trans with (Qabs (d - q) * (2 * N)); [| exact Hnear].
      apply Qmult_le_compat_r; [| lra].
      rewrite <- Qabs_opp. apply Qle_Qabs. }
    apply Qfloor_unique; fold K.
    + apply (Qmult_le_r _ _ (2 * N)); lra.
    + apply (Qmult_lt_r _ _ (2 * N)); lra.
Qed.

(** The mean of integers, rounded: the sum is exact, and the one
    rounding of the quotient moves it across no tie. *)
Lemma rounded_mean (bound : Q) (qs : list Q) :
  qs <> [] ->
  Forall integer qs ->
  Forall (fun q => Qabs q <= bound) qs ->
  magnitude (length qs) bound <= pow2 52 ->
  Math_round (div (fold_left add (map round64 qs) (literal 0))
                  (of_Z (Z.of_nat (length qs))))
  = Finite (JS.Math_round (mean qs)).
Proof.
  intros Hne Hint Hbound Hmag.
  pose proof (Forall_bound_nonneg bound qs Hne Hbound) as Hb.
  pose proof (nonempty_length qs Hne) as Hlen.
  destruct (magnitude_facts _ bound Hlen Hb Hmag)
    as [HN [HN53 [H1 [Hc0 [Hc1 [HNc HM]]]]]].
  unfold mean. unfold magnitude in *.
  set (n := Z.of_nat (length qs)) in *.
  set (N := inject_Z n) in *.
  assert (K52 : pow2 52 == 4503599627370496) by reflexivity.
  assert (K53 : pow2 53 == 9007199254740992) by reflexivity.
  assert (H0 : 0 <= N * bound) by (apply Qmult_le_0_compat; lra).
  destruct (sum_integers bound qs 0 Hint Hbound) as [z [Ez [Hz Hz']]].
  { fold n N. change (inject_Z (Z.abs 0)) with 0. lra. }
  fold n N in Hz'. change (inject_Z (Z.abs 0)) with 0 in Hz'.
  change (inject_Z 0) with 0 in Hz.
  change (literal 0) with (Finite (inject_Z 0)). rewrite Ez.
  unfold n at 1. rewrite (of_Z_length _ HN53). fold n N.
  cbn [div]. rewrite (nonzero_length N HN).
  set (q := inject_Z z / N).
  assert (HN0 : 0 < N) by lra.
  assert (Hq : q * N == inject_Z z) by (unfold q; field; lra).
  assert (Hzabs : Qabs (inject_Z z) <= N * bound).
  { change (Qabs (inject_Z z)) with (inject_Z (Z.abs z)). lra. }
  apply Qabs_Qle_condition in Hzabs.
  assert (Hqb : Qabs q <= bound).
  { apply Qabs_Qle_condition. split; apply (Qmult_le_r _ _ N HN0); lra. }
  assert (K : bound <= pow2 1000) by lra.
  destruct (round64_near q bound Hqb K) as [d [Ed Hd]].
  rewrite Ed. cbn [Math_round]. unfold JS.Math_round. do 2 f_equal.
  assert (Hmean : inject_Z z / N + (1 # 2) == total qs / N + (1 # 2)).
  { rewrite Hz. field. lra. }
  rewrite <- (Qfloor_comp _ _ Hmean).
  apply Math_round_of_quotient.
  - unfold n. lia.
  - fold N q. rewrite inject_Z_mult. change (inject_Z 2) with 2. fold N.
    apply Qle_lt_trans with ((bound + 1) * roundoff * (2 * N)).
    + apply Qmult_le_compat_r; [exact Hd | lra].
    + rewrite roundoff_value. lra.
  - intros h Hh. fold N q.
    assert (Hh' : q * 2 == inject_Z h).
    { apply (Qmult_inj_r _ _ N); [lra |].
      transitivity (2 * inject_Z z); [rewrite <- Hq; ring |].
      change 2 with (inject_Z 2). unfold N.
      rewrite <- !inject_Z_mult, Hh. reflexivity. }
    assert (Hsmall : (Z.abs h < 2 ^ 53)%Z).
    { rewrite Zlt_Qlt, <- (pow2_Z 53) by lia.
      change (inject_Z (Z.abs h)) with (Qabs (inject_Z h)).
      rewrite <- Hh', Qabs_Qmult. change (Qabs 2) with 2. lra. }
    destruct (round64_exact q h 1) as [y [Ey Hy]];
      [exact Hh' | exact Hsmall | lia |].
    rewrite Ed in Ey. injection Ey as ->.
    rewrite Qred_correct. exact Hy.
Qed.

(** [parseFloat(d.toFixed(2))] of a double near [m]. *)
Lemma toFixed2_near (d m tol : Q) :
  Qabs (d - m) <= tol -> Qabs d <= pow2 52 ->
  two_decimals (stringify (parseFloat_toFixed2 (Finite d))) m tol.
Proof.
  intros Hnear Hd. unfold parseFloat_toFixed2.
  assert (K52 : pow2 52 == 4503599627370496) by reflexivity.
  assert (Hsmall : Qle_bool (inject_Z (10 ^ 21)) (Qabs d) = false).
  { destruct (Qle_bool _ _) eqn:E; [exfalso | reflexivity].
    apply Qle_bool_iff in E.
    assert (K : inject_Z (10 ^ 21) == 1000000000000000000000)
      by reflexivity.
    lra. }
  rewrite Hsmall.
  set (n := Qfloor (Qabs d * 100 + (1 # 2))).
  pose proof (Qfloor_le (Qabs d * 100 + (1 # 2))) as H1.
  pose proof (Qlt_floor (Qabs d * 100 + (1 # 2))) as H2.
  fold n in H1, H2.
  rewrite inject_Z_plus in H2. change (inject_Z 1) with 1 in H2.
  pose proof (Qabs_nonneg d) as Hd0.
  change (inject_Z n / 100) with (inject_Z n * (1 # 100)).
  set (v := if negative d then - (inject_Z n * (1 # 100))
            else inject_Z n * (1 # 100)).
  assert (Hv : Qabs (v - d) <= 1 # 200 /\ exists k, v * 100 == inject_Z k).
  { unfold v, negative.
    destruct (Qle_bool 0 d) eqn:Hsign; cbn [negb].
    - apply Qle_bool_iff in Hsign. rewrite (Qabs_pos d Hsign) in H1, H2.
      split; [apply Qabs_Qle_condition; split; lra |].
      exists n. ring.
    - assert (Hneg : d <= 0).
      { destruct (Qlt_le_dec 0 d) as [H | H]; [| exact H].
        apply Qlt_le_weak, Qle_bool_iff in H. congruence. }
      rewrite (Qabs_neg d Hneg) in H1, H2.
      split; [apply Qabs_Qle_condition; split; lra |].
      exists (- n)%Z. rewrite inject_Z_opp. ring. }
  destruct Hv as [Hv [k Hk]].
  apply Qabs_Qle_condition in Hv, Hnear.
  assert (Hvb : Qabs v <= pow2 52 + 1).
  { apply Qabs_Qle_condition in Hd. apply Qabs_Qle_condition. split; lra. }
  assert (K : pow2 52 + 1 <= pow2 1000).
  { apply Qle_bool_iff. vm_compute. reflexivity. }
  destruct (round64_near v _ Hvb K) as [x [Ex _]].
  exists k, v, x. split; [exact Hk |].
  split; [apply Qabs_Qle_condition; split; lra |].
  split; [exact Ex |]. rewrite Ex. reflexivity.
Qed.

End Means.

Section PreciseStop.
Context {conv : Conversions} {geo : GeoUtils} {rs : RecordStore} {auth : Auth}.
Import Double.

(** The reduction over a field that holds a number in every sample. *)
Lemma reduce_doubles (field : Sample -> JSValue) (ms : list Sample)
    (qs : list Q) :
  map field ms = map JNumber qs ->
  Precise.reduce_sum field ms
  = Precise.SumNumber (fold_left add (map round64 qs) (literal 0)).
Proof.
  unfold Precise.reduce_sum. generalize (literal 0).
  revert qs. induction ms as [| m ms IH]; intros [| q qs] acc Hmap;
    try discriminate; [reflexivity |].
  injection Hmap as Hm Hrest.
  cbn [fold_left map]. rewrite Hm. cbn [Precise.plus Precise.ToNumber].
  apply IH. exact Hrest.
Qed.

Lemma same_length (field : Sample -> JSValue) (ms : list Sample)
    (qs : list Q) :
  map field ms = map JNumber qs -> length qs = length ms.
Proof.
  intros H. rewrite <- (length_map field ms), H. symmetry. apply length_map.
Qed.

(** An average of the summary over a field of numbers. *)
Lemma average_near (field : Sample -> JSValue) (ms : list Sample)
    (qs : list Q) (bound : Q) :
  ms <> [] ->
  map field ms = map JNumber qs ->
  Forall (fun q => Qabs q <= bound) qs ->
  magnitude (length ms) bound <= pow2 52 ->
  two_decimals
    (stringify
       (parseFloat_toFixed2
          (Precise.divide (Precise.reduce_sum field ms) (length ms))))
    (mean qs) (mean_error (length ms) bound).
Proof.
  intros Hne Hmap Hbound Hmag.
  pose proof (same_length field ms qs Hmap) as Hlen.
  assert (Hne' : qs <> []) by (destruct qs, ms; simpl in *; congruence).
  rewrite (reduce_doubles field ms qs Hmap). unfold Precise.divide.
  rewrite <- Hlen in *.
  destruct (mean_near bound qs Hne' Hbound Hmag) as [d [Ed [Hd Hd']]].
  rewrite Ed. apply toFixed2_near; [exact Hd | lra].
Qed.

(** The average quality of the summary over integer scores. *)
Lemma average_quality (ms : list Sample) (bound : Q) :
  ms <> [] ->
  Forall integer (map m_qualityScore ms) ->
  Forall (fun q => Qabs q <= bound) (map m_qualityScore ms) ->
  magnitude (length ms) bound <= pow2 52 ->
  stringify
    (Math_round
       (Precise.divide
          (Precise.reduce_sum (fun m => JNumber (m_qualityScore m)) ms)
          (length ms)))
  = Some (JS.Math_round (mean (map m_qualityScore ms))).
Proof.
  intros Hne Hint Hbound Hmag.
  assert (Hmap : map (fun m => JNumber (m_qualityScore m)) ms
                 = map JNumber (map m_qualityScore ms))
    by (rewrite map_map; reflexivity).
  assert (Hne' : map m_qualityScore ms <> [])
    by (destruct ms; simpl; congruence).
  rewrite (reduce_doubles _ ms _ Hmap). unfold Precise.divide.
  rewrite <- (length_map m_qualityScore ms) in *.
  rewrite (rounded_mean bound _ Hne' Hint Hbound Hmag).
  reflexivity.
Qed.

(** C2, as the code has it.  In an authenticated session whose array
    holds n >= 1 samples with numeric metrics and speeds, a stop during
    whose insert the connection handles no other message, and whose
    insert succeeds, makes one [insertMany] call, with the documents of
    exactly those n samples, and is answered by one [session_summary]
    whose [measurementCount] is n.  Its [averageQuality] is the mean of
    the quality scores rounded to the nearest integer, a tie going up.
    Each other average is a decimal of two fractional digits within
    0.005, and the rounding error of the double-precision mean, of the
    mean of RSRQ, SINR, CQI, download or upload speed, read back as
    the nearest double.  Afterwards the array is empty and the socket
    still open.  The numbers are taken of magnitude at most [bound]
    and the scores integers, with [n * (bound + 1) < 2 ^ 52]. *)
Theorem stop_saves_and_summarises (now : Z) (user : string) (w : World)
    (saved : list Document) (db' : Store)
    (rsrqs sinrs cqis downs ups : list Q) (bound : Q) :
  truthy_userId w = Some user ->
  readyState w = OPEN ->
  measurements w <> [] ->
  insertMany (db w) (map (toDocument user) (measurements w))
  = (Return saved, db') ->
  map m_rsrq (measurements w) = map JNumber rsrqs ->
  map m_sinr (measurements w) = map JNumber sinrs ->
  map m_cqi (measurements w) = map JNumber cqis ->
  map m_downloadSpeed (measurements w) = map JNumber downs ->
  map m_uploadSpeed (measurements w) = map JNumber ups ->
  Forall integer (map m_qualityScore (measurements w)) ->
  Forall (fun q => Qabs q <= bound)
         (map m_qualityScore (measurements w)
          ++ rsrqs ++ sinrs ++ cqis ++ downs ++ ups) ->
  magnitude (length (measurements w)) bound <= pow2 52 ->
  let n := length (measurements w) in
  let w' := Precise.stop_uninterrupted now user w in
  exists summary,
    added w w'
      [InsertMany (map (toDocument user) (measurements w));
       Send (msg_session_summary (sessionId w) summary)]
    /\ sum_measurementCount summary = n
    /\ averageQuality summary
       = Some (JS.Math_round (mean (map m_qualityScore (measurements w))))
    /\ two_decimals (averageRsrq summary) (mean rsrqs) (mean_error n bound)
    /\ two_decimals (averageSinr summary) (mean sinrs) (mean_error n bound)
    /\ two_decimals (averageCqi summary) (mean cqis) (mean_error n bound)
    /\ two_decimals (averageDownloadSpeed summary) (mean downs)
                    (mean_error n bound)
    /\ two_decimals (averageUploadSpeed summary) (mean ups)
                    (mean_error n bound)
    /\ measurements w' = []
    /\ readyState w' = OPEN
    /\ truthy_userId w' = Some user
    /\ db w' = db'.
Proof.
  intros Huser Hopen Hsome Hinsert Hr Hs Hc Hd Hu Hint Hbound Hmag n w'.
  apply Forall_app in Hbound. destruct Hbound as [Bq Hbound].
  apply Forall_app in Hbound. destruct Hbound as [Br Hbound].
  apply Forall_app in Hbound. destruct Hbound as [Bs Hbound].
  apply Forall_app in Hbound. destruct Hbound as [Bc Hbound].
  apply Forall_app in Hbound. destruct Hbound as [Bd Bu].
  assert (Hlen : Nat.eqb (length (measurements w)) 0 = false).
  { destruct (measurements w); [congruence | reflexivity]. }
  exists (Precise.sessionSummary now (sessionStartTime w) (measurements w)
            saved).
  unfold w', Precise.stop_uninterrupted, Precise.stop_begins.
  rewrite Hlen, Hinsert.
  unfold Precise.stop_resumes, sendMessage, modify. cbn.
  rewrite Hopen. cbn.
  split; [unfold added; cbn; rewrite <- app_assoc; reflexivity |].
  split; [reflexivity |].
  split; [apply (average_quality _ bound); assumption |].
  split; [apply average_near; assumption |].
  split; [apply average_near; assumption |].
  split; [apply average_near; assumption |].
  split; [apply average_near; assumption |].
  split; [apply average_near; assumption |].
  split; [reflexivity |]. split; [exact Hopen |].
  split; [exact Huser | reflexivity].
Qed.

End PreciseStop.

Section PreciseSession.
Context {conv : Conversions} {geo : GeoUtils} {rs : RecordStore} {auth : Auth}.

(** The stop case of the listener, computed on exact numbers, and
    [stop_uninterrupted] differ in the figures of the summary only. *)
Lemma stop_case_of_the_listener (now : Z) (data : ClientData) (w : World)
    (user : string) :
  truthy_userId w = Some user ->
  strict_eq_string (type data) "stop" = true ->
  let w1 := receive now (Parsed data) w in
  let w2 := Precise.stop_uninterrupted now user w in
  map without_statistics (trace w1) = map without_statistics (trace w2)
  /\ userId w1 = userId w2
  /\ sessionId w1 = sessionId w2
  /\ measurementCount w1 = measurementCount w2
  /\ sessionStartTime w1 = sessionStartTime w2
  /\ measurements w1 = measurements w2
  /\ readyState w1 = readyState w2
  /\ db w1 = db w2.
Proof.
  intros Huser Htype.
  pose proof (not_measurement _ Htype) as Hnot.
  unfold Precise.stop_uninterrupted, Precise.stop_begins,
    Precise.stop_resumes.
  unfold receive, onMessage, handleStop, ConnectivityData_insertMany,
    sendMessage, try_catch, bind, ret, throw, lift, get, modify, JSON_parse.
  simpl. rewrite Huser, Hnot, Htype.
  destruct (Nat.eqb (length (measurements w)) 0); simpl.
  - destruct (readyState w); simpl; repeat split; reflexivity.
  - destruct (insertMany (db w) (map (toDocument user) (measurements w)))
      as [[saved | e] db'];
      simpl; destruct (readyState w); simpl;
      rewrite ?map_app; simpl; repeat split; reflexivity.
Qed.

End PreciseSession.

Section StopsAndCounts.
Context {conv : Conversions} {geo : GeoUtils} {rs : RecordStore} {auth : Auth}.

Lemma stop_uninterrupted_empties (now : Z) (user : string) (w : World) :
  measurements (Precise.stop_uninterrupted now user w) = []
  /\ readyState (Precise.stop_uninterrupted now user w) = readyState w.
Proof.
  unfold Precise.stop_uninterrupted, Precise.stop_begins,
    Precise.stop_resumes, sendMessage, modify.
  destruct (Nat.eqb (length (measurements w)) 0); simpl.
  - destruct (readyState w) eqn:E; simpl; auto.
  - destruct (insertMany (db w) (map (toDocument user) (measurements w)))
      as [saved db'].
    simpl. destruct (readyState w) eqn:E; simpl; auto.
Qed.

(** X10.  Two stops in an authenticated session on an open socket.  A
    stop that arrives when an earlier one has run to its end finds the
    array empty: it is answered by 'No measurements recorded', awaits
    nothing, calls the store no more and changes nothing of the
    session.  A stop that arrives while the insert of an earlier one is
    still awaited finds the array as the earlier one did, and hands the
    same documents to [insertMany] a second time. *)
Theorem stop_after_stop (now : Z) (user : string) (w : World) :
  readyState w = OPEN ->
  (let w1 := Precise.stop_uninterrupted now user w in
   exists w2,
     Precise.stop_begins user w1 = (None, w2)
     /\ added w1 w2 [Send (msg_error "No measurements recorded")]
     /\ same_session w1 w2)
  /\ (measurements w <> [] ->
      exists first w1 second w2,
        Precise.stop_begins user w = (Some first, w1)
        /\ Precise.stop_begins user w1 = (Some second, w2)
        /\ added w w2
             [InsertMany (map (toDocument user) (measurements w));
              InsertMany (map (toDocument user) (measurements w))]).
Proof.
  intros Hopen. split.
  - cbv zeta.
    destruct (stop_uninterrupted_empties now user w) as [Hempty Hopen1].
    rewrite Hopen in Hopen1.
    set (w1 := Precise.stop_uninterrupted now user w) in *.
    unfold Precise.stop_begins, sendMessage, modify.
    rewrite Hempty. simpl. rewrite Hopen1.
    eexists. split; [reflexivity |].
    unfold added, same_session. simpl. rewrite Hempty. repeat split; auto.
  - intros Hsome.
    assert (Hlen : Nat.eqb (length (measurements w)) 0 = false).
    { destruct (measurements w); [congruence | reflexivity]. }
    set (docs := map (toDocument user) (measurements w)).
    destruct (insertMany (db w) docs) as [first db1] eqn:Hfirst.
    set (w1 := set_db db1 (emit (InsertMany docs) w)).
    destruct (insertMany db1 docs) as [second db2] eqn:Hsecond.
    exists first, w1, second, (set_db db2 (emit (InsertMany docs) w1)).
    split; [| split].
    + unfold Precise.stop_begins. rewrite Hlen. fold docs.
      rewrite Hfirst. reflexivity.
    + unfold Precise.stop_begins.
      change (measurements w1) with (measurements w).
      change (db w1) with db1.
      rewrite Hlen. fold docs. rewrite Hsecond. reflexivity.
    + unfold added. simpl. rewrite <- app_assoc. reflexivity.
Qed.

Lemma count_step (now : Z) (message : Incoming) (w : World) :
  (measurementCount w <= measurementCount (receive now message w)
   <= measurementCount w + 1)%Z.
Proof.
  run_session.
  destruct message as [reason | data]; simpl; branches; simpl; lia.
Qed.

Lemma count_after_stop (now : Z) (data : ClientData) (w : World) :
  strict_eq_string (type data) "stop" = true ->
  measurementCount (receive now (Parsed data) w) = measurementCount w.
Proof.
  intros Htype. pose proof (not_measurement _ Htype) as Hnot.
  assert (Hauth : strict_eq_string (type data) "authenticate" = false).
  { destruct (type data) as [| | b | q | s]; try discriminate.
    simpl in *. apply String.eqb_eq in Htype. subst s. reflexivity. }
  run_session. rewrite Hnot, Htype, Hauth.
  branches; reflexivity.
Qed.

Lemma count_along (events : list (Z * Incoming)) (w : World) :
  (measurementCount w <= measurementCount (session events w)
   <= measurementCount w + Z.of_nat (length events))%Z.
Proof.
  revert w. induction events as [| [t message] rest IH]; intros w.
  - simpl. lia.
  - cbn [session length]. pose proof (count_step t message w).
    pose proof (IH (receive t message w)). lia.
Qed.

(** X11.  The counter of a connection whose messages are handled one
    after the other, each to its end.  From the opening on,
    [measurementCount] is at least the number of samples in the array
    and at most the number of messages handled; a further message
    leaves it or raises it by one, and a stop leaves it as it is. *)
Theorem count_never_falls (events : list (Z * Incoming)) (now : Z)
    (id : string) (store : Store) :
  let w := session events (handleConnection now id store) in
  (Z.of_nat (length (measurements w)) <= measurementCount w
   <= Z.of_nat (length events))%Z
  /\ (forall later message,
        (measurementCount w <= measurementCount (receive later message w)
         <= measurementCount w + 1)%Z)
  /\ (forall later data,
        strict_eq_string (type data) "stop" = true ->
        measurementCount (receive later (Parsed data) w)
        = measurementCount w).
Proof.
  cbv zeta. split; [split |].
  - assert (Hstart : (Z.of_nat (length (measurements
                                         (handleConnection now id store)))
                      <= measurementCount (handleConnection now id store))%Z).
    { unfold handleConnection. simpl. lia. }
    revert Hstart. generalize (handleConnection now id store).
    induction events as [| [t message] rest IH]; intros w Hinv.
    + exact Hinv.
    + simpl. apply IH. apply count_covers_step. exact Hinv.
  - pose proof (count_along events (handleConnection now id store)) as H.
    assert (H0 : measurementCount (handleConnection now id store) = 0%Z).
    { unfold handleConnection. simpl. reflexivity. }
    lia.
  - split.
    + intros later message. apply count_step.
    + intros later data. apply count_after_stop.
Qed.

End StopsAndCounts.

Section PreciseWiFi.
Import Double.

(** Rounding yields a finite double or overflows; never NaN. *)
Lemma round64_cases (x : Q) :
  round64 x = Infinity (negative x) \/ exists y, round64 x = Finite y.
Proof.
  unfold round64. cbv zeta.
  destruct (Qeq_bool x 0); [right; eexists; reflexivity |].
  destruct (Qle_bool _ _);
    [left; reflexivity | right; eexists; reflexivity].
Qed.

Lemma nearest_even_nonneg (x : Q) : 0 <= x -> (0 <= nearest_even x)%Z.
Proof.
  intros H. unfold nearest_even.
  pose proof (Qfloor_resp_le _ _ H) as Hf.
  change (Qfloor 0) with 0%Z in Hf.
  destruct (Qcompare _ _); [destruct (Z.even _) | |]; lia.
Qed.

Lemma max_double_facts :
  0 < pow2 971 /\ 1000 <= pow2 971
  /\ pow2 971 * 4503599627370496 <= max_double
  /\ (max_double + 1) * roundoff <= pow2 971.
Proof.
  split; [apply pow2_pos |].
  split; [apply Qle_bool_iff; vm_compute; reflexivity |].
  split; apply Qle_bool_iff; vm_compute; reflexivity.
Qed.

(** What is no larger than the largest double rounds to a double. *)
Lemma round64_finite (x : Q) :
  Qabs x <= max_double ->
  exists y, round64 x = Finite y /\ Qabs (y - x) <= pow2 971.
Proof.
  intros Hx.
  destruct (round64_near_max x max_double Hx (Qle_refl _)) as [y [E Hy]].
  destruct max_double_facts as [_ [_ [_ K]]].
  exists y. split; [exact E | lra].
Qed.

(** What is at most [B] rounds to at most [B] and the error. *)
Lemma round64_upper (x B : Q) :
  x <= B -> 0 <= B -> B <= max_double ->
  at_most (B + pow2 971) (round64 x).
Proof.
  intros Hx HB HBmax.
  destruct max_double_facts as [K0 _].
  destruct (Qlt_le_dec 0 x) as [Hpos | Hneg].
  - assert (Habs : Qabs x <= max_double).
    { rewrite Qabs_pos by lra. lra. }
    destruct (round64_finite x Habs) as [y [E Hy]].
    apply Qabs_Qle_condition in Hy.
    right. exists y. split; [exact E | lra].
  - unfold round64. cbv zeta.
    destruct (Qeq_bool x 0) eqn:Hzero;
      [right; exists 0; split; [reflexivity | lra] |].
    apply Qeq_bool_neq in Hzero.
    assert (Hsign : negative x = true).
    { unfold negative. destruct (Qle_bool 0 x) eqn:E; [| reflexivity].
      apply Qle_bool_iff in E. exfalso. apply Hzero. lra. }
    rewrite Hsign.
    destruct (Qle_bool _ _); [left; reflexivity |].
    right. eexists. split; [reflexivity |].
    rewrite Qred_correct.
    set (e := Z.max (ilog2 (Qabs x) - 52) (-1074)).
    pose proof (pow2_pos e) as Hpe.
    assert (Hq : 0 <= Qabs x / pow2 e).
    { apply Qle_shift_div_l; [exact Hpe |].
      pose proof (Qabs_nonneg x). lra. }
    pose proof (nearest_even_nonneg _ Hq) as Hn.
    assert (Hn' : 0 <= inject_Z (nearest_even (Qabs x / pow2 e))).
    { change 0 with (inject_Z 0). rewrite <- Zle_Qle. exact Hn. }
    assert (0 <= inject_Z (nearest_even (Qabs x / pow2 e)) * pow2 e)
      by (apply Qmult_le_0_compat; lra).
    lra.
Qed.

Lemma Math_min_100 (x : double) :
  x <> NotANumber -> at_most 100 (Math_min (Finite 100) x).
Proof.
  intros Hx. destruct x as [y | [|] |]; [| | | congruence].
  - cbn [Math_min lt]. unfold Qltb.
    destruct (Qle_bool 100 y) eqn:E; cbn [negb]; right.
    + exists 100. split; [reflexivity | lra].
    + exists y. split; [reflexivity |].
      destruct (Qlt_le_dec y 100) as [H | H]; [lra |].
      apply Qle_bool_iff in H. congruence.
  - left. reflexivity.
  - right. exists 100. split; [reflexivity | lra].
Qed.

Lemma round64_not_NaN (x : Q) : round64 x <> NotANumber.
Proof.
  destruct (round64_cases x) as [E | [y E]]; rewrite E; discriminate.
Qed.

(** A weight in (0, 1] keeps what is at most [B] so, up to rounding. *)
Lemma mul_at_most (x : double) (w B : Q) :
  0 < w -> w <= 1 -> 0 <= B -> B <= max_double ->
  at_most B x -> at_most (B + pow2 971) (mul x (Finite w)).
Proof.
  intros Hw Hw1 HB HBmax [-> | [q [-> Hq]]].
  - cbn [mul]. unfold is_zero, negative.
    destruct (Qeq_bool w 0) eqn:E;
      [apply Qeq_bool_iff in E; lra |].
    destruct (Qle_bool 0 w) eqn:E'; [left; reflexivity |].
    assert (H : 0 <= w) by lra. apply Qle_bool_iff in H. congruence.
  - cbn [mul]. apply round64_upper; try assumption.
    destruct (Qlt_le_dec q 0) as [Hneg | Hpos].
    + assert (0 <= (- q) * w) by (apply Qmult_le_0_compat; lra). lra.
    + assert (0 <= q * (1 - w)) by (apply Qmult_le_0_compat; lra). lra.
Qed.

Lemma add_at_most (x y : double) (A B : Q) :
  0 <= A -> 0 <= B -> A + B <= max_double ->
  at_most A x -> at_most B y -> at_most (A + B + pow2 971) (add x y).
Proof.
  intros HA HB Hmax [-> | [a [-> Ha]]] [-> | [b [-> Hb]]]; cbn [add].
  - left. reflexivity.
  - left. reflexivity.
  - left. reflexivity.
  - apply round64_upper; lra.
Qed.

Lemma wifi_literals :
  literal 0 = Finite 0 /\ literal 50 = Finite 50
  /\ literal 100 = Finite 100 /\ literal 200 = Finite 200
  /\ literal 0.5 = Finite (1 # 2)
  /\ literal 0.3 = Finite (5404319552844595 # 18014398509481984)
  /\ literal 0.2 = Finite (3602879701896397 # 18014398509481984).
Proof. vm_compute. repeat split. Qed.

(** A speed, normalised against [reference] and weighted. *)
Lemma weighted_speed (speed : double) (reference w : Q) :
  1 <= reference -> 0 < w -> w <= 1 ->
  speed <> NotANumber ->
  at_most (100 + pow2 971)
    (mul (Math_min (Finite 100)
                   (mul (div speed (Finite reference)) (Finite 100)))
         (Finite w)).
Proof.
  intros Href Hw Hw1 Hspeed.
  destruct max_double_facts as [K0 [K1 [K2 K3]]].
  apply mul_at_most; try assumption; try lra.
  apply Math_min_100.
  assert (Hzero : is_zero reference = false).
  { unfold is_zero. destruct (Qeq_bool reference 0) eqn:E; [| reflexivity].
    apply Qeq_bool_iff in E. lra. }
  destruct speed as [q | s |]; [| | congruence]; cbn [div].
  - rewrite Hzero.
    destruct (round64_cases (q / reference)) as [E1 | [y E1]];
      rewrite E1; cbn [mul].
    + change (is_zero 100) with false. cbv iota. discriminate.
    + apply round64_not_NaN.
  - cbn [mul]. change (is_zero 100) with false. cbv iota. discriminate.
Qed.

(** The latency, normalised and weighted by the double of 0.2. *)
Lemma weighted_latency (latency : double) :
  latency = Infinity false
  \/ (exists q, latency = Finite q /\ Qabs q <= max_double) ->
  exists c,
    mul (Math_max (Finite 0)
                  (sub (Finite 100)
                       (mul (div latency (Finite 200)) (Finite 100))))
        (Finite (3602879701896397 # 18014398509481984))
    = Finite c.
Proof.
  destruct max_double_facts as [K0 [K1 [K2 K3]]].
  intros [-> | [q [-> Hq]]].
  - exists 0. vm_compute. reflexivity.
  - cbn [div]. change (is_zero 200) with false. cbv iota.
    change (q / 200) with (q * (1 # 200)).
    apply Qabs_Qle_condition in Hq.
    assert (H1 : Qabs (q * (1 # 200)) <= max_double)
      by (apply Qabs_Qle_condition; split; lra).
    destruct (round64_finite _ H1) as [y3 [E3 B3]].
    rewrite E3. cbn [mul]. apply Qabs_Qle_condition in B3. clear H1 E3.
    assert (H1 : Qabs (y3 * 100) <= max_double)
      by (apply Qabs_Qle_condition; split; lra).
    destruct (round64_finite _ H1) as [y4 [E4 B4]].
    rewrite E4. cbn [sub opp add]. apply Qabs_Qle_condition in B4.
    clear H1 E4.
    assert (H1 : Qabs (100 + - y4) <= max_double)
      by (apply Qabs_Qle_condition; split; lra).
    destruct (round64_finite _ H1) as [y5 [E5 B5]].
    rewrite E5. apply Qabs_Qle_condition in B5. clear H1 E5.
    cbn [Math_max lt]. unfold Qltb.
    destruct (Qle_bool y5 0) eqn:E; cbn [negb mul].
    + exists 0. vm_compute. reflexivity.
    + assert (H1 : Qabs (y5 * (3602879701896397 # 18014398509481984))
                   <= max_double)
        by (apply Qabs_Qle_condition; split; lra).
      destruct (round64_finite _ H1) as [c [Ec _]].
      exists c. exact Ec.
Qed.

(** Clamping and rounding what is no NaN. *)
Lemma clamped_and_rounded (x : double) :
  x <> NotANumber ->
  exists z : Z,
    Math_round (Math_max (Finite 0) (Math_min (Finite 100) x))
    = Finite (inject_Z z)
    /\ (0 <= z <= 100)%Z.
Proof.
  intros Hx. destruct x as [y | [|] |]; [| | | congruence].
  - cbn [Math_min lt]. unfold Qltb.
    destruct (Qle_bool 100 y) eqn:E1; cbn [negb Math_max lt].
    + exists 100%Z. split; [reflexivity | lia].
    + unfold Qltb. destruct (Qle_bool y 0) eqn:E2; cbn [negb Math_round].
      * exists 0%Z. split; [reflexivity | lia].
      * assert (H1 : y < 100).
        { destruct (Qlt_le_dec y 100) as [H | H]; [exact H |].
          apply Qle_bool_iff in H. congruence. }
        assert (H2 : 0 < y).
        { destruct (Qlt_le_dec 0 y) as [H | H]; [exact H |].
          apply Qle_bool_iff in H. congruence. }
        exists (Qfloor (y + (1 # 2))). split; [reflexivity |]. split.
        -- change 0%Z with (Qfloor (1 # 2)). apply Qfloor_resp_le. lra.
        -- change 100%Z with (Qfloor (201 # 2)). apply Qfloor_resp_le. lra.
  - exists 0%Z. split; [reflexivity | lia].
  - exists 100%Z. split; [reflexivity | lia].
Qed.


(** X15.  [calculateWiFiQualityScore] in double precision, on the
    numbers its arguments convert to.  It is NaN as soon as an argument
    is NaN.  It is an integer between 0 and 100 when no argument is NaN
    and the latency is left out, finite or Infinity: speeds of any
    size and sign, the infinite ones too, are clamped.  A latency of
    -Infinity can give either: 100 beside the speeds 20 and 5, NaN
    beside a download speed of -Infinity. *)
Theorem wifi_score_on_doubles (d u l : option double) :
  (d = Some NotANumber \/ u = Some NotANumber \/ l = Some NotANumber ->
   Precise.calculateWiFiQualityScore d u l = NotANumber)
  /\ (d <> Some NotANumber -> u <> Some NotANumber -> settled_latency l ->
      exists z : Z,
        Precise.calculateWiFiQualityScore d u l = Finite (inject_Z z)
        /\ (0 <= z <= 100)%Z)
  /\ Precise.calculateWiFiQualityScore
       (Some (Finite 20)) (Some (Finite 5)) (Some (Infinity true))
     = Finite 100
  /\ Precise.calculateWiFiQualityScore
       (Some (Infinity true)) (Some (Finite 5)) (Some (Infinity true))
     = NotANumber.
Proof.
  destruct wifi_literals as [L0 [L50 [L100 [L200 [L5 [L3 L2]]]]]].
  destruct max_double_facts as [K0 [K1 [K2 K3]]].
  split; [| split; [| split; vm_compute; reflexivity]].
  - unfold Precise.calculateWiFiQualityScore. cbv zeta.
    rewrite L0, L50, L100, L200, L5, L3, L2.
    intros [-> | [-> | ->]]; cbn [Precise.default_0].
    + reflexivity.
    + cbn [div mul Math_min]. rewrite add_NaN_r. reflexivity.
    + cbn [div mul sub opp add Math_max]. rewrite !add_NaN_r. reflexivity.
  - intros Hd Hu Hl.
    unfold Precise.calculateWiFiQualityScore. cbv zeta.
    rewrite L0, L50, L100, L200, L5, L3, L2.
    assert (Hd' : Precise.default_0 d <> NotANumber).
    { destruct d as [x |]; cbn; [congruence | discriminate]. }
    assert (Hu' : Precise.default_0 u <> NotANumber).
    { destruct u as [x |]; cbn; [congruence | discriminate]. }
    assert (Hl' : Precise.default_0 l = Infinity false
                  \/ exists q, Precise.default_0 l = Finite q
                               /\ Qabs q <= max_double).
    { destruct Hl as [-> | [-> | [q [-> Hq]]]]; cbn.
      - right. exists 0. split; [reflexivity |].
        change (Qabs 0) with 0. lra.
      - left. reflexivity.
      - right. exists q. split; [reflexivity | exact Hq]. }
    pose proof (weighted_speed (Precise.default_0 d) 100 (1 # 2)
                  ltac:(lra) ltac:(lra) ltac:(lra) Hd') as Ha.
    pose proof (weighted_speed (Precise.default_0 u) 50
                  (5404319552844595 # 18014398509481984)
                  ltac:(lra) ltac:(lra) ltac:(lra) Hu') as Hb.
    destruct (weighted_latency _ Hl') as [c Ec]. rewrite Ec.
    pose proof (add_at_most _ _ (100 + pow2 971) (100 + pow2 971)
                  ltac:(lra) ltac:(lra) ltac:(lra) Ha Hb) as Hab.
    apply clamped_and_rounded.
    destruct Hab as [-> | [q [-> _]]]; cbn [add];
      [discriminate | apply round64_not_NaN].
Qed.

End PreciseWiFi.

Section PreciseWitnesses.
Import Example Session Double.

#[local] Existing Instance conversions.
#[local] Existing Instance geo.
#[local] Existing Instance store.
#[local] Existing Instance auth.

Lemma calculateQualityScore_nearest_witness :
  exists z : Z,
    Precise.calculateQualityScore (Precise.VNumber (Finite (-5)))
      (Precise.VNumber (Finite 20)) (Precise.VNumber (Finite 15))
    = Return (Finite (inject_Z z))
    /\ (0 <= z <= 100)%Z
    /\ Qabs (inject_Z z - clamp (raw_score (-5) 20 15) 0 100)
       <= (1 # 2) + tie_margin.
Proof.
  destruct (calculateQualityScore_nearest (-5) 20 15)
    as [z [Hz [Hrange [Hnear _]]]].
  - split; unfold Qle; simpl; lia.
  - split; unfold Qle; simpl; lia.
  - split; unfold Qle; simpl; lia.
  - exists z. split; [exact Hz |]. split; [exact Hrange | exact Hnear].
Defined.

(** C1 as stated does not hold.  The raw score of RSRQ -10, SINR 5, CQI
    10 is 2.5 + 20 - 2 = 20.5, which rounds to 21.  In double
    precision the CQI term comes out as 19.999999999999996, the sum as
    20.499999999999996, and the function returns 20. *)
Lemma calculateQualityScore_below_a_tie :
  valid_rsrq (-10) /\ valid_sinr 5 /\ valid_cqi 10
  /\ raw_score (-10) 5 10 == 41 # 2
  /\ JS.Math_round (clamp (raw_score (-10) 5 10) 0 100) == 21
  /\ Precise.calculateQualityScore (Precise.VNumber (Finite (-10)))
       (Precise.VNumber (Finite 5)) (Precise.VNumber (Finite 10))
     = Return (Finite 20)
  /\ ~ 20 == JS.Math_round (clamp (raw_score (-10) 5 10) 0 100).
Proof.
  split; [split; unfold Qle; simpl; lia |].
  split; [split; unfold Qle; simpl; lia |].
  split; [split; unfold Qle; simpl; lia |].
  split; [reflexivity |].
  split; [reflexivity |].
  split; [vm_compute; reflexivity |].
  intros H. vm_compute in H. discriminate H.
Qed.

(** C5: the code at NaN.  NaN is of type number and every comparison
    with it is false, so no check throws and the score is NaN. *)
Lemma calculateQualityScore_of_NaN :
  Precise.calculateQualityScore (Precise.VNumber NotANumber)
    (Precise.VNumber (Finite 10)) (Precise.VNumber (Finite 8))
  = Return NotANumber.
Proof. vm_compute. reflexivity. Qed.

Lemma stop_saves_and_summarises_witness :
  let w := two_samples empty_store in
  let w' := Precise.stop_uninterrupted 4000 "alice" w in
  exists summary,
    added w w'
      [InsertMany (map (toDocument "alice") (measurements w));
       Send (msg_session_summary "session-1" summary)]
    /\ sum_measurementCount summary = 2%nat
    /\ averageQuality summary = Some 22
    /\ two_decimals (averageRsrq summary) (mean [-5; -5]) (mean_error 2 100)
    /\ two_decimals (averageSinr summary) (mean [20; 10]) (mean_error 2 100)
    /\ two_decimals (averageCqi summary) (mean [15; 0]) (mean_error 2 100)
    /\ measurements w' = []
    /\ readyState w' = OPEN.
Proof.
  destruct (stop_saves_and_summarises 4000 "alice"
              (two_samples empty_store)
              (map (toDocument "alice")
                   (measurements (two_samples empty_store)))
              {| Example.documents :=
                   map (toDocument "alice")
                       (measurements (two_samples empty_store));
                 Example.reachable := true |}
              [-5; -5] [20; 10] [15; 0] [0; 0] [0; 0] 100)
    as [summary [Hadded [Hcount [Hq [Hr [Hs [Hc [_ [_ [Hms [Hopen _]]]]]]]]]]];
    try reflexivity.
  - discriminate.
  - repeat constructor; [exists 39%Z | exists 4%Z]; reflexivity.
  - repeat constructor; unfold Qle; simpl; lia.
  - unfold Qle. vm_compute. discriminate.
  - exists summary.
    split; [exact Hadded |].
    split; [exact Hcount |].
    split; [exact Hq |].
    split; [exact Hr |].
    split; [exact Hs |].
    split; [exact Hc |].
    split; [exact Hms | exact Hopen].
Defined.

(** Forty CQI values, three of them 1 and the others 0: their mean,
    0.075, is no double, the quotient computed lies below it, and the
    summary reports 0.07 where the exact mean would give 0.08. *)
Lemma toFixed_of_a_mean_below_a_tie :
  let cqis := ([1; 1; 1] ++ repeat 0 37)%list in
  mean cqis == 75 # 1000
  /\ JS.parseFloat_toFixed2 (mean cqis) == 8 # 100
  /\ parseFloat_toFixed2
       (div (fold_left add (map round64 cqis) (literal 0)) (of_Z 40))
     = round64 (7 # 100).
Proof.
  split; [reflexivity |]. split; [reflexivity |]. vm_compute. reflexivity.
Qed.

(** C10 as stated does not hold of every message with an absent
    metric.  With RSRQ absent and SINR 100 the range test fails on the
    SINR: the answer is 'Invalid radio metrics', [calculateQualityScore]
    is not reached, and the message is counted. *)
Lemma absent_metric_beside_invalid_one :
  let data := measurement JUndefined (JNumber 100) (JNumber 5) in
  let w := signed_in empty_store in
  let w' := receive 2000 (Parsed data) w in
  rsrq data = JUndefined
  /\ isValidCoordinate (latitude data) (longitude data) = true
  /\ JS.lt (rsrq data) (-20) || JS.gt (rsrq data) (-3)
     || JS.lt (sinr data) (-10) || JS.gt (sinr data) 30
     || JS.lt (cqi data) 0 || JS.gt (cqi data) 15 = true
  /\ added w w' [Send (msg_error "Invalid radio metrics")]
  /\ ~ added w w'
         [Send (msg_error ("Failed to process message: "
                           ++ "Invalid radio metrics - must be numbers"))]
  /\ measurementCount w' = (measurementCount w + 1)%Z.
Proof.
  split; [reflexivity |].
  split; [reflexivity |].
  split; [reflexivity |].
  split; [reflexivity |].
  split; [| reflexivity].
  intros H. unfold added in H. vm_compute in H. discriminate H.
Qed.

Lemma stop_after_stop_witness :
  let w := two_samples empty_store in
  let docs := map (toDocument "alice") (measurements w) in
  (let w1 := Precise.stop_uninterrupted 4000 "alice" w in
   exists w2,
     Precise.stop_begins "alice" w1 = (None, w2)
     /\ added w1 w2 [Send (msg_error "No measurements recorded")])
  /\ (exists first w1 second w2,
        Precise.stop_begins "alice" w = (Some first, w1)
        /\ Precise.stop_begins "alice" w1 = (Some second, w2)
        /\ added w w2 [InsertMany docs; InsertMany docs]).
Proof.
  destruct (stop_after_stop 4000 "alice" (two_samples empty_store))
    as [[w2 [H1 [H2 _]]] H3]; [reflexivity |].
  split.
  - exists w2. split; [exact H1 | exact H2].
  - apply H3. discriminate.
Defined.

Lemma count_never_falls_witness :
  let w := session [(1000%Z, Parsed (authenticate "alice-token"));
                    (2000%Z, Parsed strong);
                    (3000%Z, Parsed (measurement JNull JNull JNull))]
                   (handleConnection 0 "session-1" empty_store) in
  length (measurements w) = 1%nat
  /\ measurementCount w = 2%Z
  /\ measurementCount (receive 4000 (Parsed (message "stop")) w) = 2%Z.
Proof.
  destruct (count_never_falls
              [(1000%Z, Parsed (authenticate "alice-token"));
               (2000%Z, Parsed strong);
               (3000%Z, Parsed (measurement JNull JNull JNull))]
              0 "session-1" empty_store) as [_ [_ Hstop]].
  split; [reflexivity |]. split; [reflexivity |].
  rewrite (Hstop 4000%Z (message "stop")); reflexivity.
Defined.

Lemma wifi_score_on_doubles_witness :
  Precise.calculateWiFiQualityScore (Some (Finite 20)) (Some NotANumber) None
  = NotANumber
  /\ exists z : Z,
       Precise.calculateWiFiQualityScore (Some (Infinity false)) None
         (Some (Finite 80))
       = Finite (inject_Z z)
       /\ (0 <= z <= 100)%Z.
Proof.
  destruct (wifi_score_on_doubles (Some (Finite 20)) (Some NotANumber) None)
    as [Hnan _].
  destruct (wifi_score_on_doubles (Some (Infinity false)) None
              (Some (Finite 80))) as [_ [Hnumber _]].
  split.
  - apply Hnan. right. left. reflexivity.
  - apply Hnumber; [discriminate | discriminate |].
    right. right. exists 80. split; [reflexivity |].
    unfold Qle. vm_compute. discriminate.
Defined.

End PreciseWitnesses.
